(** * MavDynamics: the fixed-wing dynamics and sensor model of

    [src/models/mav_dynamics_control.py], embedded as Rocq functions.

    Numbers.  The program computes with floating-point numbers; here
    they are real numbers extended with one element [None] for the values
    numpy reports as [nan] or [inf] (a division by zero, a square root or
    arc sine taken outside its domain).  Every operation is strict in
    [None], as [nan] is.  Rounding is not modelled: a statement about a
    value is a statement about the real number the program approximates.
    Where rounding decides a question, the module [Binary64] evaluates
    the code in the binary64 arithmetic it runs in.

    State.  A [MavDynamics] object is a record with one field per
    attribute; a method is a function from the object to the object.
    [sensors], which draws noise from numpy's global generator and can
    raise, lives in a state-and-exception monad over the object and the
    position in the stream of standard normal draws; a raised exception
    keeps the mutations made before it, as in Python.

    Code of the repository that is not in this file's source (the parent
    class, the rotation utilities, the message classes and the parameter
    modules) enters as section variables. *)

From Stdlib Require Import Reals Lra List ZArith.
From Corelib Require PrimFloat.
Import ListNotations.

Local Open Scope R_scope.

(** ** Numbers *)

Definition num : Type := option R.

Definition fin (x : R) : num := Some x.

Coercion fin : R >-> num.

Definition lift1 (f : R -> R) (x : num) : num :=
  match x with
  | Some a => Some (f a)
  | None => None
  end.

Definition lift2 (f : R -> R -> R) (x y : num) : num :=
  match x, y with
  | Some a, Some b => Some (f a b)
  | _, _ => None
  end.

Definition nadd : num -> num -> num := lift2 Rplus.
Definition nsub : num -> num -> num := lift2 Rminus.
Definition nmul : num -> num -> num := lift2 Rmult.
Definition nneg : num -> num := lift1 Ropp.

(** [x / y] on numpy scalars: a zero divisor gives [inf] or [nan]. *)
Definition ndiv (x y : num) : num :=
  match x, y with
  | Some a, Some b => if Req_dec_T b 0 then None else Some (a / b)
  | _, _ => None
  end.

(** [x**2]. *)
Definition npow2 (x : num) : num := nmul x x.

Definition np_exp : num -> num := lift1 exp.
Definition np_sin : num -> num := lift1 sin.
Definition np_cos : num -> num := lift1 cos.

(** [np.sqrt]: [nan] on a negative argument. *)
Definition np_sqrt (x : num) : num :=
  match x with
  | Some a => if Rlt_dec a 0 then None else Some (sqrt a)
  | None => None
  end.

(** [np.arcsin]: [nan] outside [[-1, 1]]. *)
Definition np_arcsin (x : num) : num :=
  match x with
  | Some a =>
      if Rlt_dec a (-1) then None
      else if Rlt_dec 1 a then None
      else Some (asin a)
  | None => None
  end.

(** The two-argument arc tangent on reals, by quadrant. *)
Definition atan2 (y x : R) : R :=
  if Rlt_dec 0 x then atan (y / x)
  else if Rlt_dec x 0 then
    if Rlt_dec y 0 then atan (y / x) - PI else atan (y / x) + PI
  else if Rlt_dec 0 y then PI / 2
  else if Rlt_dec y 0 then - (PI / 2)
  else 0.

Definition np_arctan2 : num -> num -> num := lift2 atan2.

Definition sign (a : R) : R :=
  if Rlt_dec a 0 then -1 else if Rlt_dec 0 a then 1 else 0.

Definition np_sign : num -> num := lift1 sign.

Definition np_radians (d : R) : R := d * PI / 180.
Definition np_deg2rad (d : R) : R := d * PI / 180.

(** [x >= y] on floats: false as soon as one side is [nan]. *)
Definition nge (x y : num) : bool :=
  match x, y with
  | Some a, Some b => if Rle_dec b a then true else false
  | _, _ => false
  end.

Declare Scope num_scope.
Delimit Scope num_scope with num.
Bind Scope num_scope with num.

Notation "x + y" := (nadd x y) : num_scope.
Notation "x - y" := (nsub x y) : num_scope.
Notation "x * y" := (nmul x y) : num_scope.
Notation "x / y" := (ndiv x y) : num_scope.
Notation "- x" := (nneg x) : num_scope.
Notation "x >=? y" := (nge x y) (at level 70, no associativity) : num_scope.

(** ** Exceptions *)

Inductive exn : Type :=
| TypeError
| IndexError
| ZeroDivisionError
| ValueError.

(** [x ** y] on Python floats, as in the barometric formula, whose base
    comes from [ndarray.item] and whose exponent from module constants: a
    zero base with a negative exponent raises; a negative base with an
    exponent that is not an integer, as the formula's is, gives a complex
    number (here [None], no real value). *)
Definition py_pow (x y : num) : exn + num :=
  match x, y with
  | Some a, Some b =>
      if Req_dec_T a 0 then
        if Rlt_dec b 0 then inl ZeroDivisionError
        else if Req_dec_T b 0 then inr (fin 1) else inr (fin 0)
      else if Rlt_dec a 0 then inr None
      else inr (fin (Rpower a b))
  | _, _ => inr None
  end.

(** ** Arrays *)

Definition vec3 : Type := (num * num * num)%type.

(** A 3x3 array, by rows. *)
Definition mat3 : Type := (vec3 * vec3 * vec3)%type.

Definition zeros3 : vec3 := (fin 0, fin 0, fin 0).

Definition vsub (a b : vec3) : vec3 :=
  let '(a0, a1, a2) := a in
  let '(b0, b1, b2) := b in
  (a0 - b0, a1 - b1, a2 - b2)%num.

Definition dot3 (a b : vec3) : num :=
  let '(a0, a1, a2) := a in
  let '(b0, b1, b2) := b in
  (a0 * b0 + a1 * b1 + a2 * b2)%num.

(** [m.T]. *)
Definition transpose (m : mat3) : mat3 :=
  let '((a00, a01, a02), (a10, a11, a12), (a20, a21, a22)) := m in
  ((a00, a10, a20), (a01, a11, a21), (a02, a12, a22)).

(** [m @ v], and [m * v] when [v] is an [np.matrix]. *)
Definition matvec (m : mat3) (v : vec3) : vec3 :=
  let '(r0, r1, r2) := m in
  (dot3 r0 v, dot3 r1 v, dot3 r2 v).

(** [np.linalg.norm] of a 3-vector. *)
Definition norm3 (a : vec3) : num :=
  let '(a0, a1, a2) := a in
  np_sqrt (a0 * a0 + a1 * a1 + a2 * a2)%num.

(** The 13x1 state array of the parent class:
    position, body velocity, attitude quaternion, body rates. *)
Record ndarray13 : Type := mkState {
  row0 : num; row1 : num; row2 : num;
  row3 : num; row4 : num; row5 : num;
  row6 : num; row7 : num; row8 : num; row9 : num;
  row10 : num; row11 : num; row12 : num
}.

(** [_state[3] = v], [_state[4] = v], [_state[5] = v]. *)
Definition set_row3 (v : num) (s : ndarray13) : ndarray13 :=
  {| row0 := row0 s; row1 := row1 s; row2 := row2 s;
     row3 := v; row4 := row4 s; row5 := row5 s;
     row6 := row6 s; row7 := row7 s; row8 := row8 s; row9 := row9 s;
     row10 := row10 s; row11 := row11 s; row12 := row12 s |}.

Definition set_row4 (v : num) (s : ndarray13) : ndarray13 :=
  {| row0 := row0 s; row1 := row1 s; row2 := row2 s;
     row3 := row3 s; row4 := v; row5 := row5 s;
     row6 := row6 s; row7 := row7 s; row8 := row8 s; row9 := row9 s;
     row10 := row10 s; row11 := row11 s; row12 := row12 s |}.

Definition set_row5 (v : num) (s : ndarray13) : ndarray13 :=
  {| row0 := row0 s; row1 := row1 s; row2 := row2 s;
     row3 := row3 s; row4 := row4 s; row5 := v;
     row6 := row6 s; row7 := row7 s; row8 := row8 s; row9 := row9 s;
     row10 := row10 s; row11 := row11 s; row12 := row12 s |}.

(** [_state[3:6]] and [_state[6:10]]. *)
Definition rows_3_6 (s : ndarray13) : vec3 := (row3 s, row4 s, row5 s).

Definition rows_6_10 (s : ndarray13) : num * num * num * num :=
  (row6 s, row7 s, row8 s, row9 s).

(** The 6x1 wind array: steady wind, then gust. *)
Record ndarray6 : Type := mkWind {
  wind0 : num; wind1 : num; wind2 : num;
  wind3 : num; wind4 : num; wind5 : num
}.

(** [np.zeros((6,1))]. *)
Definition zeros6 : ndarray6 :=
  {| wind0 := fin 0; wind1 := fin 0; wind2 := fin 0;
     wind3 := fin 0; wind4 := fin 0; wind5 := fin 0 |}.

(** [wind[0:3]] and [wind[3:6]]. *)
Definition wind_0_3 (w : ndarray6) : vec3 := (wind0 w, wind1 w, wind2 w).
Definition wind_3_6 (w : ndarray6) : vec3 := (wind3 w, wind4 w, wind5 w).

(** The two shapes [current_forces_moments] takes: the list of ints the
    constructor stores and the 6x1 array the force model stores. *)
Inductive pyobj : Type :=
| PyIntList (l : list Z)
| NdColumn (l : list num).

(** [o[i][0]]. *)
Definition index2 (o : pyobj) (i : nat) : exn + num :=
  match o with
  | PyIntList l =>
      match nth_error l i with
      | Some _ => inl TypeError
      | None => inl IndexError
      end
  | NdColumn l =>
      match nth_error l i with
      | Some x => inr x
      | None => inl IndexError
      end
  end.

(** ** Messages *)

Module MsgState.

(** The true-state message ([message_types.msg_state.MsgState]): one
    attribute per quantity the projector writes. *)
Record t : Type := mk {
  north : num;
  east : num;
  altitude : num;
  phi : num;
  theta : num;
  psi : num;
  Va : num;
  alpha : num;
  beta : num;
  p : num;
  q : num;
  r : num;
  Vg : num;
  gamma : num;
  chi : num;
  wn : num;
  we : num;
  bx : num;
  by_ : num;
  bz : num;
  camera_az : num;
  camera_el : num
}.

Definition set_north (v : num) (m : t) : t :=
  {| north := v; east := east m; altitude := altitude m; phi := phi m;
     theta := theta m; psi := psi m; Va := Va m; alpha := alpha m;
     beta := beta m; p := p m; q := q m; r := r m; Vg := Vg m;
     gamma := gamma m; chi := chi m; wn := wn m; we := we m; bx := bx m;
     by_ := by_ m; bz := bz m; camera_az := camera_az m;
     camera_el := camera_el m |}.

Definition set_east (v : num) (m : t) : t :=
  {| north := north m; east := v; altitude := altitude m; phi := phi m;
     theta := theta m; psi := psi m; Va := Va m; alpha := alpha m;
     beta := beta m; p := p m; q := q m; r := r m; Vg := Vg m;
     gamma := gamma m; chi := chi m; wn := wn m; we := we m; bx := bx m;
     by_ := by_ m; bz := bz m; camera_az := camera_az m;
     camera_el := camera_el m |}.

Definition set_altitude (v : num) (m : t) : t :=
  {| north := north m; east := east m; altitude := v; phi := phi m;
     theta := theta m; psi := psi m; Va := Va m; alpha := alpha m;
     beta := beta m; p := p m; q := q m; r := r m; Vg := Vg m;
     gamma := gamma m; chi := chi m; wn := wn m; we := we m; bx := bx m;
     by_ := by_ m; bz := bz m; camera_az := camera_az m;
     camera_el := camera_el m |}.

Definition set_phi (v : num) (m : t) : t :=
  {| north := north m; east := east m; altitude := altitude m; phi := v;
     theta := theta m; psi := psi m; Va := Va m; alpha := alpha m;
     beta := beta m; p := p m; q := q m; r := r m; Vg := Vg m;
     gamma := gamma m; chi := chi m; wn := wn m; we := we m; bx := bx m;
     by_ := by_ m; bz := bz m; camera_az := camera_az m;
     camera_el := camera_el m |}.

Definition set_theta (v : num) (m : t) : t :=
  {| north := north m; east := east m; altitude := altitude m; phi := phi m;
     theta := v; psi := psi m; Va := Va m; alpha := alpha m; beta := beta m;
     p := p m; q := q m; r := r m; Vg := Vg m; gamma := gamma m;
     chi := chi m; wn := wn m; we := we m; bx := bx m; by_ := by_ m;
     bz := bz m; camera_az := camera_az m; camera_el := camera_el m |}.

Definition set_psi (v : num) (m : t) : t :=
  {| north := north m; east := east m; altitude := altitude m; phi := phi m;
     theta := theta m; psi := v; Va := Va m; alpha := alpha m;
     beta := beta m; p := p m; q := q m; r := r m; Vg := Vg m;
     gamma := gamma m; chi := chi m; wn := wn m; we := we m; bx := bx m;
     by_ := by_ m; bz := bz m; camera_az := camera_az m;
     camera_el := camera_el m |}.

Definition set_Va (v : num) (m : t) : t :=
  {| north := north m; east := east m; altitude := altitude m; phi := phi m;
     theta := theta m; psi := psi m; Va := v; alpha := alpha m;
     beta := beta m; p := p m; q := q m; r := r m; Vg := Vg m;
     gamma := gamma m; chi := chi m; wn := wn m; we := we m; bx := bx m;
     by_ := by_ m; bz := bz m; camera_az := camera_az m;
     camera_el := camera_el m |}.

Definition set_alpha (v : num) (m : t) : t :=
  {| north := north m; east := east m; altitude := altitude m; phi := phi m;
     theta := theta m; psi := psi m; Va := Va m; alpha := v; beta := beta m;
     p := p m; q := q m; r := r m; Vg := Vg m; gamma := gamma m;
     chi := chi m; wn := wn m; we := we m; bx := bx m; by_ := by_ m;
     bz := bz m; camera_az := camera_az m; camera_el := camera_el m |}.

Definition set_beta (v : num) (m : t) : t :=
  {| north := north m; east := east m; altitude := altitude m; phi := phi m;
     theta := theta m; psi := psi m; Va := Va m; alpha := alpha m; beta := v;
     p := p m; q := q m; r := r m; Vg := Vg m; gamma := gamma m;
     chi := chi m; wn := wn m; we := we m; bx := bx m; by_ := by_ m;
     bz := bz m; camera_az := camera_az m; camera_el := camera_el m |}.

Definition set_p (v : num) (m : t) : t :=
  {| north := north m; east := east m; altitude := altitude m; phi := phi m;
     theta := theta m; psi := psi m; Va := Va m; alpha := alpha m;
     beta := beta m; p := v; q := q m; r := r m; Vg := Vg m;
     gamma := gamma m; chi := chi m; wn := wn m; we := we m; bx := bx m;
     by_ := by_ m; bz := bz m; camera_az := camera_az m;
     camera_el := camera_el m |}.

Definition set_q (v : num) (m : t) : t :=
  {| north := north m; east := east m; altitude := altitude m; phi := phi m;
     theta := theta m; psi := psi m; Va := Va m; alpha := alpha m;
     beta := beta m; p := p m; q := v; r := r m; Vg := Vg m;
     gamma := gamma m; chi := chi m; wn := wn m; we := we m; bx := bx m;
     by_ := by_ m; bz := bz m; camera_az := camera_az m;
     camera_el := camera_el m |}.

Definition set_r (v : num) (m : t) : t :=
  {| north := north m; east := east m; altitude := altitude m; phi := phi m;
     theta := theta m; psi := psi m; Va := Va m; alpha := alpha m;
     beta := beta m; p := p m; q := q m; r := v; Vg := Vg m;
     gamma := gamma m; chi := chi m; wn := wn m; we := we m; bx := bx m;
     by_ := by_ m; bz := bz m; camera_az := camera_az m;
     camera_el := camera_el m |}.

Definition set_Vg (v : num) (m : t) : t :=
  {| north := north m; east := east m; altitude := altitude m; phi := phi m;
     theta := theta m; psi := psi m; Va := Va m; alpha := alpha m;
     beta := beta m; p := p m; q := q m; r := r m; Vg := v; gamma := gamma m;
     chi := chi m; wn := wn m; we := we m; bx := bx m; by_ := by_ m;
     bz := bz m; camera_az := camera_az m; camera_el := camera_el m |}.

Definition set_gamma (v : num) (m : t) : t :=
  {| north := north m; east := east m; altitude := altitude m; phi := phi m;
     theta := theta m; psi := psi m; Va := Va m; alpha := alpha m;
     beta := beta m; p := p m; q := q m; r := r m; Vg := Vg m; gamma := v;
     chi := chi m; wn := wn m; we := we m; bx := bx m; by_ := by_ m;
     bz := bz m; camera_az := camera_az m; camera_el := camera_el m |}.

Definition set_chi (v : num) (m : t) : t :=
  {| north := north m; east := east m; altitude := altitude m; phi := phi m;
     theta := theta m; psi := psi m; Va := Va m; alpha := alpha m;
     beta := beta m; p := p m; q := q m; r := r m; Vg := Vg m;
     gamma := gamma m; chi := v; wn := wn m; we := we m; bx := bx m;
     by_ := by_ m; bz := bz m; camera_az := camera_az m;
     camera_el := camera_el m |}.

Definition set_wn (v : num) (m : t) : t :=
  {| north := north m; east := east m; altitude := altitude m; phi := phi m;
     theta := theta m; psi := psi m; Va := Va m; alpha := alpha m;
     beta := beta m; p := p m; q := q m; r := r m; Vg := Vg m;
     gamma := gamma m; chi := chi m; wn := v; we := we m; bx := bx m;
     by_ := by_ m; bz := bz m; camera_az := camera_az m;
     camera_el := camera_el m |}.

Definition set_we (v : num) (m : t) : t :=
  {| north := north m; east := east m; altitude := altitude m; phi := phi m;
     theta := theta m; psi := psi m; Va := Va m; alpha := alpha m;
     beta := beta m; p := p m; q := q m; r := r m; Vg := Vg m;
     gamma := gamma m; chi := chi m; wn := wn m; we := v; bx := bx m;
     by_ := by_ m; bz := bz m; camera_az := camera_az m;
     camera_el := camera_el m |}.

Definition set_bx (v : num) (m : t) : t :=
  {| north := north m; east := east m; altitude := altitude m; phi := phi m;
     theta := theta m; psi := psi m; Va := Va m; alpha := alpha m;
     beta := beta m; p := p m; q := q m; r := r m; Vg := Vg m;
     gamma := gamma m; chi := chi m; wn := wn m; we := we m; bx := v;
     by_ := by_ m; bz := bz m; camera_az := camera_az m;
     camera_el := camera_el m |}.

Definition set_by_ (v : num) (m : t) : t :=
  {| north := north m; east := east m; altitude := altitude m; phi := phi m;
     theta := theta m; psi := psi m; Va := Va m; alpha := alpha m;
     beta := beta m; p := p m; q := q m; r := r m; Vg := Vg m;
     gamma := gamma m; chi := chi m; wn := wn m; we := we m; bx := bx m;
     by_ := v; bz := bz m; camera_az := camera_az m;
     camera_el := camera_el m |}.

Definition set_bz (v : num) (m : t) : t :=
  {| north := north m; east := east m; altitude := altitude m; phi := phi m;
     theta := theta m; psi := psi m; Va := Va m; alpha := alpha m;
     beta := beta m; p := p m; q := q m; r := r m; Vg := Vg m;
     gamma := gamma m; chi := chi m; wn := wn m; we := we m; bx := bx m;
     by_ := by_ m; bz := v; camera_az := camera_az m;
     camera_el := camera_el m |}.

Definition set_camera_az (v : num) (m : t) : t :=
  {| north := north m; east := east m; altitude := altitude m; phi := phi m;
     theta := theta m; psi := psi m; Va := Va m; alpha := alpha m;
     beta := beta m; p := p m; q := q m; r := r m; Vg := Vg m;
     gamma := gamma m; chi := chi m; wn := wn m; we := we m; bx := bx m;
     by_ := by_ m; bz := bz m; camera_az := v; camera_el := camera_el m |}.

Definition set_camera_el (v : num) (m : t) : t :=
  {| north := north m; east := east m; altitude := altitude m; phi := phi m;
     theta := theta m; psi := psi m; Va := Va m; alpha := alpha m;
     beta := beta m; p := p m; q := q m; r := r m; Vg := Vg m;
     gamma := gamma m; chi := chi m; wn := wn m; we := we m; bx := bx m;
     by_ := by_ m; bz := bz m; camera_az := camera_az m; camera_el := v |}.

End MsgState.

Module MsgSensors.

(** The sensor message ([message_types.msg_sensors.MsgSensors]). *)
Record t : Type := mk {
  gyro_x : num;
  gyro_y : num;
  gyro_z : num;
  accel_x : num;
  accel_y : num;
  accel_z : num;
  mag_x : num;
  mag_y : num;
  mag_z : num;
  abs_pressure : num;
  diff_pressure : num;
  gps_n : num;
  gps_e : num;
  gps_h : num;
  gps_Vg : num;
  gps_course : num
}.

Definition set_gyro_x (v : num) (m : t) : t :=
  {| gyro_x := v; gyro_y := gyro_y m; gyro_z := gyro_z m;
     accel_x := accel_x m; accel_y := accel_y m; accel_z := accel_z m;
     mag_x := mag_x m; mag_y := mag_y m; mag_z := mag_z m;
     abs_pressure := abs_pressure m; diff_pressure := diff_pressure m;
     gps_n := gps_n m; gps_e := gps_e m; gps_h := gps_h m;
     gps_Vg := gps_Vg m; gps_course := gps_course m |}.

Definition set_gyro_y (v : num) (m : t) : t :=
  {| gyro_x := gyro_x m; gyro_y := v; gyro_z := gyro_z m;
     accel_x := accel_x m; accel_y := accel_y m; accel_z := accel_z m;
     mag_x := mag_x m; mag_y := mag_y m; mag_z := mag_z m;
     abs_pressure := abs_pressure m; diff_pressure := diff_pressure m;
     gps_n := gps_n m; gps_e := gps_e m; gps_h := gps_h m;
     gps_Vg := gps_Vg m; gps_course := gps_course m |}.

Definition set_gyro_z (v : num) (m : t) : t :=
  {| gyro_x := gyro_x m; gyro_y := gyro_y m; gyro_z := v;
     accel_x := accel_x m; accel_y := accel_y m; accel_z := accel_z m;
     mag_x := mag_x m; mag_y := mag_y m; mag_z := mag_z m;
     abs_pressure := abs_pressure m; diff_pressure := diff_pressure m;
     gps_n := gps_n m; gps_e := gps_e m; gps_h := gps_h m;
     gps_Vg := gps_Vg m; gps_course := gps_course m |}.

Definition set_accel_x (v : num) (m : t) : t :=
  {| gyro_x := gyro_x m; gyro_y := gyro_y m; gyro_z := gyro_z m;
     accel_x := v; accel_y := accel_y m; accel_z := accel_z m;
     mag_x := mag_x m; mag_y := mag_y m; mag_z := mag_z m;
     abs_pressure := abs_pressure m; diff_pressure := diff_pressure m;
     gps_n := gps_n m; gps_e := gps_e m; gps_h := gps_h m;
     gps_Vg := gps_Vg m; gps_course := gps_course m |}.

Definition set_accel_y (v : num) (m : t) : t :=
  {| gyro_x := gyro_x m; gyro_y := gyro_y m; gyro_z := gyro_z m;
     accel_x := accel_x m; accel_y := v; accel_z := accel_z m;
     mag_x := mag_x m; mag_y := mag_y m; mag_z := mag_z m;
     abs_pressure := abs_pressure m; diff_pressure := diff_pressure m;
     gps_n := gps_n m; gps_e := gps_e m; gps_h := gps_h m;
     gps_Vg := gps_Vg m; gps_course := gps_course m |}.

Definition set_accel_z (v : num) (m : t) : t :=
  {| gyro_x := gyro_x m; gyro_y := gyro_y m; gyro_z := gyro_z m;
     accel_x := accel_x m; accel_y := accel_y m; accel_z := v;
     mag_x := mag_x m; mag_y := mag_y m; mag_z := mag_z m;
     abs_pressure := abs_pressure m; diff_pressure := diff_pressure m;
     gps_n := gps_n m; gps_e := gps_e m; gps_h := gps_h m;
     gps_Vg := gps_Vg m; gps_course := gps_course m |}.

Definition set_mag_x (v : num) (m : t) : t :=
  {| gyro_x := gyro_x m; gyro_y := gyro_y m; gyro_z := gyro_z m;
     accel_x := accel_x m; accel_y := accel_y m; accel_z := accel_z m;
     mag_x := v; mag_y := mag_y m; mag_z := mag_z m;
     abs_pressure := abs_pressure m; diff_pressure := diff_pressure m;
     gps_n := gps_n m; gps_e := gps_e m; gps_h := gps_h m;
     gps_Vg := gps_Vg m; gps_course := gps_course m |}.

Definition set_mag_y (v : num) (m : t) : t :=
  {| gyro_x := gyro_x m; gyro_y := gyro_y m; gyro_z := gyro_z m;
     accel_x := accel_x m; accel_y := accel_y m; accel_z := accel_z m;
     mag_x := mag_x m; mag_y := v; mag_z := mag_z m;
     abs_pressure := abs_pressure m; diff_pressure := diff_pressure m;
     gps_n := gps_n m; gps_e := gps_e m; gps_h := gps_h m;
     gps_Vg := gps_Vg m; gps_course := gps_course m |}.

Definition set_mag_z (v : num) (m : t) : t :=
  {| gyro_x := gyro_x m; gyro_y := gyro_y m; gyro_z := gyro_z m;
     accel_x := accel_x m; accel_y := accel_y m; accel_z := accel_z m;
     mag_x := mag_x m; mag_y := mag_y m; mag_z := v;
     abs_pressure := abs_pressure m; diff_pressure := diff_pressure m;
     gps_n := gps_n m; gps_e := gps_e m; gps_h := gps_h m;
     gps_Vg := gps_Vg m; gps_course := gps_course m |}.

Definition set_abs_pressure (v : num) (m : t) : t :=
  {| gyro_x := gyro_x m; gyro_y := gyro_y m; gyro_z := gyro_z m;
     accel_x := accel_x m; accel_y := accel_y m; accel_z := accel_z m;
     mag_x := mag_x m; mag_y := mag_y m; mag_z := mag_z m; abs_pressure := v;
     diff_pressure := diff_pressure m; gps_n := gps_n m; gps_e := gps_e m;
     gps_h := gps_h m; gps_Vg := gps_Vg m; gps_course := gps_course m |}.

Definition set_diff_pressure (v : num) (m : t) : t :=
  {| gyro_x := gyro_x m; gyro_y := gyro_y m; gyro_z := gyro_z m;
     accel_x := accel_x m; accel_y := accel_y m; accel_z := accel_z m;
     mag_x := mag_x m; mag_y := mag_y m; mag_z := mag_z m;
     abs_pressure := abs_pressure m; diff_pressure := v; gps_n := gps_n m;
     gps_e := gps_e m; gps_h := gps_h m; gps_Vg := gps_Vg m;
     gps_course := gps_course m |}.

Definition set_gps_n (v : num) (m : t) : t :=
  {| gyro_x := gyro_x m; gyro_y := gyro_y m; gyro_z := gyro_z m;
     accel_x := accel_x m; accel_y := accel_y m; accel_z := accel_z m;
     mag_x := mag_x m; mag_y := mag_y m; mag_z := mag_z m;
     abs_pressure := abs_pressure m; diff_pressure := diff_pressure m;
     gps_n := v; gps_e := gps_e m; gps_h := gps_h m; gps_Vg := gps_Vg m;
     gps_course := gps_course m |}.

Definition set_gps_e (v : num) (m : t) : t :=
  {| gyro_x := gyro_x m; gyro_y := gyro_y m; gyro_z := gyro_z m;
     accel_x := accel_x m; accel_y := accel_y m; accel_z := accel_z m;
     mag_x := mag_x m; mag_y := mag_y m; mag_z := mag_z m;
     abs_pressure := abs_pressure m; diff_pressure := diff_pressure m;
     gps_n := gps_n m; gps_e := v; gps_h := gps_h m; gps_Vg := gps_Vg m;
     gps_course := gps_course m |}.

Definition set_gps_h (v : num) (m : t) : t :=
  {| gyro_x := gyro_x m; gyro_y := gyro_y m; gyro_z := gyro_z m;
     accel_x := accel_x m; accel_y := accel_y m; accel_z := accel_z m;
     mag_x := mag_x m; mag_y := mag_y m; mag_z := mag_z m;
     abs_pressure := abs_pressure m; diff_pressure := diff_pressure m;
     gps_n := gps_n m; gps_e := gps_e m; gps_h := v; gps_Vg := gps_Vg m;
     gps_course := gps_course m |}.

Definition set_gps_Vg (v : num) (m : t) : t :=
  {| gyro_x := gyro_x m; gyro_y := gyro_y m; gyro_z := gyro_z m;
     accel_x := accel_x m; accel_y := accel_y m; accel_z := accel_z m;
     mag_x := mag_x m; mag_y := mag_y m; mag_z := mag_z m;
     abs_pressure := abs_pressure m; diff_pressure := diff_pressure m;
     gps_n := gps_n m; gps_e := gps_e m; gps_h := gps_h m; gps_Vg := v;
     gps_course := gps_course m |}.

Definition set_gps_course (v : num) (m : t) : t :=
  {| gyro_x := gyro_x m; gyro_y := gyro_y m; gyro_z := gyro_z m;
     accel_x := accel_x m; accel_y := accel_y m; accel_z := accel_z m;
     mag_x := mag_x m; mag_y := mag_y m; mag_z := mag_z m;
     abs_pressure := abs_pressure m; diff_pressure := diff_pressure m;
     gps_n := gps_n m; gps_e := gps_e m; gps_h := gps_h m;
     gps_Vg := gps_Vg m; gps_course := v |}.

End MsgSensors.

Module MsgDelta.

(** The control message ([message_types.msg_delta.MsgDelta]). *)
Record t : Type := mk {
  elevator : num;
  aileron : num;
  rudder : num;
  throttle : num
}.

End MsgDelta.


(** ** The object

    One field per attribute of a [MavDynamics] instance.  [_gps_eta_Vg]
    and [_gps_eta_course] do not exist until [sensors] first assigns
    them: [None] is the missing attribute. *)
Record MavDynamics : Type := mkMav {
  _state : ndarray13;
  _ts_simulation : num;
  true_state : MsgState.t;
  _wind : vec3;
  _forces : vec3;
  _Va : num;
  _alpha : num;
  _beta : num;
  _sensors : MsgSensors.t;
  _gps_eta_n : num;
  _gps_eta_e : num;
  _gps_eta_h : num;
  _gps_eta_Vg : option num;
  _gps_eta_course : option num;
  _t_gps : num;
  current_forces_moments : pyobj
}.

Definition set__state (v : ndarray13) (m : MavDynamics) : MavDynamics :=
  {| _state := v; _ts_simulation := _ts_simulation m;
     true_state := true_state m; _wind := _wind m; _forces := _forces m;
     _Va := _Va m; _alpha := _alpha m; _beta := _beta m;
     _sensors := _sensors m; _gps_eta_n := _gps_eta_n m;
     _gps_eta_e := _gps_eta_e m; _gps_eta_h := _gps_eta_h m;
     _gps_eta_Vg := _gps_eta_Vg m; _gps_eta_course := _gps_eta_course m;
     _t_gps := _t_gps m;
     current_forces_moments := current_forces_moments m |}.

Definition set__ts_simulation (v : num) (m : MavDynamics) : MavDynamics :=
  {| _state := _state m; _ts_simulation := v; true_state := true_state m;
     _wind := _wind m; _forces := _forces m; _Va := _Va m;
     _alpha := _alpha m; _beta := _beta m; _sensors := _sensors m;
     _gps_eta_n := _gps_eta_n m; _gps_eta_e := _gps_eta_e m;
     _gps_eta_h := _gps_eta_h m; _gps_eta_Vg := _gps_eta_Vg m;
     _gps_eta_course := _gps_eta_course m; _t_gps := _t_gps m;
     current_forces_moments := current_forces_moments m |}.

Definition set_true_state (v : MsgState.t) (m : MavDynamics) : MavDynamics :=
  {| _state := _state m; _ts_simulation := _ts_simulation m; true_state := v;
     _wind := _wind m; _forces := _forces m; _Va := _Va m;
     _alpha := _alpha m; _beta := _beta m; _sensors := _sensors m;
     _gps_eta_n := _gps_eta_n m; _gps_eta_e := _gps_eta_e m;
     _gps_eta_h := _gps_eta_h m; _gps_eta_Vg := _gps_eta_Vg m;
     _gps_eta_course := _gps_eta_course m; _t_gps := _t_gps m;
     current_forces_moments := current_forces_moments m |}.

Definition set__wind (v : vec3) (m : MavDynamics) : MavDynamics :=
  {| _state := _state m; _ts_simulation := _ts_simulation m;
     true_state := true_state m; _wind := v; _forces := _forces m;
     _Va := _Va m; _alpha := _alpha m; _beta := _beta m;
     _sensors := _sensors m; _gps_eta_n := _gps_eta_n m;
     _gps_eta_e := _gps_eta_e m; _gps_eta_h := _gps_eta_h m;
     _gps_eta_Vg := _gps_eta_Vg m; _gps_eta_course := _gps_eta_course m;
     _t_gps := _t_gps m;
     current_forces_moments := current_forces_moments m |}.

Definition set__forces (v : vec3) (m : MavDynamics) : MavDynamics :=
  {| _state := _state m; _ts_simulation := _ts_simulation m;
     true_state := true_state m; _wind := _wind m; _forces := v;
     _Va := _Va m; _alpha := _alpha m; _beta := _beta m;
     _sensors := _sensors m; _gps_eta_n := _gps_eta_n m;
     _gps_eta_e := _gps_eta_e m; _gps_eta_h := _gps_eta_h m;
     _gps_eta_Vg := _gps_eta_Vg m; _gps_eta_course := _gps_eta_course m;
     _t_gps := _t_gps m;
     current_forces_moments := current_forces_moments m |}.

Definition set__Va (v : num) (m : MavDynamics) : MavDynamics :=
  {| _state := _state m; _ts_simulation := _ts_simulation m;
     true_state := true_state m; _wind := _wind m; _forces := _forces m;
     _Va := v; _alpha := _alpha m; _beta := _beta m; _sensors := _sensors m;
     _gps_eta_n := _gps_eta_n m; _gps_eta_e := _gps_eta_e m;
     _gps_eta_h := _gps_eta_h m; _gps_eta_Vg := _gps_eta_Vg m;
     _gps_eta_course := _gps_eta_course m; _t_gps := _t_gps m;
     current_forces_moments := current_forces_moments m |}.

Definition set__alpha (v : num) (m : MavDynamics) : MavDynamics :=
  {| _state := _state m; _ts_simulation := _ts_simulation m;
     true_state := true_state m; _wind := _wind m; _forces := _forces m;
     _Va := _Va m; _alpha := v; _beta := _beta m; _sensors := _sensors m;
     _gps_eta_n := _gps_eta_n m; _gps_eta_e := _gps_eta_e m;
     _gps_eta_h := _gps_eta_h m; _gps_eta_Vg := _gps_eta_Vg m;
     _gps_eta_course := _gps_eta_course m; _t_gps := _t_gps m;
     current_forces_moments := current_forces_moments m |}.

Definition set__beta (v : num) (m : MavDynamics) : MavDynamics :=
  {| _state := _state m; _ts_simulation := _ts_simulation m;
     true_state := true_state m; _wind := _wind m; _forces := _forces m;
     _Va := _Va m; _alpha := _alpha m; _beta := v; _sensors := _sensors m;
     _gps_eta_n := _gps_eta_n m; _gps_eta_e := _gps_eta_e m;
     _gps_eta_h := _gps_eta_h m; _gps_eta_Vg := _gps_eta_Vg m;
     _gps_eta_course := _gps_eta_course m; _t_gps := _t_gps m;
     current_forces_moments := current_forces_moments m |}.

Definition set__sensors (v : MsgSensors.t) (m : MavDynamics) : MavDynamics :=
  {| _state := _state m; _ts_simulation := _ts_simulation m;
     true_state := true_state m; _wind := _wind m; _forces := _forces m;
     _Va := _Va m; _alpha := _alpha m; _beta := _beta m; _sensors := v;
     _gps_eta_n := _gps_eta_n m; _gps_eta_e := _gps_eta_e m;
     _gps_eta_h := _gps_eta_h m; _gps_eta_Vg := _gps_eta_Vg m;
     _gps_eta_course := _gps_eta_course m; _t_gps := _t_gps m;
     current_forces_moments := current_forces_moments m |}.

Definition set__gps_eta_n (v : num) (m : MavDynamics) : MavDynamics :=
  {| _state := _state m; _ts_simulation := _ts_simulation m;
     true_state := true_state m; _wind := _wind m; _forces := _forces m;
     _Va := _Va m; _alpha := _alpha m; _beta := _beta m;
     _sensors := _sensors m; _gps_eta_n := v; _gps_eta_e := _gps_eta_e m;
     _gps_eta_h := _gps_eta_h m; _gps_eta_Vg := _gps_eta_Vg m;
     _gps_eta_course := _gps_eta_course m; _t_gps := _t_gps m;
     current_forces_moments := current_forces_moments m |}.

Definition set__gps_eta_e (v : num) (m : MavDynamics) : MavDynamics :=
  {| _state := _state m; _ts_simulation := _ts_simulation m;
     true_state := true_state m; _wind := _wind m; _forces := _forces m;
     _Va := _Va m; _alpha := _alpha m; _beta := _beta m;
     _sensors := _sensors m; _gps_eta_n := _gps_eta_n m; _gps_eta_e := v;
     _gps_eta_h := _gps_eta_h m; _gps_eta_Vg := _gps_eta_Vg m;
     _gps_eta_course := _gps_eta_course m; _t_gps := _t_gps m;
     current_forces_moments := current_forces_moments m |}.

Definition set__gps_eta_h (v : num) (m : MavDynamics) : MavDynamics :=
  {| _state := _state m; _ts_simulation := _ts_simulation m;
     true_state := true_state m; _wind := _wind m; _forces := _forces m;
     _Va := _Va m; _alpha := _alpha m; _beta := _beta m;
     _sensors := _sensors m; _gps_eta_n := _gps_eta_n m;
     _gps_eta_e := _gps_eta_e m; _gps_eta_h := v;
     _gps_eta_Vg := _gps_eta_Vg m; _gps_eta_course := _gps_eta_course m;
     _t_gps := _t_gps m;
     current_forces_moments := current_forces_moments m |}.

Definition set__gps_eta_Vg (v : option num) (m : MavDynamics) : MavDynamics :=
  {| _state := _state m; _ts_simulation := _ts_simulation m;
     true_state := true_state m; _wind := _wind m; _forces := _forces m;
     _Va := _Va m; _alpha := _alpha m; _beta := _beta m;
     _sensors := _sensors m; _gps_eta_n := _gps_eta_n m;
     _gps_eta_e := _gps_eta_e m; _gps_eta_h := _gps_eta_h m;
     _gps_eta_Vg := v; _gps_eta_course := _gps_eta_course m;
     _t_gps := _t_gps m;
     current_forces_moments := current_forces_moments m |}.

Definition set__gps_eta_course (v : option num) (m : MavDynamics) : MavDynamics :=
  {| _state := _state m; _ts_simulation := _ts_simulation m;
     true_state := true_state m; _wind := _wind m; _forces := _forces m;
     _Va := _Va m; _alpha := _alpha m; _beta := _beta m;
     _sensors := _sensors m; _gps_eta_n := _gps_eta_n m;
     _gps_eta_e := _gps_eta_e m; _gps_eta_h := _gps_eta_h m;
     _gps_eta_Vg := _gps_eta_Vg m; _gps_eta_course := v; _t_gps := _t_gps m;
     current_forces_moments := current_forces_moments m |}.

Definition set__t_gps (v : num) (m : MavDynamics) : MavDynamics :=
  {| _state := _state m; _ts_simulation := _ts_simulation m;
     true_state := true_state m; _wind := _wind m; _forces := _forces m;
     _Va := _Va m; _alpha := _alpha m; _beta := _beta m;
     _sensors := _sensors m; _gps_eta_n := _gps_eta_n m;
     _gps_eta_e := _gps_eta_e m; _gps_eta_h := _gps_eta_h m;
     _gps_eta_Vg := _gps_eta_Vg m; _gps_eta_course := _gps_eta_course m;
     _t_gps := v; current_forces_moments := current_forces_moments m |}.

Definition set_current_forces_moments (v : pyobj) (m : MavDynamics) : MavDynamics :=
  {| _state := _state m; _ts_simulation := _ts_simulation m;
     true_state := true_state m; _wind := _wind m; _forces := _forces m;
     _Va := _Va m; _alpha := _alpha m; _beta := _beta m;
     _sensors := _sensors m; _gps_eta_n := _gps_eta_n m;
     _gps_eta_e := _gps_eta_e m; _gps_eta_h := _gps_eta_h m;
     _gps_eta_Vg := _gps_eta_Vg m; _gps_eta_course := _gps_eta_course m;
     _t_gps := _t_gps m; current_forces_moments := v |}.


(** ** Parameter modules *)

Module MAV.

(** The constants of [parameters.aerosonde_parameters] the methods read. *)
Record params : Type := mk {
  u0 : R; mass : R; gravity : R; rho : R;
  M : R; alpha0 : R; e : R; AR : R;
  S_wing : R; S_prop : R; k_motor : R; c : R; b : R;
  C_L_0 : R; C_L_alpha : R; C_L_q : R; C_L_delta_e : R;
  C_D_p : R; C_D_q : R; C_D_delta_e : R;
  C_Y_0 : R; C_Y_beta : R; C_Y_p : R; C_Y_r : R;
  C_Y_delta_a : R; C_Y_delta_r : R;
  C_ell_0 : R; C_ell_beta : R; C_ell_p : R; C_ell_r : R;
  C_ell_delta_a : R; C_ell_delta_r : R;
  C_m_0 : R; C_m_alpha : R; C_m_q : R; C_m_delta_e : R;
  C_n_0 : R; C_n_beta : R; C_n_p : R; C_n_r : R;
  C_n_delta_a : R; C_n_delta_r : R
}.

End MAV.

Module SENSOR.

(** The constants of [parameters.sensor_parameters] the methods read. *)
Record params : Type := mk {
  accel_sigma : R; mag_sigma : R;
  abs_pres_sigma : R; diff_pres_sigma : R;
  ts_gps : R; gps_k : R;
  gps_n_sigma : R; gps_e_sigma : R; gps_h_sigma : R;
  gps_Vg_sigma : R; gps_course_sigma : R
}.

End SENSOR.

(** ** The state-and-exception monad of [sensors] *)

Record world : Type := mkWorld {
  obj : MavDynamics;   (* the instance *)
  rng_pos : nat        (* draws taken so far from the global generator *)
}.

Definition M (A : Type) : Type := world -> (exn + A) * world.

Definition ret {A : Type} (a : A) : M A := fun w => (inr a, w).

Definition raise {A : Type} (x : exn) : M A := fun w => (inl x, w).

Definition bind {A B : Type} (m : M A) (k : A -> M B) : M B :=
  fun w =>
    match m w with
    | (inr a, w') => k a w'
    | (inl x, w') => (inl x, w')
    end.

Notation "x <- m ;; k" := (bind m (fun x => k))
  (at level 61, m at next level, right associativity).
Notation "m ;; k" := (bind m (fun _ => k))
  (at level 61, right associativity).

(** Evaluate an expression over the attributes of [self]. *)
Definition read {A : Type} (f : MavDynamics -> A) : M A :=
  fun w => (inr (f (obj w)), w).

(** Assign attributes of [self]. *)
Definition update_self (f : MavDynamics -> MavDynamics) : M unit :=
  fun w => (inr tt, {| obj := f (obj w); rng_pos := rng_pos w |}).

(** Assign an attribute of the message [self._sensors]. *)
Definition set_sensor (f : MsgSensors.t -> MsgSensors.t) : M unit :=
  update_self (fun self => set__sensors (f (_sensors self)) self).

Definition of_result {A : Type} (r : exn + A) : M A := fun w => (r, w).

(** The value of an attribute that an earlier statement of the same
    branch has assigned. *)
Definition attr (a : option num) : num :=
  match a with
  | Some v => v
  | None => None
  end.

(** ** A sample configuration

    Values for the parameter modules and for the code outside this file,
    used to evaluate the methods on concrete inputs: the Aerosonde
    airframe, one-second GPS sampling, the usual 3-2-1 Euler angle
    conventions and an integration step that holds the state. *)

Module Sample.

Definition aerosonde : MAV.params :=
  {| MAV.u0 := 25; MAV.mass := 11; MAV.gravity := 9.81; MAV.rho := 1.2682;
     MAV.M := 50; MAV.alpha0 := 0.47; MAV.e := 0.9;
     MAV.AR := 2.8956 * 2.8956 / 0.55;
     MAV.S_wing := 0.55; MAV.S_prop := 0.2027; MAV.k_motor := 80;
     MAV.c := 0.18994; MAV.b := 2.8956;
     MAV.C_L_0 := 0.23; MAV.C_L_alpha := 5.61; MAV.C_L_q := 7.95;
     MAV.C_L_delta_e := 0.13;
     MAV.C_D_p := 0.043; MAV.C_D_q := 0; MAV.C_D_delta_e := 0.0135;
     MAV.C_Y_0 := 0; MAV.C_Y_beta := -0.98; MAV.C_Y_p := 0; MAV.C_Y_r := 0;
     MAV.C_Y_delta_a := 0.075; MAV.C_Y_delta_r := 0.19;
     MAV.C_ell_0 := 0; MAV.C_ell_beta := -0.13; MAV.C_ell_p := -0.51;
     MAV.C_ell_r := 0.25; MAV.C_ell_delta_a := 0.17;
     MAV.C_ell_delta_r := 0.0024;
     MAV.C_m_0 := 0.0135; MAV.C_m_alpha := -2.74; MAV.C_m_q := -38.21;
     MAV.C_m_delta_e := -0.99;
     MAV.C_n_0 := 0; MAV.C_n_beta := 0.073; MAV.C_n_p := -0.069;
     MAV.C_n_r := -0.095; MAV.C_n_delta_a := -0.011;
     MAV.C_n_delta_r := -0.069 |}.

Definition sensor_parameters : SENSOR.params :=
  {| SENSOR.accel_sigma := 0.0025 * 9.81; SENSOR.mag_sigma := 0.0005;
     SENSOR.abs_pres_sigma := 10; SENSOR.diff_pres_sigma := 2;
     SENSOR.ts_gps := 1; SENSOR.gps_k := 1 / 1100;
     SENSOR.gps_n_sigma := 0.21; SENSOR.gps_e_sigma := 0.21;
     SENSOR.gps_h_sigma := 0.40;
     SENSOR.gps_Vg_sigma := 0.05; SENSOR.gps_course_sigma := 0.05 / 20 |}.

Definition euler_to_rotation (phi theta psi : num) : mat3 :=
  let c_phi := np_cos phi in
  let s_phi := np_sin phi in
  let c_theta := np_cos theta in
  let s_theta := np_sin theta in
  let c_psi := np_cos psi in
  let s_psi := np_sin psi in
  ((c_theta * c_psi,
    s_phi * s_theta * c_psi - c_phi * s_psi,
    c_phi * s_theta * c_psi + s_phi * s_psi),
   (c_theta * s_psi,
    s_phi * s_theta * s_psi + c_phi * c_psi,
    c_phi * s_theta * s_psi - s_phi * c_psi),
   (- s_theta, s_phi * c_theta, c_phi * c_theta))%num.

Definition quaternion_to_euler (quat : num * num * num * num)
  : num * num * num :=
  let '(e0, e1, e2, e3) := quat in
  (np_arctan2 (2%R * (e0 * e1 + e2 * e3))
     (e0 * e0 + e3 * e3 - e1 * e1 - e2 * e2),
   np_arcsin (2%R * (e0 * e2 - e1 * e3)),
   np_arctan2 (2%R * (e0 * e3 + e1 * e2))
     (e0 * e0 + e1 * e1 - e2 * e2 - e3 * e3))%num.

Definition quaternion_to_rotation (quat : num * num * num * num) : mat3 :=
  let '(e0, e1, e2, e3) := quat in
  ((e1 * e1 + e0 * e0 - e2 * e2 - e3 * e3,
    2%R * (e1 * e2 - e3 * e0),
    2%R * (e1 * e3 + e2 * e0)),
   (2%R * (e1 * e2 + e3 * e0),
    e2 * e2 + e0 * e0 - e1 * e1 - e3 * e3,
    2%R * (e2 * e3 - e1 * e0)),
   (2%R * (e1 * e3 - e2 * e0),
    2%R * (e2 * e3 + e1 * e0),
    e3 * e3 + e0 * e0 - e1 * e1 - e2 * e2))%num.

Definition euler_to_quaternion (phi theta psi : num)
  : num * num * num * num :=
  let c_phi := np_cos (phi / 2%R) in
  let s_phi := np_sin (phi / 2%R) in
  let c_theta := np_cos (theta / 2%R) in
  let s_theta := np_sin (theta / 2%R) in
  let c_psi := np_cos (psi / 2%R) in
  let s_psi := np_sin (psi / 2%R) in
  (c_psi * c_theta * c_phi + s_psi * s_theta * s_phi,
   c_psi * c_theta * s_phi - s_psi * s_theta * c_phi,
   c_psi * s_theta * c_phi + s_psi * c_theta * s_phi,
   s_psi * c_theta * c_phi - c_psi * s_theta * s_phi)%num.

Definition hold_state (state : ndarray13) (Ts : num) (fm : list num)
  : ndarray13 := state.

(** Level flight north at 25 m/s, 100 m above the origin. *)
Definition state0 : ndarray13 :=
  {| row0 := fin 0; row1 := fin 0; row2 := fin (-100);
     row3 := fin 25; row4 := fin 0; row5 := fin 0;
     row6 := fin 1; row7 := fin 0; row8 := fin 0; row9 := fin 0;
     row10 := fin 0; row11 := fin 0; row12 := fin 0 |}.

Definition MsgState_new : MsgState.t :=
  {| MsgState.north := fin 0; MsgState.east := fin 0;
     MsgState.altitude := fin 0;
     MsgState.phi := fin 0; MsgState.theta := fin 0; MsgState.psi := fin 0;
     MsgState.Va := fin 0; MsgState.alpha := fin 0; MsgState.beta := fin 0;
     MsgState.p := fin 0; MsgState.q := fin 0; MsgState.r := fin 0;
     MsgState.Vg := fin 0; MsgState.gamma := fin 0; MsgState.chi := fin 0;
     MsgState.wn := fin 0; MsgState.we := fin 0;
     MsgState.bx := fin 0; MsgState.by_ := fin 0; MsgState.bz := fin 0;
     MsgState.camera_az := fin 0; MsgState.camera_el := fin 0 |}.

Definition MsgSensors_new : MsgSensors.t :=
  {| MsgSensors.gyro_x := fin 0; MsgSensors.gyro_y := fin 0;
     MsgSensors.gyro_z := fin 0;
     MsgSensors.accel_x := fin 0; MsgSensors.accel_y := fin 0;
     MsgSensors.accel_z := fin 0;
     MsgSensors.mag_x := fin 0; MsgSensors.mag_y := fin 0;
     MsgSensors.mag_z := fin 0;
     MsgSensors.abs_pressure := fin 0; MsgSensors.diff_pressure := fin 0;
     MsgSensors.gps_n := fin 0; MsgSensors.gps_e := fin 0;
     MsgSensors.gps_h := fin 0;
     MsgSensors.gps_Vg := fin 0; MsgSensors.gps_course := fin 0 |}.

Definition MsgDelta_new : MsgDelta.t :=
  {| MsgDelta.elevator := fin 0; MsgDelta.aileron := fin 0;
     MsgDelta.rudder := fin 0; MsgDelta.throttle := fin 0.5 |}.

(** A stream of draws, pairwise distinct. *)
Definition draws (k : nat) : R := INR k.

(** The true state of level flight north at 25 m/s and 100 m. *)
Definition level_flight : MsgState.t :=
  {| MsgState.north := fin 0; MsgState.east := fin 0;
     MsgState.altitude := fin 100;
     MsgState.phi := fin 0; MsgState.theta := fin 0; MsgState.psi := fin 0;
     MsgState.Va := fin 25; MsgState.alpha := fin 0; MsgState.beta := fin 0;
     MsgState.p := fin 0; MsgState.q := fin 0; MsgState.r := fin 0;
     MsgState.Vg := fin 25; MsgState.gamma := fin 0; MsgState.chi := fin 0;
     MsgState.wn := fin 0; MsgState.we := fin 0;
     MsgState.bx := fin 0; MsgState.by_ := fin 0; MsgState.bz := fin 0;
     MsgState.camera_az := fin 0; MsgState.camera_el := fin 0 |}.

(** An object in that flight condition whose force model has run: the
    cached forces are a column, the GPS timer still holds the
    constructor's 999 and the time step is 0.01 s. *)
Definition flying : MavDynamics :=
  {| _state := state0; _ts_simulation := fin 0.01;
     true_state := level_flight;
     _wind := zeros3; _forces := zeros3;
     _Va := fin 25; _alpha := fin 0; _beta := fin 0;
     _sensors := MsgSensors_new;
     _gps_eta_n := fin 0; _gps_eta_e := fin 0; _gps_eta_h := fin 0;
     _gps_eta_Vg := None; _gps_eta_course := None;
     _t_gps := fin 999;
     current_forces_moments :=
       NdColumn [fin 0; fin 0; fin (-107.91); fin 0; fin 0; fin 0] |}.

End Sample.

(** ** Binary64 evaluation of the velocity round trip

    The velocity assignment of [initialize_velocity] and the airspeed of
    [_update_velocity_data], evaluated in binary64 with the operations
    in the order the source applies them.  [np.cos] and [np.sin] are the
    C library's and enter as parameters. *)

Module Binary64.

Import PrimFloat.
Local Open Scope float_scope.

Definition vec3 : Type := (float * float * float)%type.

Definition zeros3 : vec3 := (0, 0, 0).

(** [np.linalg.norm(a, axis=0)[0]] of a 3x1 array: the square root of
    the sum, taken in order, of the squares of the entries. *)
Definition norm (a : vec3) : float :=
  let '(a0, a1, a2) := a in
  sqrt (a0 * a0 + a1 * a1 + a2 * a2).

(** The airspeed [_update_velocity_data] caches for the body velocity
    [Vg_b] and the steady wind [steady_state]. *)
Definition _update_velocity_data (steady_state Vg_b : vec3) : float :=
  let '(u, v, w) := Vg_b in
  let '(s0, s1, s2) := steady_state in
  let Va_b := (u - s0, v - s1, w - s2) in
  norm Va_b.

Section Trigonometry.

Variables np_cos np_sin : float -> float.

(** The body velocity [initialize_velocity] stores and the airspeed its
    zero-wind resolution then caches. *)
Definition initialize_velocity (Va alpha beta : float) : vec3 * float :=
  let Vg_b :=
    (Va * np_cos alpha * np_cos beta,
     Va * np_sin beta,
     Va * np_sin alpha * np_cos beta) in
  (Vg_b, _update_velocity_data zeros3 Vg_b).

End Trigonometry.

(** The binary64 number nearest to 0.2. *)
Definition one_fifth : float := 0x1.999999999999ap-3.

(** The C library's cosine and sine at the two arguments used below, 0
    and [one_fifth]: 1 and 0.9800665778412416, 0 and
    0.19866933079506122.  No other argument is evaluated. *)
Definition libm_cos (x : float) : float :=
  if x =? 0 then 1
  else if x =? one_fifth then 0x1.f5cb49577627ap-1
  else nan.

Definition libm_sin (x : float) : float :=
  if x =? 0 then 0
  else if x =? one_fifth then 0x1.96dff233dd2bcp-3
  else nan.

End Binary64.

Section Dynamics.

(** The parameter modules. *)
Variable P : MAV.params.
Variable SP : SENSOR.params.

(** [tools.rotations]. *)
Variable quaternion_to_euler : num * num * num * num -> num * num * num.
Variable quaternion_to_rotation : num * num * num * num -> mat3.
Variable euler_to_rotation : num -> num -> num -> mat3.

(** The parent class [models.mav_dynamics.MavDynamics]: the state its
    constructor builds, and its integration step, which maps the state,
    the time step and the force and moment array to the next state. *)
Variable state0 : ndarray13.
Variable _rk4_step : ndarray13 -> num -> list num -> ndarray13.

(** The message constructors [MsgState()], [MsgSensors()], [MsgDelta()]. *)
Variable MsgState_new : MsgState.t.
Variable MsgSensors_new : MsgSensors.t.
Variable MsgDelta_new : MsgDelta.t.

(** The standard normal draws of numpy's global generator, in order. *)
Variable gauss : nat -> R.

(** The normal sample with mean [loc] and deviation [scale] that the
    [k]-th standard draw gives. *)
Definition normal_at (loc scale : R) (k : nat) : num :=
  fin (loc + scale * gauss k).

(** [np.random.normal(loc, scale)]: refuses a negative scale, otherwise
    shifts and scales the next standard draw. *)
Definition np_random_normal (loc scale : R) : M num :=
  fun w =>
    if Rlt_dec scale 0 then (inl ValueError, w)
    else (inr (normal_at loc scale (rng_pos w)),
          {| obj := obj w; rng_pos := Datatypes.S (rng_pos w) |}).

Local Open Scope num_scope.

(** *** Private functions *)

Definition _update_velocity_data (wind : ndarray6) (self : MavDynamics)
  : MavDynamics :=
  let steady_state := wind_0_3 wind in
  let gust := wind_3_6 wind in
  let Vg_b := rows_3_6 (_state self) in
  let Va_b := vsub Vg_b steady_state in
  let '(ur, vr, wr) := Va_b in
  let self := set__Va (norm3 Va_b) self in
  let self := set__alpha (np_arctan2 wr ur) self in
  let self := set__beta (np_arcsin (vr / _Va self)) self in
  self.

Definition _motor_thrust_torque (self : MavDynamics) (Va delta_t : num)
  : num * num :=
  let thrust_prop :=
    0.5%R * MAV.rho P * MAV.S_prop P
    * (npow2 (MAV.k_motor P * delta_t) - npow2 Va) in
  let torque_prop := fin 0 in
  (thrust_prop, torque_prop).

Definition _forces_moments (delta : MsgDelta.t) (self : MavDynamics)
  : list num * MavDynamics :=
  let '(phi, theta, psi) := quaternion_to_euler (rows_6_10 (_state self)) in
  let self :=
    set_true_state (MsgState.set_p (row10 (_state self)) (true_state self))
      self in
  let self :=
    set_true_state (MsgState.set_q (row11 (_state self)) (true_state self))
      self in
  let self :=
    set_true_state (MsgState.set_r (row12 (_state self)) (true_state self))
      self in
  let p := MsgState.p (true_state self) in
  let q := MsgState.q (true_state self) in
  let r := MsgState.r (true_state self) in
  let alpha := _alpha self in
  let beta := _beta self in
  let Va := _Va self in
  let '(fg_b0, fg_b1, fg_b2) :=
    matvec (transpose (euler_to_rotation phi theta psi))
      (fin 0, fin 0, MAV.mass P * MAV.gravity P) in
  let M_minus := np_exp (- MAV.M P * (alpha - MAV.alpha0 P)) in
  let M_plus := np_exp (MAV.M P * (alpha + MAV.alpha0 P)) in
  let sigmoid :=
    (1%R + M_minus + M_plus) / ((1%R + M_minus) * (1%R + M_plus)) in
  let CL :=
    (1%R - sigmoid) * (MAV.C_L_0 P + MAV.C_L_alpha P * alpha)
    + sigmoid * (2%R * np_sign alpha * npow2 (np_sin alpha) * np_cos alpha) in
  let CD :=
    MAV.C_D_p P
    + npow2 (MAV.C_L_0 P + MAV.C_L_alpha P * alpha)
      / (PI * MAV.e P * MAV.AR P) in
  let q_bar := 0.5%R * MAV.rho P * npow2 Va in
  let F_lift :=
    q_bar * MAV.S_wing P * (CL + MAV.C_L_delta_e P * MsgDelta.elevator delta) in
  let '(thrust_prop, torque_prop) :=
    _motor_thrust_torque self Va (MsgDelta.throttle delta) in
  let Cx := - CD * np_cos alpha + CL * np_sin alpha in
  let Cxq := - MAV.C_D_q P * np_cos alpha + MAV.C_L_q P * np_sin alpha in
  let C_X_delta_e :=
    - MAV.C_D_delta_e P * np_cos alpha + MAV.C_L_delta_e P * np_sin alpha in
  let fx :=
    fg_b0
    + q_bar * MAV.S_wing P * (Cx + Cxq * (MAV.c P / (2%R * Va)) * q)
    + q_bar * MAV.S_wing P * (C_X_delta_e * MsgDelta.elevator delta)
    + thrust_prop in
  let Cz := - CD * np_sin alpha - CL * np_cos alpha in
  let Czq := - MAV.C_D_q P * np_sin alpha - MAV.C_L_q P * np_cos alpha in
  let Cz_delta_e :=
    - MAV.C_D_delta_e P * np_sin alpha - MAV.C_L_delta_e P * np_cos alpha in
  let fz :=
    fg_b2
    + q_bar * MAV.S_wing P
      * (Cz + Czq * ((q * MAV.c P) / (2%R * Va))
         + Cz_delta_e * MsgDelta.elevator delta) in
  let fy :=
    fg_b1
    + q_bar * MAV.S_wing P
      * (MAV.C_Y_0 P + MAV.C_Y_beta P * beta
         + (MAV.C_Y_p P * p * MAV.b P) / (2%R * Va)
         + (MAV.C_Y_r P * MAV.b P * r) / (2%R * Va))
    + q_bar * MAV.S_wing P
      * (MAV.C_Y_delta_a P * MsgDelta.aileron delta
         + MAV.C_Y_delta_r P * MsgDelta.rudder delta) in
  let l :=
    q_bar * MAV.S_wing P * MAV.b P
    * (MAV.C_ell_0 P + MAV.C_ell_beta P * beta
       + MAV.C_ell_p P * ((p * MAV.b P) / (2%R * Va))
       + ((MAV.C_ell_r P * r * MAV.b P) / (2%R * Va)))
    + q_bar * MAV.S_wing P * MAV.b P
      * ((MAV.C_ell_delta_a P * MsgDelta.aileron delta)
         + MAV.C_ell_delta_r P * MsgDelta.rudder delta)
    + torque_prop in
  let m :=
    q_bar * MAV.S_wing P * MAV.c P
    * (MAV.C_m_0 P + MAV.C_m_alpha P * alpha
       + MAV.C_m_q P * ((q * MAV.c P) / (2%R * Va)))
    + q_bar * MAV.S_wing P * MAV.c P
      * (MAV.C_m_delta_e P * MsgDelta.elevator delta) in
  let n :=
    q_bar * MAV.S_wing P * MAV.b P
    * ((MAV.C_n_0 P + MAV.C_n_beta P * beta)
       + MAV.C_n_p P * ((p * MAV.b P) / (2%R * Va))
       + MAV.C_n_r P * ((r * MAV.b P) / (2%R * Va)))
    + q_bar * MAV.S_wing P * MAV.b P
      * (MAV.C_n_delta_a P * MsgDelta.aileron delta
         + MAV.C_n_delta_r P * MsgDelta.rudder delta) in
  let forces_moments := [fx; fy; fz; l; m; n] in
  let self := set_current_forces_moments (NdColumn forces_moments) self in
  (forces_moments, self).

Definition _update_true_state (self : MavDynamics) : MavDynamics :=
  let '(phi, theta, psi) := quaternion_to_euler (rows_6_10 (_state self)) in
  let '(pdot0, pdot1, pdot2) :=
    matvec (quaternion_to_rotation (rows_6_10 (_state self)))
      (rows_3_6 (_state self)) in
  let ts := true_state self in
  let ts := MsgState.set_north (row0 (_state self)) ts in
  let ts := MsgState.set_east (row1 (_state self)) ts in
  let ts := MsgState.set_altitude (- row2 (_state self)) ts in
  let ts := MsgState.set_Va (_Va self) ts in
  let ts := MsgState.set_alpha (_alpha self) ts in
  let ts := MsgState.set_beta (_beta self) ts in
  let ts := MsgState.set_phi phi ts in
  let ts := MsgState.set_theta theta ts in
  let ts := MsgState.set_psi psi ts in
  let ts := MsgState.set_Vg (norm3 (pdot0, pdot1, pdot2)) ts in
  let ts := MsgState.set_gamma (np_arcsin (- pdot2 / MsgState.Vg ts)) ts in
  let ts := MsgState.set_chi (np_arctan2 pdot1 pdot0) ts in
  let ts := MsgState.set_p (row10 (_state self)) ts in
  let ts := MsgState.set_q (row11 (_state self)) ts in
  let ts := MsgState.set_r (row12 (_state self)) ts in
  let ts := MsgState.set_wn (fst (fst (_wind self))) ts in
  let ts := MsgState.set_we (snd (fst (_wind self))) ts in
  let ts := MsgState.set_bx 0%R ts in
  let ts := MsgState.set_by_ 0%R ts in
  let ts := MsgState.set_bz 0%R ts in
  let ts := MsgState.set_camera_az 0%R ts in
  let ts := MsgState.set_camera_el 0%R ts in
  set_true_state ts self.

(** *** Initialisation *)

Definition initialize_velocity (Va alpha beta : num) (self : MavDynamics)
  : MavDynamics :=
  let self := set__Va Va self in
  let self := set__alpha alpha self in
  let self := set__beta beta self in
  let self :=
    set__state (set_row3 (Va * np_cos alpha * np_cos beta) (_state self))
      self in
  let self := set__state (set_row4 (Va * np_sin beta) (_state self)) self in
  let self :=
    set__state (set_row5 (Va * np_sin alpha * np_cos beta) (_state self))
      self in
  let self := _update_velocity_data zeros6 self in
  let self := snd (_forces_moments MsgDelta_new self) in
  let self := _update_true_state self in
  self.

(** The object as [super().__init__(Ts)] leaves it.  The attributes that
    the subclass constructor and [initialize_velocity] create later hold
    placeholders here; nothing reads them before they are assigned. *)
Definition super_init (Ts : num) : MavDynamics :=
  {| _state := state0; _ts_simulation := Ts; true_state := MsgState_new;
     _wind := zeros3; _forces := zeros3;
     _Va := None; _alpha := None; _beta := None;
     _sensors := MsgSensors_new;
     _gps_eta_n := fin 0; _gps_eta_e := fin 0; _gps_eta_h := fin 0;
     _gps_eta_Vg := None; _gps_eta_course := None;
     _t_gps := fin 999; current_forces_moments := PyIntList [] |}.

Definition __init__ (Ts : num) : MavDynamics :=
  let self := super_init Ts in
  let self := set__wind zeros3 self in
  let self := set__forces zeros3 self in
  let self := initialize_velocity (MAV.u0 P) 0%R 0%R self in
  let self := set__sensors MsgSensors_new self in
  let self := set__gps_eta_n 0%R self in
  let self := set__gps_eta_e 0%R self in
  let self := set__gps_eta_h 0%R self in
  let self := set__t_gps 999%R self in
  let self :=
    set_current_forces_moments (PyIntList [0; 0; 0; 0; 0; 0]%Z) self in
  self.

(** *** Public functions *)

Definition update (delta : MsgDelta.t) (wind : ndarray6) (self : MavDynamics)
  : MavDynamics :=
  let '(forces_moments, self) := _forces_moments delta self in
  let self :=
    set__state (_rk4_step (_state self) (_ts_simulation self) forces_moments)
      self in
  let self := _update_velocity_data wind self in
  let self := _update_true_state self in
  self.

(** [self.current_forces_moments[i][0]]. *)
Definition index_forces (i : nat) : M num :=
  fun w => (index2 (current_forces_moments (obj w)) i, w).

(** Rate gyros. *)
Definition sensors_gyros : M unit :=
  let sensor_noise := np_radians 0.5 in
  p <- read (fun self => MsgState.p (true_state self)) ;;
  z <- np_random_normal 0 sensor_noise ;;
  set_sensor (MsgSensors.set_gyro_x (p + z)) ;;
  q <- read (fun self => MsgState.q (true_state self)) ;;
  z <- np_random_normal 0 sensor_noise ;;
  set_sensor (MsgSensors.set_gyro_y (q + z)) ;;
  r <- read (fun self => MsgState.r (true_state self)) ;;
  z <- np_random_normal 0 sensor_noise ;;
  set_sensor (MsgSensors.set_gyro_z (r + z)).

(** Accelerometers. *)
Definition sensors_accels : M unit :=
  f <- index_forces 0 ;;
  ts <- read true_state ;;
  z <- np_random_normal 0 (SENSOR.accel_sigma SP) ;;
  set_sensor
    (MsgSensors.set_accel_x
       (f / MAV.mass P + MAV.gravity P * np_sin (MsgState.theta ts) + z)) ;;
  f <- index_forces 1 ;;
  ts <- read true_state ;;
  z <- np_random_normal 0 (SENSOR.accel_sigma SP) ;;
  set_sensor
    (MsgSensors.set_accel_y
       (f / MAV.mass P
        - MAV.gravity P * np_cos (MsgState.theta ts)
          * np_sin (MsgState.phi ts)
        + z)) ;;
  f <- index_forces 2 ;;
  ts <- read true_state ;;
  z <- np_random_normal 0 (SENSOR.accel_sigma SP) ;;
  set_sensor
    (MsgSensors.set_accel_z
       (f / MAV.mass P
        - MAV.gravity P * np_cos (MsgState.theta ts)
          * np_cos (MsgState.phi ts)
        + z)).

(** The magnetic field in the inertial frame, [mi], and in the body
    frame for the attitude of [ts], [mb]. *)
Definition mag_inertial : vec3 :=
  let inc := np_deg2rad 66 in
  let dec := np_deg2rad 2.13 in
  let rotMatrix := transpose (euler_to_rotation 0%R (- inc)%R dec) in
  matvec rotMatrix (fin 1, fin 0, fin 0).

Definition mag_body (ts : MsgState.t) : vec3 :=
  matvec
    (transpose
       (euler_to_rotation (MsgState.phi ts) (MsgState.theta ts)
          (MsgState.psi ts)))
    mag_inertial.

(** Magnetometers. *)
Definition sensors_mags : M unit :=
  mb <- read (fun self => mag_body (true_state self)) ;;
  let '(mb0, mb1, mb2) := mb in
  z <- np_random_normal 0 (SENSOR.mag_sigma SP) ;;
  set_sensor (MsgSensors.set_mag_x (mb0 * z)) ;;
  z <- np_random_normal 0 (SENSOR.mag_sigma SP) ;;
  set_sensor (MsgSensors.set_mag_y (mb1 * z)) ;;
  z <- np_random_normal 0 (SENSOR.mag_sigma SP) ;;
  set_sensor (MsgSensors.set_mag_z (mb2 * z)).

(** Pressure sensors. *)
Definition sensors_pressures : M unit :=
  altitude <- read (fun self => MsgState.altitude (true_state self)) ;;
  pw <- of_result
          (py_pow (1%R - ((-0.0065)%R * altitude) / 288.15%R)
             ((MAV.gravity P * 0.0289644%R) / (8.31432 * -0.0065)%R)) ;;
  z <- np_random_normal 0 (SENSOR.abs_pres_sigma SP) ;;
  set_sensor (MsgSensors.set_abs_pressure (101325%R * pw + z)) ;;
  Va <- read (fun self => MsgState.Va (true_state self)) ;;
  z <- np_random_normal 0 (SENSOR.diff_pres_sigma SP) ;;
  set_sensor
    (MsgSensors.set_diff_pressure ((MAV.rho P * npow2 Va) / 2%R + z)).

(** [self._t_gps += self._ts_simulation]. *)
Definition advance_t_gps : M unit :=
  update_self (fun self => set__t_gps (_t_gps self + _ts_simulation self) self).

(** The body of the GPS branch. *)
Definition gps_sample : M unit :=
  let decay := np_exp (- SENSOR.gps_k SP * SENSOR.ts_gps SP)%R in
  z <- np_random_normal 0 (SENSOR.gps_n_sigma SP) ;;
  update_self
    (fun self =>
       set__gps_eta_n (decay * _gps_eta_n self + z * SENSOR.ts_gps SP) self) ;;
  z <- np_random_normal 0 (SENSOR.gps_e_sigma SP) ;;
  update_self
    (fun self =>
       set__gps_eta_e (decay * _gps_eta_e self + z * SENSOR.ts_gps SP) self) ;;
  z <- np_random_normal 0 (SENSOR.gps_h_sigma SP) ;;
  update_self
    (fun self =>
       set__gps_eta_h (decay * _gps_eta_h self + z * SENSOR.ts_gps SP) self) ;;
  z <- np_random_normal 0 (SENSOR.gps_Vg_sigma SP) ;;
  update_self (set__gps_eta_Vg (Some z)) ;;
  z <- np_random_normal 0 (SENSOR.gps_course_sigma SP) ;;
  update_self (set__gps_eta_course (Some z)) ;;
  v <- read (fun self => MsgState.north (true_state self) + _gps_eta_n self) ;;
  set_sensor (MsgSensors.set_gps_n v) ;;
  v <- read (fun self => MsgState.east (true_state self) + _gps_eta_e self) ;;
  set_sensor (MsgSensors.set_gps_e v) ;;
  v <- read
         (fun self => MsgState.altitude (true_state self) + _gps_eta_h self) ;;
  set_sensor (MsgSensors.set_gps_h v) ;;
  ts <- read true_state ;;
  eta_Vg <- read _gps_eta_Vg ;;
  set_sensor
    (MsgSensors.set_gps_Vg
       (np_sqrt
          (npow2 (MsgState.Va ts * np_cos (MsgState.psi ts) + MsgState.wn ts)
           + npow2
               (MsgState.Va ts * np_sin (MsgState.psi ts) + MsgState.we ts))
        + attr eta_Vg)) ;;
  ts <- read true_state ;;
  eta_course <- read _gps_eta_course ;;
  set_sensor
    (MsgSensors.set_gps_course
       (np_arctan2
          (MsgState.Va ts * np_sin (MsgState.psi ts) + MsgState.we ts)
          (MsgState.Va ts * np_cos (MsgState.psi ts) + MsgState.wn ts)
        + attr eta_course)) ;;
  advance_t_gps.

(** GPS. *)
Definition sensors_gps : M unit :=
  t_gps <- read _t_gps ;;
  if t_gps >=? SENSOR.ts_gps SP then gps_sample else advance_t_gps.

(** [sensors]: the five blocks of the method in order, then
    [return self._sensors]. *)
Definition sensors : M MsgSensors.t :=
  sensors_gyros ;;
  sensors_accels ;;
  sensors_mags ;;
  sensors_pressures ;;
  sensors_gps ;;
  read _sensors.

(** ** Notions the statements use *)

(** The contract of the velocity/wind resolution in the words of the
    specification: relative wind is body velocity minus steady wind,
    airspeed its Euclidean norm, angle of attack [atan2(w_r, u_r)],
    sideslip [asin(v_r / airspeed)]. *)
Definition resolve_velocity_spec (body_velocity steady_wind : vec3)
  : num * num * num :=
  let '(u_r, v_r, w_r) := vsub body_velocity steady_wind in
  let airspeed := np_sqrt (u_r * u_r + v_r * v_r + w_r * w_r) in
  (airspeed, np_arctan2 w_r u_r, np_arcsin (v_r / airspeed)).

(** A finite value. *)
Definition is_fin (x : num) : Prop := exists a : R, x = fin a.

(** The attributes [sensors] is to leave alone: the rigid-body state,
    the cached air data, wind and forces, and the true-state message
    (and the time step). *)
Definition sensors_frame (a b : MavDynamics) : Prop :=
  _state b = _state a
  /\ _ts_simulation b = _ts_simulation a
  /\ true_state b = true_state a
  /\ _wind b = _wind a
  /\ _forces b = _forces a
  /\ _Va b = _Va a
  /\ _alpha b = _alpha a
  /\ _beta b = _beta a
  /\ current_forces_moments b = current_forces_moments a.

(** A computation that keeps a relation between the object before and
    the object after, whether it returns or raises. *)
Definition preserves {A : Type} (Rel : MavDynamics -> MavDynamics -> Prop)
  (m : M A) : Prop :=
  forall w : world, Rel (obj w) (obj (snd (m w))).

(** What the original frame claim adds: the two attributes that hold
    the GPS speed and course noise are left alone as well. *)
Definition sensors_frame_strict (a b : MavDynamics) : Prop :=
  sensors_frame a b
  /\ _gps_eta_Vg b = _gps_eta_Vg a
  /\ _gps_eta_course b = _gps_eta_course a.

(** The standard deviations of the sensor parameters are not negative. *)
Definition sigmas_nonneg : Prop :=
  (0 <= SENSOR.accel_sigma SP /\ 0 <= SENSOR.mag_sigma SP
   /\ 0 <= SENSOR.abs_pres_sigma SP /\ 0 <= SENSOR.diff_pres_sigma SP)%R.

Definition gps_sigmas_nonneg : Prop :=
  (0 <= SENSOR.gps_n_sigma SP /\ 0 <= SENSOR.gps_e_sigma SP
   /\ 0 <= SENSOR.gps_h_sigma SP /\ 0 <= SENSOR.gps_Vg_sigma SP
   /\ 0 <= SENSOR.gps_course_sigma SP)%R.

(** The argument of the power in the barometric formula, and the power. *)
Definition baro_base (self : MavDynamics) : num :=
  1%R - ((-0.0065)%R * MsgState.altitude (true_state self)) / 288.15%R.

Definition baro_exponent : num :=
  (MAV.gravity P * 0.0289644%R) / (8.31432 * -0.0065)%R.

(** *** The blocks of [sensors] in closed form

    The world each block of [sensors] leaves when it returns. *)

Definition gyros_done (w : world) : world :=
  let self := obj w in
  let k := rng_pos w in
  let ts := true_state self in
  let noise := np_radians 0.5 in
  {| obj :=
       set__sensors
         (MsgSensors.set_gyro_z (MsgState.r ts + normal_at 0 noise (2 + k))
            (MsgSensors.set_gyro_y
               (MsgState.q ts + normal_at 0 noise (1 + k))
               (MsgSensors.set_gyro_x (MsgState.p ts + normal_at 0 noise k)
                  (_sensors self))))
         self;
     rng_pos := 3 + k |}.

Definition accels_done (f0 f1 f2 : num) (w : world) : world :=
  let self := obj w in
  let k := rng_pos w in
  let ts := true_state self in
  let sigma := SENSOR.accel_sigma SP in
  {| obj :=
       set__sensors
         (MsgSensors.set_accel_z
            (f2 / MAV.mass P
             - MAV.gravity P * np_cos (MsgState.theta ts)
               * np_cos (MsgState.phi ts)
             + normal_at 0 sigma (2 + k))
            (MsgSensors.set_accel_y
               (f1 / MAV.mass P
                - MAV.gravity P * np_cos (MsgState.theta ts)
                  * np_sin (MsgState.phi ts)
                + normal_at 0 sigma (1 + k))
               (MsgSensors.set_accel_x
                  (f0 / MAV.mass P
                   + MAV.gravity P * np_sin (MsgState.theta ts)
                   + normal_at 0 sigma k)
                  (_sensors self))))
         self;
     rng_pos := 3 + k |}.

Definition mags_done (w : world) : world :=
  let self := obj w in
  let k := rng_pos w in
  let mb := mag_body (true_state self) in
  let sigma := SENSOR.mag_sigma SP in
  {| obj :=
       set__sensors
         (MsgSensors.set_mag_z (snd mb * normal_at 0 sigma (2 + k))
            (MsgSensors.set_mag_y (snd (fst mb) * normal_at 0 sigma (1 + k))
               (MsgSensors.set_mag_x (fst (fst mb) * normal_at 0 sigma k)
                  (_sensors self))))
         self;
     rng_pos := 3 + k |}.

Definition pressures_done (pw : num) (w : world) : world :=
  let self := obj w in
  let k := rng_pos w in
  let ts := true_state self in
  {| obj :=
       set__sensors
         (MsgSensors.set_diff_pressure
            ((MAV.rho P * npow2 (MsgState.Va ts)) / 2%R
             + normal_at 0 (SENSOR.diff_pres_sigma SP) (1 + k))
            (MsgSensors.set_abs_pressure
               (101325%R * pw + normal_at 0 (SENSOR.abs_pres_sigma SP) k)
               (_sensors self)))
         self;
     rng_pos := 2 + k |}.

(** The GPS block when the sample is taken. *)
Definition gps_done (w : world) : world :=
  let self := obj w in
  let k := rng_pos w in
  let ts := true_state self in
  let decay := np_exp (- SENSOR.gps_k SP * SENSOR.ts_gps SP)%R in
  let eta_n :=
    decay * _gps_eta_n self
    + normal_at 0 (SENSOR.gps_n_sigma SP) k * SENSOR.ts_gps SP in
  let eta_e :=
    decay * _gps_eta_e self
    + normal_at 0 (SENSOR.gps_e_sigma SP) (1 + k) * SENSOR.ts_gps SP in
  let eta_h :=
    decay * _gps_eta_h self
    + normal_at 0 (SENSOR.gps_h_sigma SP) (2 + k) * SENSOR.ts_gps SP in
  let eta_Vg := normal_at 0 (SENSOR.gps_Vg_sigma SP) (3 + k) in
  let eta_course := normal_at 0 (SENSOR.gps_course_sigma SP) (4 + k) in
  let north_speed :=
    MsgState.Va ts * np_cos (MsgState.psi ts) + MsgState.wn ts in
  let east_speed :=
    MsgState.Va ts * np_sin (MsgState.psi ts) + MsgState.we ts in
  {| obj :=
       set__t_gps (_t_gps self + _ts_simulation self)
         (set__sensors
            (MsgSensors.set_gps_course
               (np_arctan2 east_speed north_speed + eta_course)
               (MsgSensors.set_gps_Vg
                  (np_sqrt (npow2 north_speed + npow2 east_speed) + eta_Vg)
                  (MsgSensors.set_gps_h (MsgState.altitude ts + eta_h)
                     (MsgSensors.set_gps_e (MsgState.east ts + eta_e)
                        (MsgSensors.set_gps_n (MsgState.north ts + eta_n)
                           (_sensors self))))))
            (set__gps_eta_course (Some eta_course)
               (set__gps_eta_Vg (Some eta_Vg)
                  (set__gps_eta_h eta_h
                     (set__gps_eta_e eta_e (set__gps_eta_n eta_n self))))));
     rng_pos := 5 + k |}.

(** The GPS block when the sample is not taken. *)
Definition gps_held (w : world) : world :=
  let self := obj w in
  {| obj := set__t_gps (_t_gps self + _ts_simulation self) self;
     rng_pos := rng_pos w |}.

(** The world a returning call of [sensors] leaves, for the three force
    entries and the barometric power it read. *)
Definition sensors_done (f0 f1 f2 pw : num) (w : world) : world :=
  let w4 := pressures_done pw (mags_done (accels_done f0 f1 f2 (gyros_done w))) in
  if _t_gps (obj w) >=? SENSOR.ts_gps SP then gps_done w4 else gps_held w4.

(** The gravity force in body axes, [fg_b] of [_forces_moments]. *)
Definition gravity_body (self : MavDynamics) : vec3 :=
  let '(phi, theta, psi) := quaternion_to_euler (rows_6_10 (_state self)) in
  matvec (transpose (euler_to_rotation phi theta psi))
    (fin 0, fin 0, MAV.mass P * MAV.gravity P).

(** Every quantity the force model reads, the airspeed apart, is finite. *)
Definition forces_inputs_finite (delta : MsgDelta.t) (self : MavDynamics)
  : Prop :=
  is_fin (_alpha self) /\ is_fin (_beta self)
  /\ is_fin (row10 (_state self)) /\ is_fin (row11 (_state self))
  /\ is_fin (row12 (_state self))
  /\ is_fin (MsgDelta.elevator delta) /\ is_fin (MsgDelta.aileron delta)
  /\ is_fin (MsgDelta.rudder delta) /\ is_fin (MsgDelta.throttle delta)
  /\ is_fin (fst (fst (gravity_body self)))
  /\ is_fin (snd (fst (gravity_body self)))
  /\ is_fin (snd (gravity_body self)).

(** ** The trim cost *)

(** [tools.rotations.euler_to_quaternion]. *)
Variable euler_to_quaternion : num -> num -> num -> num * num * num * num.

(** [_state[6:10] = quat]. *)
Definition set_rows_6_10 (quat : num * num * num * num) (s : ndarray13)
  : ndarray13 :=
  let '(e0, e1, e2, e3) := quat in
  {| row0 := row0 s; row1 := row1 s; row2 := row2 s;
     row3 := row3 s; row4 := row4 s; row5 := row5 s;
     row6 := e0; row7 := e1; row8 := e2; row9 := e3;
     row10 := row10 s; row11 := row11 s; row12 := row12 s |}.

(** [delta.elevator = v] and [delta.throttle = v]. *)
Definition set_elevator (v : num) (delta : MsgDelta.t) : MsgDelta.t :=
  {| MsgDelta.elevator := v; MsgDelta.aileron := MsgDelta.aileron delta;
     MsgDelta.rudder := MsgDelta.rudder delta;
     MsgDelta.throttle := MsgDelta.throttle delta |}.

Definition set_throttle (v : num) (delta : MsgDelta.t) : MsgDelta.t :=
  {| MsgDelta.elevator := MsgDelta.elevator delta;
     MsgDelta.aileron := MsgDelta.aileron delta;
     MsgDelta.rudder := MsgDelta.rudder delta; MsgDelta.throttle := v |}.

(** [forces[i]] of the 6x1 array the force model returns. *)
Definition force_entry (i : nat) (forces : list num) : num :=
  nth i forces None.

Definition calculate_trim_output (x : num * num * num) (self : MavDynamics)
  : num * MavDynamics :=
  let '(alpha, elevator, throttle) := x in
  let '(phi, theta, psi) := quaternion_to_euler (rows_6_10 (_state self)) in
  let self :=
    set__state
      (set_rows_6_10 (euler_to_quaternion phi alpha psi) (_state self))
      self in
  let self := initialize_velocity (_Va self) alpha (_beta self) self in
  let delta := MsgDelta_new in
  let delta := set_elevator elevator delta in
  let delta := set_throttle throttle delta in
  let '(forces, self) := _forces_moments delta self in
  (npow2 (force_entry 0 forces) + npow2 (force_entry 2 forces)
   + npow2 (force_entry 4 forces),
   self).

(** ** The lift and drag coefficients of the force model

    [sigmoid], [CL] and [CD] of [_forces_moments] as functions of the
    angle of attack. *)

Definition blending_sigmoid (alpha : num) : num :=
  let M_minus := np_exp (- MAV.M P * (alpha - MAV.alpha0 P)) in
  let M_plus := np_exp (MAV.M P * (alpha + MAV.alpha0 P)) in
  (1%R + M_minus + M_plus) / ((1%R + M_minus) * (1%R + M_plus)).

Definition lift_coefficient (alpha : num) : num :=
  let sigmoid := blending_sigmoid alpha in
  (1%R - sigmoid) * (MAV.C_L_0 P + MAV.C_L_alpha P * alpha)
  + sigmoid * (2%R * np_sign alpha * npow2 (np_sin alpha) * np_cos alpha).

Definition drag_coefficient (alpha : num) : num :=
  MAV.C_D_p P
  + npow2 (MAV.C_L_0 P + MAV.C_L_alpha P * alpha)
    / (PI * MAV.e P * MAV.AR P).

(** ** Objects a program can hold

    The objects that the constructor and the methods of the class
    produce; a [sensors] call counts whether it returns or raises. *)
Inductive reachable (Ts : num) : MavDynamics -> Prop :=
| reach_init : reachable Ts (__init__ Ts)
| reach_update (delta : MsgDelta.t) (wind : ndarray6) (self : MavDynamics) :
    reachable Ts self -> reachable Ts (update delta wind self)
| reach_sensors (k : nat) (self : MavDynamics) :
    reachable Ts self ->
    reachable Ts (obj (snd (sensors {| obj := self; rng_pos := k |})))
| reach_initialize_velocity (Va alpha beta : num) (self : MavDynamics) :
    reachable Ts self ->
    reachable Ts (initialize_velocity Va alpha beta self)
| reach_trim (x : num * num * num) (self : MavDynamics) :
    reachable Ts self -> reachable Ts (snd (calculate_trim_output x self)).

(** The true-state message agrees with the state array, the cached air
    data and the cached wind. *)
Definition projection_consistent (self : MavDynamics) : Prop :=
  let ts := true_state self in
  let st := _state self in
  MsgState.north ts = row0 st
  /\ MsgState.east ts = row1 st
  /\ MsgState.altitude ts = - row2 st
  /\ MsgState.Va ts = _Va self
  /\ MsgState.alpha ts = _alpha self
  /\ MsgState.beta ts = _beta self
  /\ (MsgState.phi ts, MsgState.theta ts, MsgState.psi ts)
     = quaternion_to_euler (rows_6_10 st)
  /\ MsgState.p ts = row10 st
  /\ MsgState.q ts = row11 st
  /\ MsgState.r ts = row12 st
  /\ MsgState.wn ts = fst (fst (_wind self))
  /\ MsgState.we ts = snd (fst (_wind self)).

(** The GPS timer has reached the sample interval and the time step is
    not negative. *)
Definition timer_due (self : MavDynamics) : Prop :=
  exists t d : R,
    _t_gps self = fin t /\ _ts_simulation self = fin d
    /\ (SENSOR.ts_gps SP <= t)%R /\ (999 <= t)%R /\ (0 <= d)%R.

(** ** Real-number facts *)

Lemma sin2_cos2_mult (x : R) : (sin x * sin x + cos x * cos x = 1)%R.
Proof. exact (sin2_cos2 x). Qed.

Lemma sum_squares_nonneg (x y z : R) : (0 <= x * x + y * y + z * z)%R.
Proof. nra. Qed.

(** The norm of a velocity given in polar form is its airspeed. *)
Lemma norm_polar (Va a b : R) :
  (0 <= Va ->
   sqrt ((Va * cos a * cos b - 0) * (Va * cos a * cos b - 0)
         + (Va * sin b - 0) * (Va * sin b - 0)
         + (Va * sin a * cos b - 0) * (Va * sin a * cos b - 0)) = Va)%R.
Proof.
  intros HVa.
  replace (_ + _ + _)%R with (Va * Va)%R.
  - now apply sqrt_square.
  - generalize (sin2_cos2_mult a) (sin2_cos2_mult b). intros Ha Hb.
    transitivity
      (Va * Va
       * (cos b * cos b * (sin a * sin a + cos a * cos a) + sin b * sin b))%R.
    + rewrite Ha.
      replace (cos b * cos b * 1 + sin b * sin b)%R
        with (sin b * sin b + cos b * cos b)%R by ring.
      rewrite Hb. ring.
    + ring.
Qed.

Lemma tan_polar (r a : R) :
  (0 < r -> cos a <> 0 -> r * sin a / (r * cos a) = tan a)%R.
Proof. intros. unfold tan. field. split; lra. Qed.

(** [atan2] inverts the polar form on (-pi, pi]. *)
Lemma atan2_polar (r a : R) :
  (0 < r -> - PI < a <= PI -> atan2 (r * sin a) (r * cos a) = a)%R.
Proof.
  intros Hr [Hlo Hhi]. unfold atan2.
  assert (HPI := PI_RGT_0).
  destruct (Rlt_dec a (- (PI / 2))) as [H1 | H1].
  - assert (Hc : (cos a < 0)%R).
    { rewrite <- cos_neg. apply cos_lt_0; lra. }
    assert (Hs : (sin a < 0)%R) by (apply sin_lt_0_var; lra).
    destruct (Rlt_dec 0 (r * cos a)); [ nra | ].
    destruct (Rlt_dec (r * cos a) 0); [ | nra ].
    destruct (Rlt_dec (r * sin a) 0); [ | nra ].
    rewrite tan_polar by lra.
    replace (tan a) with (tan (PI + a)).
    + replace (PI + a)%R with (a + PI)%R by ring. rewrite atan_tan; lra.
    + apply Rtrigo_facts.tan_pi_plus. lra.
  - destruct (Req_dec_T a (- (PI / 2))) as [H2 | H2].
    + subst a. rewrite cos_neg, sin_neg, cos_PI2, sin_PI2.
      replace (r * 0)%R with 0%R by ring.
      destruct (Rlt_dec 0 0); [ lra | ].
      destruct (Rlt_dec 0 (r * - (1))); [ lra | ].
      destruct (Rlt_dec (r * - (1)) 0); lra.
    + destruct (Rlt_dec a (PI / 2)) as [H3 | H3].
      * assert (Hc : (0 < cos a)%R) by (apply cos_gt_0; lra).
        destruct (Rlt_dec 0 (r * cos a)); [ | nra ].
        rewrite tan_polar by lra. apply atan_tan. lra.
      * destruct (Req_dec_T a (PI / 2)) as [H4 | H4].
        -- subst a. rewrite cos_PI2, sin_PI2.
           replace (r * 0)%R with 0%R by ring.
           destruct (Rlt_dec 0 0); [ lra | ].
           destruct (Rlt_dec 0 (r * 1)); lra.
        -- assert (Hc : (cos a < 0)%R) by (apply cos_lt_0; lra).
           assert (Hs : (0 <= sin a)%R).
           { destruct (Req_dec_T a PI) as [-> | H5].
             - rewrite sin_PI. lra.
             - left. apply sin_gt_0; lra. }
           destruct (Rlt_dec 0 (r * cos a)); [ nra | ].
           destruct (Rlt_dec (r * cos a) 0); [ | nra ].
           destruct (Rlt_dec (r * sin a) 0); [ nra | ].
           rewrite tan_polar by lra.
           replace (tan a) with (tan (PI + (a - PI))).
           ++ rewrite Rtrigo_facts.tan_pi_plus.
              ** rewrite atan_tan; lra.
              ** replace (a - PI)%R with (- (PI - a))%R by ring.
                 rewrite cos_neg, Rtrigo_facts.cos_pi_minus. lra.
           ++ f_equal. ring.
Qed.

Lemma np_radians_pos : (0 < np_radians 0.5)%R.
Proof. unfold np_radians. generalize PI_RGT_0. lra. Qed.

(** ** What the private functions leave alone *)

Lemma forces_moments_frame delta self :
  let self' := snd (_forces_moments delta self) in
  _state self' = _state self /\ _Va self' = _Va self
  /\ _alpha self' = _alpha self /\ _beta self' = _beta self
  /\ _t_gps self' = _t_gps self
  /\ _ts_simulation self' = _ts_simulation self.
Proof.
  unfold _forces_moments.
  destruct (quaternion_to_euler _) as [[phi theta] psi].
  destruct (matvec _ _) as [[g0 g1] g2].
  cbn. repeat split.
Qed.

(** The force model caches the 6x1 array it returns. *)
Lemma forces_moments_column delta self :
  exists fx fy fz l m n : num,
    fst (_forces_moments delta self) = [fx; fy; fz; l; m; n]
    /\ current_forces_moments (snd (_forces_moments delta self))
       = NdColumn [fx; fy; fz; l; m; n].
Proof.
  unfold _forces_moments.
  destruct (quaternion_to_euler _) as [[phi theta] psi].
  destruct (matvec _ _) as [[g0 g1] g2].
  cbn. do 6 eexists. split; reflexivity.
Qed.

Lemma update_true_state_frame self :
  let self' := _update_true_state self in
  _state self' = _state self /\ _Va self' = _Va self
  /\ _alpha self' = _alpha self /\ _beta self' = _beta self
  /\ _t_gps self' = _t_gps self
  /\ _ts_simulation self' = _ts_simulation self
  /\ current_forces_moments self' = current_forces_moments self.
Proof.
  unfold _update_true_state.
  destruct (quaternion_to_euler _) as [[phi theta] psi].
  destruct (matvec _ _) as [[g0 g1] g2].
  cbn. repeat split.
Qed.

Lemma update_velocity_data_frame wind self :
  let self' := _update_velocity_data wind self in
  _state self' = _state self
  /\ _t_gps self' = _t_gps self
  /\ _ts_simulation self' = _ts_simulation self
  /\ current_forces_moments self' = current_forces_moments self.
Proof.
  unfold _update_velocity_data.
  destruct (vsub _ _) as [[ur vr] wr].
  cbn. repeat split.
Qed.

(** A component of a vector over the norm of the vector is in [-1, 1]. *)
Lemma ratio_to_norm (x n : R) :
  (x * x <= n)%R -> (0 < sqrt n)%R -> (-1 <= x / sqrt n <= 1)%R.
Proof.
  intros Hx Hpos.
  assert (Hn : (0 <= n)%R) by nra.
  assert (Hsq : (sqrt n * sqrt n = n)%R) by now apply sqrt_sqrt.
  assert (Hle : (- sqrt n <= x <= sqrt n)%R) by (split; nra).
  split.
  - apply Rmult_le_reg_r with (sqrt n); [ exact Hpos | ].
    unfold Rdiv. rewrite Rmult_assoc, Rinv_l by lra. lra.
  - apply Rmult_le_reg_r with (sqrt n); [ exact Hpos | ].
    unfold Rdiv. rewrite Rmult_assoc, Rinv_l by lra. lra.
Qed.

(** ** Velocity resolution *)

(** With zero wind, the resolution of a velocity in polar form gives
    back the airspeed and the two angles. *)
Lemma resolution_recovers (Va a b : R) (self : MavDynamics) :
  (0 < Va)%R -> (- PI < a <= PI)%R -> (- (PI / 2) < b < PI / 2)%R ->
  rows_3_6 (_state self)
  = (fin (Va * cos a * cos b), fin (Va * sin b), fin (Va * sin a * cos b)) ->
  let self' := _update_velocity_data zeros6 self in
  _state self' = _state self
  /\ _Va self' = fin Va /\ _alpha self' = fin a /\ _beta self' = fin b.
Proof.
  intros HVa Ha Hb Hrows. unfold _update_velocity_data. rewrite Hrows.
  cbn -[Rmult Rminus Rplus].
  set (n := (_ + _ + _)%R).
  assert (Hn : sqrt n = Va) by (apply norm_polar; lra).
  assert (Hn0 : (0 <= n)%R) by apply sum_squares_nonneg.
  destruct (Rlt_dec n 0) as [Hneg | _]; [ lra | ].
  cbn -[Rmult Rminus Rplus]. rewrite Hn.
  destruct (Req_dec_T Va 0) as [H0 | _]; [ lra | ].
  assert (Hcb : (0 < cos b)%R) by (apply cos_gt_0; lra).
  repeat split.
  - unfold fin. f_equal.
    replace (Va * sin a * cos b - 0)%R with (Va * cos b * sin a)%R by ring.
    replace (Va * cos a * cos b - 0)%R with (Va * cos b * cos a)%R by ring.
    apply atan2_polar; [ nra | lra ].
  - replace ((Va * sin b - 0) / Va)%R with (sin b) by (field; lra).
    generalize (SIN_bound b). intros [Hl Hu]. unfold np_arcsin.
    destruct (Rlt_dec (sin b) (-1)); [ lra | ].
    destruct (Rlt_dec 1 (sin b)); [ lra | ].
    unfold fin. f_equal. apply asin_sin. lra.
Qed.

(** C3.  For a finite body velocity (u, v, w) and a finite steady wind
    (s0, s1, s2), whatever the three gust components,
    [_update_velocity_data] caches as airspeed the Euclidean norm of
    (u - s0, v - s1, w - s2), as angle of attack [atan2 (w - s2) (u - s0)]
    and as sideslip [asin ((v - s1) / airspeed)]; when the airspeed is zero
    the quotient, and with it the sideslip, is not finite.  The gust
    components do not enter the result. *)
Theorem update_velocity_data_contract
  (self : MavDynamics) (u v w s0 s1 s2 : R) (g0 g1 g2 : num) :
  rows_3_6 (_state self) = (fin u, fin v, fin w) ->
  let self' :=
    _update_velocity_data (mkWind (fin s0) (fin s1) (fin s2) g0 g1 g2) self in
  let u_r := (u - s0)%R in
  let v_r := (v - s1)%R in
  let w_r := (w - s2)%R in
  let airspeed := sqrt (u_r * u_r + v_r * v_r + w_r * w_r) in
  _Va self' = fin airspeed
  /\ _alpha self' = fin (atan2 w_r u_r)
  /\ (airspeed <> 0%R -> _beta self' = fin (asin (v_r / airspeed)))
  /\ (airspeed = 0%R -> _beta self' = None)
  /\ (forall g0' g1' g2' : num,
        _update_velocity_data
          (mkWind (fin s0) (fin s1) (fin s2) g0' g1' g2') self
        = self').
Proof.
  intros Hrows. cbv zeta. unfold _update_velocity_data.
  cbn [wind_0_3 wind0 wind1 wind2]. rewrite Hrows.
  cbn -[Rmult Rminus Rplus].
  set (n := ((u - s0) * (u - s0) + (v - s1) * (v - s1)
             + (w - s2) * (w - s2))%R).
  assert (Hn0 : (0 <= n)%R) by apply sum_squares_nonneg.
  destruct (Rlt_dec n 0) as [Hneg | _]; [ exfalso; lra | ].
  cbn -[Rmult Rminus Rplus].
  split; [ reflexivity | ]. split; [ reflexivity | ].
  destruct (Req_dec_T (sqrt n) 0) as [Hz | Hnz].
  - split; [ intros Hne; contradiction | ].
    split; [ reflexivity | ]. intros. reflexivity.
  - split; [ | split; [ intros Hz; contradiction | intros; reflexivity ] ].
    intros _.
    assert (Hpos : (0 < sqrt n)%R).
    { generalize (sqrt_pos n). lra. }
    assert (Hle : ((v - s1) * (v - s1) <= n)%R).
    { generalize (Rle_0_sqr (u - s0)) (Rle_0_sqr (w - s2)).
      unfold Rsqr, n. lra. }
    destruct (ratio_to_norm (v - s1) n Hle Hpos) as [Hlo Hhi].
    unfold np_arcsin.
    destruct (Rlt_dec ((v - s1) / sqrt n) (-1)); [ exfalso; lra | ].
    destruct (Rlt_dec 1 ((v - s1) / sqrt n)); [ exfalso; lra | ].
    reflexivity.
Qed.

(** The velocity [initialize_velocity] stores is the polar form of its
    arguments, whatever they are. *)
Lemma initialize_velocity_rows (Va a b : num) (self : MavDynamics) :
  rows_3_6 (_state (initialize_velocity Va a b self))
  = (Va * np_cos a * np_cos b, Va * np_sin b, Va * np_sin a * np_cos b).
Proof.
  unfold initialize_velocity. cbv zeta.
  rewrite (proj1 (update_true_state_frame _)).
  rewrite (proj1 (forces_moments_frame _ _)).
  rewrite (proj1 (update_velocity_data_frame _ _)).
  reflexivity.
Qed.

(** The airspeed of a velocity along the negative body x axis. *)
Lemma norm_backwards (Va : R) :
  (0 <= Va ->
   sqrt ((- Va * cos 0 * cos 0 - 0) * (- Va * cos 0 * cos 0 - 0)
         + (- Va * sin 0 - 0) * (- Va * sin 0 - 0)
         + (- Va * sin 0 * cos 0 - 0) * (- Va * sin 0 * cos 0 - 0)) = Va)%R.
Proof.
  intros HVa. rewrite cos_0, sin_0.
  replace (_ + _ + _)%R with (Va * Va)%R by ring.
  now apply sqrt_square.
Qed.

(** What [initialize_velocity] caches is what its resolution computed. *)
Lemma initialize_velocity_cached (Va alpha beta : num) (self : MavDynamics) :
  let m :=
    set__state
      (set_row5 (Va * np_sin alpha * np_cos beta)
         (set_row4 (Va * np_sin beta)
            (set_row3 (Va * np_cos alpha * np_cos beta) (_state self))))
      (set__beta beta (set__alpha alpha (set__Va Va self))) in
  let self' := initialize_velocity Va alpha beta self in
  rows_3_6 (_state m)
  = (Va * np_cos alpha * np_cos beta, Va * np_sin beta,
     Va * np_sin alpha * np_cos beta)
  /\ _Va self' = _Va (_update_velocity_data zeros6 m)
  /\ _alpha self' = _alpha (_update_velocity_data zeros6 m)
  /\ _beta self' = _beta (_update_velocity_data zeros6 m).
Proof.
  cbv zeta. split; [ reflexivity | ].
  unfold initialize_velocity. cbv zeta.
  match goal with
  | |- context [_update_velocity_data zeros6 ?m] =>
      destruct (update_true_state_frame
                  (snd (_forces_moments MsgDelta_new
                          (_update_velocity_data zeros6 m))))
        as (_ & H1 & H2 & H3 & _);
      destruct (forces_moments_frame MsgDelta_new
                  (_update_velocity_data zeros6 m))
        as (_ & H1' & H2' & H3' & _)
  end.
  rewrite H1, H2, H3, H1', H2', H3'.
  split; [ reflexivity | ]. split; reflexivity.
Qed.

(** C4.  In real arithmetic, for airspeed [Va > 0], angle of attack in
    (-pi, pi] and sideslip in (-pi/2, pi/2): [initialize_velocity] leaves
    the body velocity (Va cos a cos b, Va sin b, Va sin a cos b) in the
    state; the zero-wind resolution of that velocity, on any object
    whatever it has cached, computes the airspeed and the two angles
    again; so these are the values [initialize_velocity] leaves cached.
    They are recomputed, not kept: called with [- Va], it caches [Va].
    With airspeed 25 and both angles 0 the body velocity is
    (25, 0, 0). *)
Theorem initialize_velocity_roundtrip (Va a b : R) (self : MavDynamics) :
  (0 < Va)%R -> (- PI < a <= PI)%R -> (- (PI / 2) < b < PI / 2)%R ->
  let self' := initialize_velocity (fin Va) (fin a) (fin b) self in
  let velocity :=
    (fin (Va * cos a * cos b), fin (Va * sin b), fin (Va * sin a * cos b)) in
  rows_3_6 (_state self') = velocity
  /\ (forall m : MavDynamics,
        rows_3_6 (_state m) = velocity ->
        _Va (_update_velocity_data zeros6 m) = fin Va
        /\ _alpha (_update_velocity_data zeros6 m) = fin a
        /\ _beta (_update_velocity_data zeros6 m) = fin b)
  /\ _Va self' = fin Va /\ _alpha self' = fin a /\ _beta self' = fin b
  /\ _Va (initialize_velocity (fin (- Va)) (fin 0) (fin 0) self) = fin Va
  /\ rows_3_6
       (_state (initialize_velocity (fin 25) (fin 0) (fin 0) self))
     = (fin 25, fin 0, fin 0).
Proof.
  intros HVa Ha Hb. cbv zeta.
  split; [ apply initialize_velocity_rows | ].
  split.
  { intros m Hm.
    destruct (resolution_recovers Va a b m HVa Ha Hb Hm) as (_ & H).
    exact H. }
  destruct (initialize_velocity_cached (fin Va) (fin a) (fin b) self)
    as (Hm & -> & -> & ->).
  destruct (resolution_recovers Va a b _ HVa Ha Hb Hm)
    as (_ & H1 & H2 & H3).
  split; [ exact H1 | ]. split; [ exact H2 | ]. split; [ exact H3 | ].
  split.
  - destruct (initialize_velocity_cached (fin (- Va)) (fin 0) (fin 0) self)
      as (Hm' & -> & _).
    unfold _update_velocity_data. rewrite Hm'.
    cbn -[Rmult Rminus Rplus Ropp cos sin].
    destruct (Rlt_dec _ 0) as [Hneg | _].
    + exfalso. revert Hneg. apply Rle_not_lt, sum_squares_nonneg.
    + cbn -[Rmult Rminus Rplus Ropp cos sin].
      rewrite norm_backwards by lra. reflexivity.
  - rewrite initialize_velocity_rows. cbn -[Rmult].
    rewrite cos_0, sin_0.
    replace (25 * 1 * 1)%R with 25%R by ring.
    replace (25 * 0)%R with 0%R by ring.
    replace (0 * 1)%R with 0%R by ring. reflexivity.
Qed.

(** ** Propulsion *)

(** C5.  For every airspeed and throttle command, the thrust is
    1/2 rho S_prop ((k_motor delta_t)^2 - Va^2); the propeller torque is
    zero whatever the arguments, finite or not. *)
Theorem motor_thrust_torque_formula (self : MavDynamics) (Va delta_t : R) :
  _motor_thrust_torque self (fin Va) (fin delta_t)
  = (fin (1 / 2 * MAV.rho P * MAV.S_prop P
          * ((MAV.k_motor P * delta_t) ^ 2 - Va ^ 2)),
     fin 0)
  /\ (forall x y : num, snd (_motor_thrust_torque self x y) = fin 0).
Proof.
  split; [ | reflexivity ].
  unfold _motor_thrust_torque. cbn -[Rmult Rminus].
  unfold fin. do 2 f_equal. lra.
Qed.

(** C6.  With positive air density and propeller area, zero throttle
    gives a thrust that is nonpositive for [Va >= 0] and strictly negative
    for [Va > 0], the factor (k 0)^2 - Va^2 being nonpositive. *)
Theorem zero_throttle_thrust (self : MavDynamics) (Va : R) :
  (0 < MAV.rho P)%R -> (0 < MAV.S_prop P)%R -> (0 <= Va)%R ->
  exists T : R,
    fst (_motor_thrust_torque self (fin Va) (fin 0)) = fin T
    /\ (T <= 0)%R /\ ((0 < Va)%R -> (T < 0)%R)
    /\ ((MAV.k_motor P * 0) ^ 2 - Va ^ 2 <= 0)%R.
Proof.
  intros Hrho HS HVa.
  assert (HrS : (0 < MAV.rho P * MAV.S_prop P)%R)
    by now apply Rmult_lt_0_compat.
  exists (- (1 / 2 * (MAV.rho P * MAV.S_prop P) * (Va * Va)))%R.
  split; [ | split; [ | split ] ].
  - unfold _motor_thrust_torque. cbn -[Rmult Rminus].
    unfold fin. f_equal. lra.
  - assert (0 <= MAV.rho P * MAV.S_prop P * (Va * Va))%R
      by (apply Rmult_le_pos; nra).
    lra.
  - intros HVa'.
    assert (0 < MAV.rho P * MAV.S_prop P * (Va * Va))%R
      by (apply Rmult_lt_0_compat; nra).
    lra.
  - nra.
Qed.

(** ** Running [sensors] *)

Lemma bind_inr {A B : Type} (m : M A) (k : A -> M B) w a w1 :
  m w = (inr a, w1) -> bind m k w = k a w1.
Proof. intros H. unfold bind. now rewrite H. Qed.

Lemma bind_inl {A B : Type} (m : M A) (k : A -> M B) w x w1 :
  m w = (inl x, w1) -> bind m k w = (inl x, w1).
Proof. intros H. unfold bind. now rewrite H. Qed.

Lemma py_pow_raises (x y : num) (e : exn) :
  py_pow x y = inl e -> e = ZeroDivisionError.
Proof.
  unfold py_pow. destruct x as [a | ], y as [b | ]; try discriminate.
  destruct (Req_dec_T a 0).
  - destruct (Rlt_dec b 0); [ congruence | ].
    destruct (Req_dec_T b 0); discriminate.
  - destruct (Rlt_dec a 0); discriminate.
Qed.

Ltac unfold_monad :=
  unfold bind, read, set_sensor, update_self, index_forces, of_result,
    np_random_normal.

(** Reduce the attribute reads of an updated object. *)
Ltac simp_obj :=
  cbv beta iota zeta;
  cbn [obj rng_pos fst snd _state _ts_simulation true_state _wind _forces
       _Va _alpha _beta _sensors _gps_eta_n _gps_eta_e _gps_eta_h
       _gps_eta_Vg _gps_eta_course _t_gps current_forces_moments
       set__sensors set__gps_eta_n set__gps_eta_e set__gps_eta_h
       set__gps_eta_Vg set__gps_eta_course set__t_gps].

(** Split on the next scale test of the goal; the refused scale ends
    the goal's computation with [ValueError]. *)
Ltac split_scale s Hneg :=
  destruct (Rlt_dec s 0) as [Hneg | Hneg]; simp_obj.

Lemma sensors_gyros_run (w : world) :
  sensors_gyros w = (inr tt, gyros_done w).
Proof.
  generalize np_radians_pos; intros Hrad.
  unfold sensors_gyros, gyros_done. unfold_monad.
  destruct (Rlt_dec (np_radians 0.5) 0); [ exfalso; lra | reflexivity ].
Qed.

Lemma sensors_accels_cases (w : world) :
  (exists f0 f1 f2 : num,
      index2 (current_forces_moments (obj w)) 0 = inr f0
      /\ index2 (current_forces_moments (obj w)) 1 = inr f1
      /\ index2 (current_forces_moments (obj w)) 2 = inr f2
      /\ (0 <= SENSOR.accel_sigma SP)%R
      /\ sensors_accels w = (inr tt, accels_done f0 f1 f2 w))
  \/ (exists (x : exn) (w' : world),
         sensors_accels w = (inl x, w')
         /\ ((x = ValueError /\ (SENSOR.accel_sigma SP < 0)%R)
             \/ exists i : nat,
                 (i < 3)%nat
                 /\ index2 (current_forces_moments (obj w)) i = inl x)).
Proof.
  unfold sensors_accels, accels_done. unfold_monad. simp_obj.
  destruct (index2 (current_forces_moments (obj w)) 0) as [x | f0] eqn:E0.
  { right. exists x, w. split; [ reflexivity | ].
    right. exists 0%nat. split; [ repeat constructor | exact E0 ]. }
  split_scale (SENSOR.accel_sigma SP) Hneg.
  { right. do 2 eexists. split; [ reflexivity | ]. left. now split. }
  destruct (index2 (current_forces_moments (obj w)) 1) as [x | f1] eqn:E1.
  { right. do 2 eexists. split; [ reflexivity | ].
    right. exists 1%nat. split; [ repeat constructor | exact E1 ]. }
  simp_obj.
  destruct (index2 (current_forces_moments (obj w)) 2) as [x | f2] eqn:E2.
  { right. do 2 eexists. split; [ reflexivity | ].
    right. exists 2%nat. split; [ repeat constructor | exact E2 ]. }
  simp_obj. left. exists f0, f1, f2.
  repeat split; try reflexivity. lra.
Qed.

Lemma sensors_mags_cases (w : world) :
  ((0 <= SENSOR.mag_sigma SP)%R /\ sensors_mags w = (inr tt, mags_done w))
  \/ ((SENSOR.mag_sigma SP < 0)%R
      /\ exists w' : world, sensors_mags w = (inl ValueError, w')).
Proof.
  unfold sensors_mags, mags_done. unfold_monad. simp_obj.
  destruct (mag_body (true_state (obj w))) as [[mb0 mb1] mb2].
  split_scale (SENSOR.mag_sigma SP) Hneg.
  - right. split; [ exact Hneg | ]. eexists. reflexivity.
  - left. split; [ lra | reflexivity ].
Qed.

Lemma sensors_pressures_cases (w : world) :
  (exists pw : num,
      py_pow (baro_base (obj w)) baro_exponent = inr pw
      /\ (0 <= SENSOR.abs_pres_sigma SP)%R
      /\ (0 <= SENSOR.diff_pres_sigma SP)%R
      /\ sensors_pressures w = (inr tt, pressures_done pw w))
  \/ (exists (x : exn) (w' : world),
         sensors_pressures w = (inl x, w')
         /\ (py_pow (baro_base (obj w)) baro_exponent = inl x
             \/ (x = ValueError
                 /\ (SENSOR.abs_pres_sigma SP < 0
                     \/ SENSOR.diff_pres_sigma SP < 0)%R))).
Proof.
  unfold sensors_pressures, pressures_done, baro_base, baro_exponent.
  unfold_monad. simp_obj.
  destruct (py_pow _ _) as [x | pw] eqn:E.
  { right. do 2 eexists. split; [ reflexivity | now left ]. }
  split_scale (SENSOR.abs_pres_sigma SP) Hneg.
  { right. do 2 eexists. split; [ reflexivity | ]. right. split; auto. }
  split_scale (SENSOR.diff_pres_sigma SP) Hneg'.
  { right. do 2 eexists. split; [ reflexivity | ]. right. split; auto. }
  left. exists pw. repeat split; try reflexivity; lra.
Qed.

Lemma gps_sample_cases (w : world) :
  (gps_sigmas_nonneg /\ gps_sample w = (inr tt, gps_done w))
  \/ (~ gps_sigmas_nonneg
      /\ exists w' : world, gps_sample w = (inl ValueError, w')).
Proof.
  unfold gps_sample, advance_t_gps, gps_done, gps_sigmas_nonneg.
  unfold_monad. simp_obj.
  split_scale (SENSOR.gps_n_sigma SP) Hn.
  { right. split; [ lra | ]. eexists. reflexivity. }
  split_scale (SENSOR.gps_e_sigma SP) He.
  { right. split; [ lra | ]. eexists. reflexivity. }
  split_scale (SENSOR.gps_h_sigma SP) Hh.
  { right. split; [ lra | ]. eexists. reflexivity. }
  split_scale (SENSOR.gps_Vg_sigma SP) HVg.
  { right. split; [ lra | ]. eexists. reflexivity. }
  split_scale (SENSOR.gps_course_sigma SP) Hc.
  { right. split; [ lra | ]. eexists. reflexivity. }
  left. split; [ lra | reflexivity ].
Qed.

Lemma sensors_gps_due (w : world) :
  (_t_gps (obj w) >=? SENSOR.ts_gps SP) = true ->
  sensors_gps w = gps_sample w.
Proof.
  intros H. unfold sensors_gps, bind, read. now rewrite H.
Qed.

Lemma sensors_gps_waiting (w : world) :
  (_t_gps (obj w) >=? SENSOR.ts_gps SP) = false ->
  sensors_gps w = (inr tt, gps_held w).
Proof.
  intros H. unfold sensors_gps, bind, read. now rewrite H.
Qed.

(** The blocks before the GPS block leave the timer, the cached forces
    and the altitude as they were. *)
Lemma t_gps_before_gps (f0 f1 f2 pw : num) (w : world) :
  _t_gps
    (obj (pressures_done pw (mags_done (accels_done f0 f1 f2 (gyros_done w)))))
  = _t_gps (obj w).
Proof. reflexivity. Qed.

Lemma forces_after_gyros (w : world) :
  current_forces_moments (obj (gyros_done w))
  = current_forces_moments (obj w).
Proof. reflexivity. Qed.

Lemma baro_base_after_mags (f0 f1 f2 : num) (w : world) :
  baro_base (obj (mags_done (accels_done f0 f1 f2 (gyros_done w))))
  = baro_base (obj w).
Proof. reflexivity. Qed.

Lemma read_run {A : Type} (f : MavDynamics -> A) (w w' : world) (a : A) :
  read f w = (inr a, w') -> w' = w /\ a = f (obj w).
Proof. unfold read. intros H. injection H as <- <-. now split. Qed.

(** A returning call of [sensors] read three force entries and the
    barometric power, and left the world [sensors_done] describes. *)
Lemma sensors_inv (w w' : world) (msg : MsgSensors.t) :
  sensors w = (inr msg, w') ->
  exists f0 f1 f2 pw : num,
    index2 (current_forces_moments (obj w)) 0 = inr f0
    /\ index2 (current_forces_moments (obj w)) 1 = inr f1
    /\ index2 (current_forces_moments (obj w)) 2 = inr f2
    /\ py_pow (baro_base (obj w)) baro_exponent = inr pw
    /\ w' = sensors_done f0 f1 f2 pw w
    /\ msg = _sensors (obj w').
Proof.
  unfold sensors. rewrite (bind_inr _ _ _ _ _ (sensors_gyros_run w)).
  destruct (sensors_accels_cases (gyros_done w))
    as [(f0 & f1 & f2 & E0 & E1 & E2 & _ & Hrun) | (x & w1 & Hrun & _)];
    [ rewrite (bind_inr _ _ _ _ _ Hrun)
    | rewrite (bind_inl _ _ _ _ _ Hrun); discriminate ].
  rewrite forces_after_gyros in E0, E1, E2.
  destruct (sensors_mags_cases (accels_done f0 f1 f2 (gyros_done w)))
    as [(_ & Hmag) | (_ & w3 & Hmag)];
    [ rewrite (bind_inr _ _ _ _ _ Hmag)
    | rewrite (bind_inl _ _ _ _ _ Hmag); discriminate ].
  destruct (sensors_pressures_cases
              (mags_done (accels_done f0 f1 f2 (gyros_done w))))
    as [(pw & Epw & _ & _ & Hpr) | (x & w4 & Hpr & _)];
    [ rewrite (bind_inr _ _ _ _ _ Hpr)
    | rewrite (bind_inl _ _ _ _ _ Hpr); discriminate ].
  rewrite baro_base_after_mags in Epw.
  intros H. exists f0, f1, f2, pw.
  repeat (split; [ assumption | ]).
  unfold sensors_done. rewrite <- (t_gps_before_gps f0 f1 f2 pw w).
  generalize dependent
    (pressures_done pw (mags_done (accels_done f0 f1 f2 (gyros_done w)))).
  intros w4 _ H.
  destruct (_t_gps (obj w4) >=? SENSOR.ts_gps SP) eqn:Edue.
  - destruct (gps_sample_cases w4) as [(_ & Hgps) | (_ & w5 & Hgps)];
      rewrite <- (sensors_gps_due _ Edue) in Hgps;
      [ rewrite (bind_inr _ _ _ _ _ Hgps) in H
      | rewrite (bind_inl _ _ _ _ _ Hgps) in H; discriminate H ].
    apply read_run in H. destruct H as [-> ->]. now split.
  - rewrite (bind_inr _ _ _ _ _ (sensors_gps_waiting _ Edue)) in H.
    apply read_run in H. destruct H as [-> ->]. now split.
Qed.

(** With a forces column, a defined barometric power and admissible
    deviations, [sensors] returns. *)
Lemma sensors_ok (w : world) (f0 f1 f2 pw : num) :
  sigmas_nonneg -> gps_sigmas_nonneg ->
  index2 (current_forces_moments (obj w)) 0 = inr f0 ->
  index2 (current_forces_moments (obj w)) 1 = inr f1 ->
  index2 (current_forces_moments (obj w)) 2 = inr f2 ->
  py_pow (baro_base (obj w)) baro_exponent = inr pw ->
  sensors w
  = (inr (_sensors (obj (sensors_done f0 f1 f2 pw w))),
     sensors_done f0 f1 f2 pw w).
Proof.
  intros (Ha & Hm & Hp & Hd) Hgps E0 E1 E2 Epw.
  unfold sensors. rewrite (bind_inr _ _ _ _ _ (sensors_gyros_run w)).
  destruct (sensors_accels_cases (gyros_done w))
    as [(g0 & g1 & g2 & G0 & G1 & G2 & _ & Hrun)
       | (x & w1 & Hrun & [(_ & Hneg) | (i & Hi & Ei)])].
  2: exfalso; lra.
  2: { exfalso. rewrite forces_after_gyros in Ei.
       destruct i as [ | [ | [ | i ] ] ]; [ congruence .. | ].
       do 3 apply PeanoNat.lt_S_n in Hi. inversion Hi. }
  rewrite forces_after_gyros in G0, G1, G2.
  assert (g0 = f0) by congruence. assert (g1 = f1) by congruence.
  assert (g2 = f2) by congruence. subst g0 g1 g2.
  rewrite (bind_inr _ _ _ _ _ Hrun).
  destruct (sensors_mags_cases (accels_done f0 f1 f2 (gyros_done w)))
    as [(_ & Hmag) | (Hneg & _)];
    [ | exfalso; lra ].
  rewrite (bind_inr _ _ _ _ _ Hmag).
  destruct (sensors_pressures_cases
              (mags_done (accels_done f0 f1 f2 (gyros_done w))))
    as [(pw' & Epw' & _ & _ & Hpr)
       | (x & w4 & Hpr & [Ex | (_ & [Hneg | Hneg])])].
  2: { rewrite baro_base_after_mags in Ex. congruence. }
  2, 3: exfalso; lra.
  rewrite baro_base_after_mags in Epw'.
  assert (pw' = pw) by congruence. subst pw'.
  rewrite (bind_inr _ _ _ _ _ Hpr).
  unfold sensors_done. rewrite <- (t_gps_before_gps f0 f1 f2 pw w).
  generalize
    (pressures_done pw (mags_done (accels_done f0 f1 f2 (gyros_done w)))).
  intros w4.
  destruct (_t_gps (obj w4) >=? SENSOR.ts_gps SP) eqn:Edue.
  - destruct (gps_sample_cases w4) as [(_ & Hrun5) | (Hneg & _)];
      [ | contradiction ].
    rewrite <- (sensors_gps_due _ Edue) in Hrun5.
    rewrite (bind_inr _ _ _ _ _ Hrun5). reflexivity.
  - rewrite (bind_inr _ _ _ _ _ (sensors_gps_waiting _ Edue)). reflexivity.
Qed.

(** [sensors] raises [TypeError] only from the double index into the
    cached forces. *)
Lemma sensors_TypeError_inv (w w' : world) :
  sensors w = (inl TypeError, w') ->
  exists i : nat,
    (i < 3)%nat /\ index2 (current_forces_moments (obj w)) i = inl TypeError.
Proof.
  unfold sensors. rewrite (bind_inr _ _ _ _ _ (sensors_gyros_run w)).
  destruct (sensors_accels_cases (gyros_done w))
    as [(f0 & f1 & f2 & E0 & E1 & E2 & _ & Hrun)
       | (x & w1 & Hrun & [(Hx & _) | (i & Hi & Ei)])].
  2: { rewrite (bind_inl _ _ _ _ _ Hrun). congruence. }
  2: { rewrite (bind_inl _ _ _ _ _ Hrun). intros H.
       injection H as -> _. exists i. split; assumption. }
  rewrite (bind_inr _ _ _ _ _ Hrun).
  destruct (sensors_mags_cases (accels_done f0 f1 f2 (gyros_done w)))
    as [(_ & Hmag) | (_ & w3 & Hmag)];
    [ rewrite (bind_inr _ _ _ _ _ Hmag)
    | rewrite (bind_inl _ _ _ _ _ Hmag); discriminate ].
  destruct (sensors_pressures_cases
              (mags_done (accels_done f0 f1 f2 (gyros_done w))))
    as [(pw & Epw & _ & _ & Hpr) | (x & w4 & Hpr & [Hx | (Hx & _)])];
    [ rewrite (bind_inr _ _ _ _ _ Hpr)
    | rewrite (bind_inl _ _ _ _ _ Hpr); apply py_pow_raises in Hx; congruence
    | rewrite (bind_inl _ _ _ _ _ Hpr); congruence ].
  generalize
    (pressures_done pw (mags_done (accels_done f0 f1 f2 (gyros_done w)))).
  intros w4.
  destruct (_t_gps (obj w4) >=? SENSOR.ts_gps SP) eqn:Edue.
  - destruct (gps_sample_cases w4) as [(_ & Hgps) | (_ & w5 & Hgps)];
      rewrite <- (sensors_gps_due _ Edue) in Hgps;
      [ rewrite (bind_inr _ _ _ _ _ Hgps)
      | rewrite (bind_inl _ _ _ _ _ Hgps) ]; discriminate.
  - rewrite (bind_inr _ _ _ _ _ (sensors_gps_waiting _ Edue)). discriminate.
Qed.

(** ** The frame of [sensors] *)

Lemma sensors_frame_refl (a : MavDynamics) : sensors_frame a a.
Proof. repeat split. Qed.

Lemma sensors_frame_trans (a b c : MavDynamics) :
  sensors_frame a b -> sensors_frame b c -> sensors_frame a c.
Proof.
  unfold sensors_frame.
  intros (A1 & A2 & A3 & A4 & A5 & A6 & A7 & A8 & A9)
         (B1 & B2 & B3 & B4 & B5 & B6 & B7 & B8 & B9).
  repeat split; congruence.
Qed.

Lemma preserves_bind {A B : Type} (m : M A) (k : A -> M B) :
  preserves sensors_frame m ->
  (forall a : A, preserves sensors_frame (k a)) ->
  preserves sensors_frame (bind m k).
Proof.
  intros Hm Hk w. unfold bind. specialize (Hm w).
  destruct (m w) as [[x | a] w1]; cbn [snd] in *.
  - exact Hm.
  - eapply sensors_frame_trans; [ exact Hm | apply Hk ].
Qed.

Lemma preserves_read {A : Type} (f : MavDynamics -> A) :
  preserves sensors_frame (read f).
Proof. intros w. apply sensors_frame_refl. Qed.

Lemma preserves_of_result {A : Type} (r : exn + A) :
  preserves sensors_frame (of_result r).
Proof. intros w. apply sensors_frame_refl. Qed.

Lemma preserves_index_forces (i : nat) :
  preserves sensors_frame (index_forces i).
Proof. intros w. apply sensors_frame_refl. Qed.

Lemma preserves_random_normal (loc scale : R) :
  preserves sensors_frame (np_random_normal loc scale).
Proof.
  intros w. unfold np_random_normal.
  destruct (Rlt_dec scale 0); apply sensors_frame_refl.
Qed.

Lemma preserves_update_self (f : MavDynamics -> MavDynamics) :
  (forall self : MavDynamics, sensors_frame self (f self)) ->
  preserves sensors_frame (update_self f).
Proof. intros Hf w. apply Hf. Qed.

Lemma preserves_set_sensor (f : MsgSensors.t -> MsgSensors.t) :
  preserves sensors_frame (set_sensor f).
Proof. apply preserves_update_self. intros self. repeat split. Qed.

Lemma preserves_advance_t_gps : preserves sensors_frame advance_t_gps.
Proof. apply preserves_update_self. intros self. repeat split. Qed.

Create HintDb frame.

#[local] Hint Resolve preserves_read preserves_of_result
  preserves_index_forces preserves_random_normal preserves_set_sensor
  preserves_advance_t_gps : frame.

Ltac frame_steps :=
  repeat first
    [ apply preserves_bind; [ solve [ auto with frame ] | intros ]
    | solve [ auto with frame ]
    | apply preserves_update_self; intros; repeat split ].

Lemma preserves_gyros : preserves sensors_frame sensors_gyros.
Proof. unfold sensors_gyros. frame_steps. Qed.

Lemma preserves_accels : preserves sensors_frame sensors_accels.
Proof. unfold sensors_accels. frame_steps. Qed.

Lemma preserves_mags : preserves sensors_frame sensors_mags.
Proof.
  unfold sensors_mags. apply preserves_bind; [ auto with frame | ].
  intros [[mb0 mb1] mb2]. frame_steps.
Qed.

Lemma preserves_pressures : preserves sensors_frame sensors_pressures.
Proof. unfold sensors_pressures. frame_steps. Qed.

Lemma preserves_gps : preserves sensors_frame sensors_gps.
Proof.
  unfold sensors_gps. apply preserves_bind; [ auto with frame | ].
  intros t. destruct (t >=? SENSOR.ts_gps SP).
  - unfold gps_sample. frame_steps.
  - auto with frame.
Qed.

(** C10, amended.  Whatever the object and whether the call returns or
    raises, [sensors] leaves the state array, the time step, the true
    state, the cached wind, forces, airspeed, angle of attack and
    sideslip and the cached force array as they were: what it may write
    is the sensor message, the three GPS position biases, the two GPS
    speed and course noise attributes and the GPS timer. *)
Theorem sensors_frame_holds (w : world) :
  sensors_frame (obj w) (obj (snd (sensors w))).
Proof.
  revert w. change (preserves sensors_frame sensors). unfold sensors.
  apply preserves_bind; [ apply preserves_gyros | intros _ ].
  apply preserves_bind; [ apply preserves_accels | intros _ ].
  apply preserves_bind; [ apply preserves_mags | intros _ ].
  apply preserves_bind; [ apply preserves_pressures | intros _ ].
  apply preserves_bind; [ apply preserves_gps | intros _ ].
  apply preserves_read.
Qed.

(** ** The cached forces and the accelerometers *)

Lemma update_forces_column delta wind self :
  exists fx fy fz l m n : num,
    current_forces_moments (update delta wind self)
    = NdColumn [fx; fy; fz; l; m; n].
Proof.
  unfold update.
  destruct (forces_moments_column delta self)
    as (fx & fy & fz & l & m & n & Hfst & Hcol).
  destruct (_forces_moments delta self) as [fm self1]. cbn [fst snd] in *.
  exists fx, fy, fz, l, m, n.
  destruct (update_true_state_frame
              (_update_velocity_data wind
                 (set__state
                    (_rk4_step (_state self1) (_ts_simulation self1) fm)
                    self1)))
    as (_ & _ & _ & _ & _ & _ & ->).
  destruct (update_velocity_data_frame wind
              (set__state
                 (_rk4_step (_state self1) (_ts_simulation self1) fm) self1))
    as (_ & _ & _ & ->).
  exact Hcol.
Qed.

Lemma init_forces_list (Ts : num) :
  current_forces_moments (__init__ Ts) = PyIntList [0; 0; 0; 0; 0; 0]%Z.
Proof. reflexivity. Qed.

(** The double index into a list of ints raises before any noise is
    drawn. *)
Lemma accels_TypeError (w : world) (z : Z) (l : list Z) :
  current_forces_moments (obj w) = PyIntList (z :: l) ->
  sensors_accels w = (inl TypeError, w).
Proof.
  intros H. unfold sensors_accels, bind, index_forces. rewrite H. reflexivity.
Qed.

(** On the object the constructor returns, [sensors] raises at the
    first accelerometer line. *)
Lemma sensors_on_constructed (Ts : num) (k : nat) :
  fst (sensors {| obj := __init__ Ts; rng_pos := k |}) = inl TypeError.
Proof.
  unfold sensors.
  rewrite (bind_inr _ _ _ _ _ (sensors_gyros_run _)).
  erewrite bind_inl; [ reflexivity | ].
  apply accels_TypeError with (z := 0%Z) (l := [0; 0; 0; 0; 0]%Z).
  rewrite forces_after_gyros. apply init_forces_list.
Qed.

(** C9.  [initialize_velocity] leaves the cached forces as a column
    array; the constructor then overwrites them with a list of six ints;
    so [sensors] called on the constructed object raises [TypeError] at
    the accelerometers, wherever the random stream stands; and after an
    [update] of any object the call does not raise [TypeError]. *)
Theorem sensors_needs_update (Ts : num) :
  (forall (Va alpha beta : num) (self : MavDynamics),
      exists l : list num,
        current_forces_moments (initialize_velocity Va alpha beta self)
        = NdColumn l)
  /\ current_forces_moments (__init__ Ts) = PyIntList [0; 0; 0; 0; 0; 0]%Z
  /\ (forall k : nat,
         fst (sensors {| obj := __init__ Ts; rng_pos := k |})
         = inl TypeError)
  /\ (forall (delta : MsgDelta.t) (wind : ndarray6) (self : MavDynamics)
             (k : nat),
         fst (sensors {| obj := update delta wind self; rng_pos := k |})
         <> inl TypeError).
Proof.
  split; [ | split; [ | split ] ].
  - intros Va alpha beta self. unfold initialize_velocity. cbv zeta.
    match goal with
    | |- context [_forces_moments ?d ?s] =>
        destruct (forces_moments_column d s)
          as (fx & fy & fz & l & m & n & _ & Hcol);
        destruct (update_true_state_frame (snd (_forces_moments d s)))
          as (_ & _ & _ & _ & _ & _ & ->)
    end.
    eexists. exact Hcol.
  - apply init_forces_list.
  - intros k. apply sensors_on_constructed.
  - intros delta wind self k Hraise.
    destruct (sensors {| obj := update delta wind self; rng_pos := k |})
      as [r w1] eqn:E.
    cbn [fst] in Hraise. subst r.
    apply sensors_TypeError_inv in E. destruct E as (i & Hi & Ei).
    cbn [obj] in Ei.
    destruct (update_forces_column delta wind self)
      as (fx & fy & fz & l & m & n & Hcol).
    rewrite Hcol in Ei.
    destruct i as [ | [ | [ | i ] ] ]; try discriminate Ei.
    do 3 apply PeanoNat.lt_S_n in Hi. inversion Hi.
Qed.

(** ** The magnetometer *)

(** C8.  On every returning call, each magnetometer axis is the matching
    component of the body-frame field times a draw of mean 0 and
    deviation [mag_sigma], the three draws being the seventh, eighth and
    ninth of the call; the body-frame field is the inertial field
    rotated by the transpose of the attitude matrix; and the inertial
    field is the first row of the matrix the rotation utility returns for
    roll 0, pitch minus the inclination of 66 degrees and yaw the
    declination of 2.13 degrees (finite entries assumed), so it is fixed by
    those two angles alone, and it has norm one when that row has. *)
Theorem magnetometer_noise_is_multiplicative
  (w w' : world) (msg : MsgSensors.t)
  (r00 r01 r02 r10 r11 r12 r20 r21 r22 : R) :
  sensors w = (inr msg, w') ->
  euler_to_rotation 0%R (- np_deg2rad 66)%R (np_deg2rad 2.13)
  = ((fin r00, fin r01, fin r02), (fin r10, fin r11, fin r12),
     (fin r20, fin r21, fin r22)) ->
  (r00 * r00 + r01 * r01 + r02 * r02 = 1)%R ->
  let ts := true_state (obj w) in
  let k := rng_pos w in
  let mb :=
    matvec
      (transpose
         (euler_to_rotation (MsgState.phi ts) (MsgState.theta ts)
            (MsgState.psi ts)))
      mag_inertial in
  MsgSensors.mag_x msg
  = fst (fst mb) * normal_at 0 (SENSOR.mag_sigma SP) (6 + k)
  /\ MsgSensors.mag_y msg
     = snd (fst mb) * normal_at 0 (SENSOR.mag_sigma SP) (7 + k)
  /\ MsgSensors.mag_z msg
     = snd mb * normal_at 0 (SENSOR.mag_sigma SP) (8 + k)
  /\ mag_inertial = (fin r00, fin r01, fin r02)
  /\ norm3 mag_inertial = fin 1.
Proof.
  intros Hrun Hrot Hunit ts k mb.
  apply sensors_inv in Hrun.
  destruct Hrun as (f0 & f1 & f2 & pw & _ & _ & _ & _ & -> & ->).
  assert (Hmsg :
    forall w4 : world,
      w4 = pressures_done pw (mags_done (accels_done f0 f1 f2 (gyros_done w)))
      -> MsgSensors.mag_x (_sensors (obj w4))
         = fst (fst mb) * normal_at 0 (SENSOR.mag_sigma SP) (6 + k)
         /\ MsgSensors.mag_y (_sensors (obj w4))
            = snd (fst mb) * normal_at 0 (SENSOR.mag_sigma SP) (7 + k)
         /\ MsgSensors.mag_z (_sensors (obj w4))
            = snd mb * normal_at 0 (SENSOR.mag_sigma SP) (8 + k)).
  { intros w4 ->. repeat split. }
  unfold sensors_done.
  specialize (Hmsg _ eq_refl).
  generalize dependent
    (pressures_done pw (mags_done (accels_done f0 f1 f2 (gyros_done w)))).
  intros w4 (Hx & Hy & Hz).
  assert (Hheld :
    MsgSensors.mag_x
      (_sensors
         (obj (if _t_gps (obj w) >=? SENSOR.ts_gps SP
               then gps_done w4 else gps_held w4)))
    = MsgSensors.mag_x (_sensors (obj w4))
    /\ MsgSensors.mag_y
         (_sensors
            (obj (if _t_gps (obj w) >=? SENSOR.ts_gps SP
                  then gps_done w4 else gps_held w4)))
       = MsgSensors.mag_y (_sensors (obj w4))
    /\ MsgSensors.mag_z
         (_sensors
            (obj (if _t_gps (obj w) >=? SENSOR.ts_gps SP
                  then gps_done w4 else gps_held w4)))
       = MsgSensors.mag_z (_sensors (obj w4))).
  { destruct (_t_gps (obj w) >=? SENSOR.ts_gps SP); repeat split. }
  destruct Hheld as (-> & -> & ->).
  repeat (split; [ assumption | ]).
  assert (Hmi : mag_inertial = (fin r00, fin r01, fin r02)).
  { unfold mag_inertial. rewrite Hrot. cbn -[Rmult Rplus]. unfold fin.
    repeat f_equal; ring. }
  split; [ exact Hmi | ].
  rewrite Hmi. cbn -[Rmult Rplus]. rewrite Hunit.
  destruct (Rlt_dec 1 0) as [Hneg | _]; [ exfalso; lra | ].
  now rewrite sqrt_1.
Qed.

(** ** Divisions by the airspeed *)

Lemma nadd_None_r (x : num) : x + None = None.
Proof. now destruct x. Qed.

Lemma nsub_None_r (x : num) : x - None = None.
Proof. now destruct x. Qed.

Lemma nmul_None_r (x : num) : x * None = None.
Proof. now destruct x. Qed.

Lemma nadd_None_l (x : num) : None + x = None.
Proof. reflexivity. Qed.

Lemma nsub_None_l (x : num) : None - x = None.
Proof. reflexivity. Qed.

Lemma nmul_None_l (x : num) : None * x = None.
Proof. reflexivity. Qed.

(** A quotient by twice a zero airspeed has no finite value. *)
Lemma ndiv_twice_zero (x : num) : x / (2%R * fin 0) = None.
Proof.
  destruct x as [a | ]; [ | reflexivity ]. cbn -[Rmult].
  destruct (Req_dec_T (2 * 0) 0) as [_ | H]; [ reflexivity | ].
  exfalso. apply H. ring.
Qed.

Create Rewrite HintDb num_none.

#[local] Hint Rewrite nadd_None_r nsub_None_r nmul_None_r nadd_None_l
  nsub_None_l nmul_None_l ndiv_twice_zero : num_none.

Lemma sigmoid_denominator_nonzero (x y : R) :
  ((1 + exp x) * (1 + exp y) <> 0)%R.
Proof. generalize (exp_pos x) (exp_pos y). intros. nra. Qed.

(** What the resolution does with the airspeed it has just computed. *)
Lemma resolution_airspeed_cases (wind : ndarray6) (self : MavDynamics)
  (a : R) :
  _Va (_update_velocity_data wind self) = fin a ->
  ((0 < a)%R -> is_fin (_beta (_update_velocity_data wind self)))
  /\ (a = 0%R -> _beta (_update_velocity_data wind self) = None).
Proof.
  unfold _update_velocity_data.
  destruct (vsub _ _) as [[[ur | ] [vr | ]] [wr | ]];
    cbn -[Rmult Rplus]; try discriminate.
  set (n := (ur * ur + vr * vr + wr * wr)%R).
  assert (Hn : (0 <= n)%R) by apply sum_squares_nonneg.
  destruct (Rlt_dec n 0) as [Hneg | _]; [ discriminate | ].
  intros Ha. injection Ha as Ha. cbn -[Rmult Rplus].
  destruct (Req_dec_T (sqrt n) 0) as [Hz | Hnz].
  - split; [ intros Hpos; exfalso; lra | reflexivity ].
  - split; [ intros Hpos | intros Hzero; exfalso; lra ].
    assert (Hsq : (sqrt n * sqrt n = n)%R) by now apply sqrt_sqrt.
    rewrite Ha in *.
    assert (Hle : (- a <= vr <= a)%R) by (unfold n in Hsq; split; nra).
    assert (Hq : (-1 <= vr / a <= 1)%R).
    { split.
      - apply Rmult_le_reg_r with a; [ exact Hpos | ].
        unfold Rdiv. rewrite Rmult_assoc, Rinv_l by lra. lra.
      - apply Rmult_le_reg_r with a; [ exact Hpos | ].
        unfold Rdiv. rewrite Rmult_assoc, Rinv_l by lra. lra. }
    unfold np_arcsin.
    destruct (Rlt_dec (vr / a) (-1)); [ lra | ].
    destruct (Rlt_dec 1 (vr / a)); [ lra | ].
    eexists. reflexivity.
Qed.

(** At zero airspeed none of the six forces and moments is finite. *)
Lemma forces_at_zero_airspeed (delta : MsgDelta.t) (self : MavDynamics) :
  _Va self = fin 0 ->
  fst (_forces_moments delta self) = [None; None; None; None; None; None].
Proof.
  intros HVa. unfold _forces_moments.
  destruct (quaternion_to_euler _) as [[phi theta] psi].
  destruct (matvec _ _) as [[g0 g1] g2].
  cbv beta zeta.
  cbn [fst snd _Va set_true_state set_current_forces_moments
       _motor_thrust_torque].
  rewrite HVa. autorewrite with num_none. reflexivity.
Qed.

Ltac nonzero_divisor Hpi :=
  repeat match goal with
    | |- context [Req_dec_T ?x 0] =>
        destruct (Req_dec_T x 0) as [Hz | _];
        [ exfalso;
          first [ exact (sigmoid_denominator_nonzero _ _ Hz)
                | exact (Hpi Hz)
                | lra ]
        | ]
    end.

(** At a positive airspeed, finite inputs give six finite forces and
    moments. *)
Lemma forces_finite (delta : MsgDelta.t) (self : MavDynamics) (a : R) :
  forces_inputs_finite delta self ->
  (MAV.e P * MAV.AR P <> 0)%R ->
  _Va self = fin a -> (0 < a)%R ->
  Forall is_fin (fst (_forces_moments delta self)).
Proof.
  intros (Hal & Hbe & Hp & Hq & Hr & Hde & Hda & Hdr & Hdt & Hg0 & Hg1 & Hg2)
         HeAR HVa Hpos.
  assert (Hpi : (PI * MAV.e P * MAV.AR P <> 0)%R).
  { generalize PI_RGT_0. intros HPI Hz. apply HeAR.
    rewrite Rmult_assoc in Hz. apply Rmult_integral in Hz.
    destruct Hz; [ lra | assumption ]. }
  unfold gravity_body in Hg0, Hg1, Hg2. unfold _forces_moments.
  destruct (quaternion_to_euler _) as [[phi theta] psi].
  destruct (matvec _ _) as [[g0 g1] g2].
  cbn [fst snd] in Hg0, Hg1, Hg2.
  destruct Hal as [al Hal], Hbe as [be Hbe], Hp as [p Hp], Hq as [q Hq],
    Hr as [r Hr], Hg0 as [x0 ->], Hg1 as [x1 ->], Hg2 as [x2 ->].
  destruct delta as [de da dr dt]. cbn [MsgDelta.elevator MsgDelta.aileron
    MsgDelta.rudder MsgDelta.throttle] in *.
  destruct Hde as [e' ->], Hda as [a' ->], Hdr as [r' ->], Hdt as [t' ->].
  cbn -[Rmult Rplus Rminus Ropp Rdiv]. rewrite Hal, Hbe, Hp, Hq, Hr, HVa.
  cbn -[Rmult Rplus Rminus Ropp Rdiv].
  nonzero_divisor Hpi.
  repeat constructor; eexists; reflexivity.
Qed.

(** C7.  With an airspeed [a] cached in the object: if [a > 0], every
    quotient by the airspeed in the force model is taken (with finite
    inputs and a nonzero [e AR], all six forces and moments are finite);
    if [a = 0], nothing guards the quotients and none of the six is
    finite.  The same holds in the resolution for the airspeed it has just
    computed: positive, the sideslip is finite; zero, it is not. *)
Theorem airspeed_divisions
  (delta : MsgDelta.t) (wind : ndarray6) (self : MavDynamics) (a : R) :
  forces_inputs_finite delta self ->
  (MAV.e P * MAV.AR P <> 0)%R ->
  _Va self = fin a ->
  ((0 < a)%R -> Forall is_fin (fst (_forces_moments delta self)))
  /\ (a = 0%R ->
      fst (_forces_moments delta self)
      = [None; None; None; None; None; None])
  /\ (forall a' : R,
         _Va (_update_velocity_data wind self) = fin a' ->
         ((0 < a')%R -> is_fin (_beta (_update_velocity_data wind self)))
         /\ (a' = 0%R -> _beta (_update_velocity_data wind self) = None)).
Proof.
  intros Hfin HeAR HVa. split; [ | split ].
  - intros Hpos. now apply forces_finite with a.
  - intros ->. now apply forces_at_zero_airspeed.
  - intros a'. apply resolution_airspeed_cases.
Qed.

(** ** The GPS block *)

Lemma nge_fin (t s : R) : (fin t >=? fin s) = true <-> (s <= t)%R.
Proof.
  unfold nge, fin.
  destruct (Rle_dec s t); split; intros;
    first [ reflexivity | assumption | discriminate | contradiction ].
Qed.

(** Both branches of the GPS block add one time step to the timer. *)
Lemma sensors_done_timer (f0 f1 f2 pw : num) (w : world) :
  _t_gps (obj (sensors_done f0 f1 f2 pw w))
  = _t_gps (obj w) + _ts_simulation (obj w).
Proof.
  unfold sensors_done.
  destruct (_t_gps (obj w) >=? SENSOR.ts_gps SP); reflexivity.
Qed.

Lemma sensors_done_frame (f0 f1 f2 pw : num) (w : world) :
  sensors_frame (obj w) (obj (sensors_done f0 f1 f2 pw w)).
Proof.
  unfold sensors_done.
  destruct (_t_gps (obj w) >=? SENSOR.ts_gps SP); repeat split.
Qed.

(** A returning call made when the timer has reached the sample interval
    takes a GPS sample from five fresh draws and advances the timer by
    one time step. *)
Lemma sensors_due_result (w w' : world) (msg : MsgSensors.t) :
  sensors w = (inr msg, w') ->
  (_t_gps (obj w) >=? SENSOR.ts_gps SP) = true ->
  let ts := true_state (obj w) in
  let k := rng_pos w in
  let north_speed :=
    MsgState.Va ts * np_cos (MsgState.psi ts) + MsgState.wn ts in
  let east_speed :=
    MsgState.Va ts * np_sin (MsgState.psi ts) + MsgState.we ts in
  MsgSensors.gps_Vg msg
  = np_sqrt (npow2 north_speed + npow2 east_speed)
    + normal_at 0 (SENSOR.gps_Vg_sigma SP) (14 + k)
  /\ MsgSensors.gps_course msg
     = np_arctan2 east_speed north_speed
       + normal_at 0 (SENSOR.gps_course_sigma SP) (15 + k)
  /\ _gps_eta_Vg (obj w')
     = Some (normal_at 0 (SENSOR.gps_Vg_sigma SP) (14 + k))
  /\ _gps_eta_course (obj w')
     = Some (normal_at 0 (SENSOR.gps_course_sigma SP) (15 + k))
  /\ rng_pos w' = (16 + k)%nat
  /\ _t_gps (obj w') = _t_gps (obj w) + _ts_simulation (obj w).
Proof.
  intros Hrun Hdue. apply sensors_inv in Hrun.
  destruct Hrun as (f0 & f1 & f2 & pw & _ & _ & _ & _ & -> & ->).
  unfold sensors_done. rewrite Hdue. repeat split.
Qed.

(** A returning call made before that holds the five GPS fields and
    advances the timer. *)
Lemma sensors_waiting_result (w w' : world) (msg : MsgSensors.t) :
  sensors w = (inr msg, w') ->
  (_t_gps (obj w) >=? SENSOR.ts_gps SP) = false ->
  MsgSensors.gps_n msg = MsgSensors.gps_n (_sensors (obj w))
  /\ MsgSensors.gps_e msg = MsgSensors.gps_e (_sensors (obj w))
  /\ MsgSensors.gps_h msg = MsgSensors.gps_h (_sensors (obj w))
  /\ MsgSensors.gps_Vg msg = MsgSensors.gps_Vg (_sensors (obj w))
  /\ MsgSensors.gps_course msg = MsgSensors.gps_course (_sensors (obj w))
  /\ rng_pos w' = (11 + rng_pos w)%nat
  /\ _t_gps (obj w') = _t_gps (obj w) + _ts_simulation (obj w).
Proof.
  intros Hrun Hdue. apply sensors_inv in Hrun.
  destruct Hrun as (f0 & f1 & f2 & pw & _ & _ & _ & _ & -> & ->).
  unfold sensors_done. rewrite Hdue. repeat split.
Qed.

(** Once the timer has reached the sample interval it stays there: a
    call adds a nonnegative time step and nothing takes it back. *)
Lemma gps_stays_due (w w' : world) (msg : MsgSensors.t) (t d : R) :
  sensors w = (inr msg, w') ->
  _t_gps (obj w) = fin t -> _ts_simulation (obj w) = fin d ->
  (SENSOR.ts_gps SP <= t)%R -> (0 <= d)%R ->
  _t_gps (obj w') = fin (t + d)
  /\ _ts_simulation (obj w') = fin d
  /\ (_t_gps (obj w') >=? SENSOR.ts_gps SP) = true.
Proof.
  intros Hrun Ht Hd Hdue Hpos. apply sensors_inv in Hrun.
  destruct Hrun as (f0 & f1 & f2 & pw & _ & _ & _ & _ & -> & _).
  rewrite sensors_done_timer, Ht, Hd.
  destruct (sensors_done_frame f0 f1 f2 pw w) as (_ & -> & _).
  repeat split; [ exact Hd | ]. apply nge_fin. lra.
Qed.

(** The barometric power is defined above -44330 m. *)
Lemma baro_power_defined (self : MavDynamics) (h : R) :
  MsgState.altitude (true_state self) = fin h ->
  (-44330 < h)%R ->
  exists pw : num, py_pow (baro_base self) baro_exponent = inr pw.
Proof.
  intros Hh Hlow. unfold baro_base, baro_exponent. rewrite Hh.
  cbn -[Rmult Rminus Rdiv].
  destruct (Req_dec_T 288.15 0) as [Hz | _]; [ exfalso; lra | ].
  destruct (Req_dec_T (8.31432 * -0.0065) 0) as [Hz | _]; [ exfalso; lra | ].
  unfold py_pow.
  destruct (Req_dec_T (1 - -0.0065 * h / 288.15) 0) as [Hz | _];
    [ exfalso; lra | ].
  destruct (Rlt_dec (1 - -0.0065 * h / 288.15) 0) as [Hz | _];
    [ exfalso; lra | ].
  eexists. reflexivity.
Qed.

(** With admissible deviations, a forces column and an altitude above
    -44330 m, [sensors] returns. *)
Lemma sensors_returns (w : world) (f0 f1 f2 : num) (rest : list num) (h : R) :
  sigmas_nonneg -> gps_sigmas_nonneg ->
  current_forces_moments (obj w) = NdColumn (f0 :: f1 :: f2 :: rest) ->
  MsgState.altitude (true_state (obj w)) = fin h ->
  (-44330 < h)%R ->
  exists pw : num,
    sensors w
    = (inr (_sensors (obj (sensors_done f0 f1 f2 pw w))),
       sensors_done f0 f1 f2 pw w).
Proof.
  intros Hs Hg Hcol Hh Hlow.
  destruct (baro_power_defined (obj w) h Hh Hlow) as [pw Hpw].
  exists pw. apply sensors_ok; try assumption; rewrite Hcol; reflexivity.
Qed.

(** The altitude [update] leaves in the true state is minus the down
    position of the integrated state. *)
Lemma update_altitude delta wind self :
  MsgState.altitude (true_state (update delta wind self))
  = - row2 (_rk4_step (_state self) (_ts_simulation self)
              (fst (_forces_moments delta self))).
Proof.
  unfold update.
  destruct (forces_moments_frame delta self) as (Hs & _ & _ & _ & _ & Hts).
  destruct (_forces_moments delta self) as [fm self1]. cbn [fst snd] in *.
  rewrite Hs, Hts.
  set (self2 := set__state _ self1).
  destruct (update_velocity_data_frame wind self2) as (Hs2 & _).
  unfold _update_true_state. rewrite Hs2.
  destruct (quaternion_to_euler _) as [[phi theta] psi].
  destruct (matvec _ _) as [[p0 p1] p2].
  reflexivity.
Qed.

(** The constructor changes the body velocity only. *)
Lemma init_down_position (Ts : num) :
  row2 (_state (__init__ Ts)) = row2 state0.
Proof.
  unfold __init__. cbv zeta.
  change (row2 (_state (initialize_velocity (MAV.u0 P) 0%R 0%R
                          (set__forces zeros3
                             (set__wind zeros3 (super_init Ts)))))
          = row2 state0).
  unfold initialize_velocity. cbv zeta.
  rewrite (proj1 (update_true_state_frame _)).
  rewrite (proj1 (forces_moments_frame _ _)).
  rewrite (proj1 (update_velocity_data_frame _ _)).
  reflexivity.
Qed.

(** After an [update] that leaves the vehicle less than 44330 m below
    the origin, and with admissible deviations, [sensors] returns. *)
Lemma sensors_after_update_returns delta wind self (k : nat) (d : R) :
  sigmas_nonneg -> gps_sigmas_nonneg ->
  row2 (_rk4_step (_state self) (_ts_simulation self)
          (fst (_forces_moments delta self))) = fin d ->
  (d < 44330)%R ->
  exists (msg : MsgSensors.t) (w' : world),
    sensors {| obj := update delta wind self; rng_pos := k |}
    = (inr msg, w').
Proof.
  intros Hs Hg Hd Hlow.
  destruct (update_forces_column delta wind self)
    as (fx & fy & fz & l & m & n & Hcol).
  destruct (sensors_returns
              {| obj := update delta wind self; rng_pos := k |}
              fx fy fz [l; m; n] (- d)%R Hs Hg Hcol)
    as [pw Hrun].
  - cbn [obj]. rewrite update_altitude, Hd. reflexivity.
  - lra.
  - do 2 eexists. exact Hrun.
Qed.

(** On every returning call the gyro, accelerometer and pressure fields
    are computed from draws of that call: the first six, the tenth and
    the eleventh. *)
Lemma sensors_fresh_fields (w w' : world) (msg : MsgSensors.t) :
  sensors w = (inr msg, w') ->
  let ts := true_state (obj w) in
  let k := rng_pos w in
  MsgSensors.gyro_x msg
  = MsgState.p ts + normal_at 0 (np_radians 0.5) k
  /\ MsgSensors.gyro_y msg
     = MsgState.q ts + normal_at 0 (np_radians 0.5) (1 + k)
  /\ MsgSensors.gyro_z msg
     = MsgState.r ts + normal_at 0 (np_radians 0.5) (2 + k)
  /\ (exists f0 : num,
         index2 (current_forces_moments (obj w)) 0 = inr f0
         /\ MsgSensors.accel_x msg
            = f0 / MAV.mass P + MAV.gravity P * np_sin (MsgState.theta ts)
              + normal_at 0 (SENSOR.accel_sigma SP) (3 + k))
  /\ (exists pw : num,
         py_pow (baro_base (obj w)) baro_exponent = inr pw
         /\ MsgSensors.abs_pressure msg
            = 101325%R * pw + normal_at 0 (SENSOR.abs_pres_sigma SP) (9 + k))
  /\ MsgSensors.diff_pressure msg
     = (MAV.rho P * npow2 (MsgState.Va ts)) / 2%R
       + normal_at 0 (SENSOR.diff_pres_sigma SP) (10 + k)
  /\ (rng_pos w < rng_pos w')%nat.
Proof.
  intros Hrun ts k. apply sensors_inv in Hrun.
  destruct Hrun as (f0 & f1 & f2 & pw & E0 & _ & _ & Epw & -> & ->).
  unfold sensors_done.
  destruct (_t_gps (obj w) >=? SENSOR.ts_gps SP).
  - repeat split.
    + exists f0. split; [ exact E0 | reflexivity ].
    + exists pw. split; [ exact Epw | reflexivity ].
    + cbn. repeat constructor.
  - repeat split.
    + exists f0. split; [ exact E0 | reflexivity ].
    + exists pw. split; [ exact Epw | reflexivity ].
    + cbn. repeat constructor.
Qed.

(** ** [update] *)

(** What [_update_true_state] writes, field by field. *)
Lemma update_true_state_consistent (self : MavDynamics) :
  projection_consistent (_update_true_state self).
Proof.
  unfold projection_consistent, _update_true_state.
  destruct (quaternion_to_euler _) as [[phi theta] psi] eqn:E.
  destruct (matvec _ _) as [[p0 p1] p2].
  cbn. rewrite E. repeat split.
Qed.

Lemma update_true_state_keeps (self : MavDynamics) :
  let self' := _update_true_state self in
  _wind self' = _wind self /\ _forces self' = _forces self
  /\ _sensors self' = _sensors self
  /\ _gps_eta_n self' = _gps_eta_n self /\ _gps_eta_e self' = _gps_eta_e self
  /\ _gps_eta_h self' = _gps_eta_h self
  /\ _gps_eta_Vg self' = _gps_eta_Vg self
  /\ _gps_eta_course self' = _gps_eta_course self.
Proof.
  unfold _update_true_state.
  destruct (quaternion_to_euler _) as [[phi theta] psi].
  destruct (matvec _ _) as [[p0 p1] p2].
  cbn. repeat split.
Qed.

Lemma forces_moments_keeps delta self :
  let self' := snd (_forces_moments delta self) in
  _wind self' = _wind self /\ _forces self' = _forces self
  /\ _sensors self' = _sensors self
  /\ _gps_eta_n self' = _gps_eta_n self /\ _gps_eta_e self' = _gps_eta_e self
  /\ _gps_eta_h self' = _gps_eta_h self
  /\ _gps_eta_Vg self' = _gps_eta_Vg self
  /\ _gps_eta_course self' = _gps_eta_course self.
Proof.
  unfold _forces_moments.
  destruct (quaternion_to_euler _) as [[phi theta] psi].
  destruct (matvec _ _) as [[g0 g1] g2].
  cbn. repeat split.
Qed.

Lemma update_velocity_data_keeps wind self :
  let self' := _update_velocity_data wind self in
  _wind self' = _wind self /\ _forces self' = _forces self
  /\ _sensors self' = _sensors self
  /\ _gps_eta_n self' = _gps_eta_n self /\ _gps_eta_e self' = _gps_eta_e self
  /\ _gps_eta_h self' = _gps_eta_h self
  /\ _gps_eta_Vg self' = _gps_eta_Vg self
  /\ _gps_eta_course self' = _gps_eta_course self
  /\ true_state self' = true_state self.
Proof.
  unfold _update_velocity_data.
  destruct (vsub _ _) as [[ur vr] wr].
  cbn. repeat split.
Qed.

(** [update] as the composition it is, with the forces named. *)
Lemma update_unfold delta wind self :
  update delta wind self
  = _update_true_state
      (_update_velocity_data wind
         (set__state
            (_rk4_step (_state self) (_ts_simulation self)
               (fst (_forces_moments delta self)))
            (snd (_forces_moments delta self)))).
Proof.
  unfold update.
  destruct (forces_moments_frame delta self) as (Hs & _ & _ & _ & _ & Hts).
  destruct (_forces_moments delta self) as [fm self1]. cbn [fst snd] in *.
  now rewrite Hs, Hts.
Qed.

(** X1.  The wind passed to [update] does not enter the step it
    integrates: the new state array and the cached forces are the same
    for every wind; and the three gust entries do not enter [update] at
    all. *)
Theorem update_wind_outside_dynamics
  (delta : MsgDelta.t) (wind wind' : ndarray6) (self : MavDynamics)
  (s0 s1 s2 g0 g1 g2 g0' g1' g2' : num) :
  _state (update delta wind self) = _state (update delta wind' self)
  /\ current_forces_moments (update delta wind self)
     = current_forces_moments (update delta wind' self)
  /\ update delta (mkWind s0 s1 s2 g0 g1 g2) self
     = update delta (mkWind s0 s1 s2 g0' g1' g2') self.
Proof.
  rewrite !update_unfold. split; [ | split ].
  - rewrite !(proj1 (update_true_state_frame _)).
    rewrite !(proj1 (update_velocity_data_frame _ _)). reflexivity.
  - destruct (update_true_state_frame
                (_update_velocity_data wind
                   (set__state
                      (_rk4_step (_state self) (_ts_simulation self)
                         (fst (_forces_moments delta self)))
                      (snd (_forces_moments delta self)))))
      as (_ & _ & _ & _ & _ & _ & H1).
    destruct (update_true_state_frame
                (_update_velocity_data wind'
                   (set__state
                      (_rk4_step (_state self) (_ts_simulation self)
                         (fst (_forces_moments delta self)))
                      (snd (_forces_moments delta self)))))
      as (_ & _ & _ & _ & _ & _ & H2).
    rewrite H1, H2.
    rewrite !(proj2 (proj2 (proj2 (update_velocity_data_frame _ _)))).
    reflexivity.
  - reflexivity.
Qed.

(** X2.  After [update], the true state is the projection of the
    integrated state: position and altitude, Euler angles and body rates
    are read from the array the integration step returned, the air data
    are the resolution of its velocity against the steady wind that was
    passed, and the two wind fields repeat the object's cached wind, not
    the wind that was passed. *)
Theorem update_projection
  (delta : MsgDelta.t) (wind : ndarray6) (self : MavDynamics) :
  let st :=
    _rk4_step (_state self) (_ts_simulation self)
      (fst (_forces_moments delta self)) in
  let self' := update delta wind self in
  let ts := true_state self' in
  _state self' = st
  /\ (_Va self', _alpha self', _beta self')
     = resolve_velocity_spec (rows_3_6 st) (wind_0_3 wind)
  /\ (MsgState.north ts, MsgState.east ts, MsgState.altitude ts)
     = (row0 st, row1 st, - row2 st)
  /\ (MsgState.Va ts, MsgState.alpha ts, MsgState.beta ts)
     = (_Va self', _alpha self', _beta self')
  /\ (MsgState.phi ts, MsgState.theta ts, MsgState.psi ts)
     = quaternion_to_euler (rows_6_10 st)
  /\ (MsgState.p ts, MsgState.q ts, MsgState.r ts)
     = (row10 st, row11 st, row12 st)
  /\ (MsgState.wn ts, MsgState.we ts)
     = (fst (fst (_wind self)), snd (fst (_wind self))).
Proof.
  cbv zeta. rewrite update_unfold.
  set (mid := set__state _ (snd (_forces_moments delta self))).
  destruct (update_true_state_consistent (_update_velocity_data wind mid))
    as (C1 & C2 & C3 & C4 & C5 & C6 & C7 & C8 & C9 & C10 & C11 & C12).
  destruct (update_true_state_frame (_update_velocity_data wind mid))
    as (F1 & F2 & F3 & F4 & _).
  destruct (update_true_state_keeps (_update_velocity_data wind mid))
    as (K1 & _).
  destruct (update_velocity_data_frame wind mid) as (G1 & _).
  destruct (update_velocity_data_keeps wind mid) as (L1 & _).
  destruct (forces_moments_keeps delta self) as (M1 & _).
  rewrite F1, G1 in *. rewrite K1, L1 in *.
  change (_state mid) with
    (_rk4_step (_state self) (_ts_simulation self)
       (fst (_forces_moments delta self))) in *.
  change (_wind mid) with (_wind (snd (_forces_moments delta self))) in *.
  rewrite M1 in *.
  split; [ reflexivity | ].
  split.
  { rewrite F2, F3, F4. unfold _update_velocity_data, resolve_velocity_spec.
    change (rows_3_6 (_state mid)) with
      (rows_3_6
         (_rk4_step (_state self) (_ts_simulation self)
            (fst (_forces_moments delta self)))).
    destruct (vsub _ _) as [[ur vr] wr]. reflexivity. }
  rewrite C1, C2, C3, C4, C5, C6, C7, C8, C9, C10, C11, C12.
  repeat split.
Qed.

(** What [update] leaves alone. *)
Lemma update_keeps
  (delta : MsgDelta.t) (wind : ndarray6) (self : MavDynamics) :
  let self' := update delta wind self in
  _t_gps self' = _t_gps self
  /\ _gps_eta_n self' = _gps_eta_n self
  /\ _gps_eta_e self' = _gps_eta_e self
  /\ _gps_eta_h self' = _gps_eta_h self
  /\ _gps_eta_Vg self' = _gps_eta_Vg self
  /\ _gps_eta_course self' = _gps_eta_course self
  /\ _sensors self' = _sensors self
  /\ _wind self' = _wind self
  /\ _forces self' = _forces self
  /\ _ts_simulation self' = _ts_simulation self.
Proof.
  cbv zeta. rewrite update_unfold.
  set (mid := set__state _ (snd (_forces_moments delta self))).
  destruct (update_true_state_frame (_update_velocity_data wind mid))
    as (_ & _ & _ & _ & T1 & T2 & _).
  destruct (update_true_state_keeps (_update_velocity_data wind mid))
    as (K1 & K2 & K3 & K4 & K5 & K6 & K7 & K8).
  destruct (update_velocity_data_frame wind mid) as (_ & U1 & U2 & _).
  destruct (update_velocity_data_keeps wind mid)
    as (L1 & L2 & L3 & L4 & L5 & L6 & L7 & L8 & _).
  destruct (forces_moments_frame delta self) as (_ & _ & _ & _ & V1 & V2).
  destruct (forces_moments_keeps delta self)
    as (M1 & M2 & M3 & M4 & M5 & M6 & M7 & M8).
  rewrite T1, T2, K1, K2, K3, K4, K5, K6, K7, K8.
  rewrite U1, U2, L1, L2, L3, L4, L5, L6, L7, L8.
  change (_t_gps mid) with (_t_gps (snd (_forces_moments delta self))).
  change (_ts_simulation mid)
    with (_ts_simulation (snd (_forces_moments delta self))).
  change (_wind mid) with (_wind (snd (_forces_moments delta self))).
  change (_forces mid) with (_forces (snd (_forces_moments delta self))).
  change (_sensors mid) with (_sensors (snd (_forces_moments delta self))).
  change (_gps_eta_n mid) with (_gps_eta_n (snd (_forces_moments delta self))).
  change (_gps_eta_e mid) with (_gps_eta_e (snd (_forces_moments delta self))).
  change (_gps_eta_h mid) with (_gps_eta_h (snd (_forces_moments delta self))).
  change (_gps_eta_Vg mid)
    with (_gps_eta_Vg (snd (_forces_moments delta self))).
  change (_gps_eta_course mid)
    with (_gps_eta_course (snd (_forces_moments delta self))).
  rewrite V1, V2, M1, M2, M3, M4, M5, M6, M7, M8.
  repeat split.
Qed.

(** X3.  [update] leaves the sensor side of the object alone: the GPS
    timer, the three position biases, the two GPS noise attributes, the
    sensor message, the cached wind and the time step. *)
Theorem update_keeps_sensor_state
  (delta : MsgDelta.t) (wind : ndarray6) (self : MavDynamics) :
  let self' := update delta wind self in
  _t_gps self' = _t_gps self
  /\ _gps_eta_n self' = _gps_eta_n self
  /\ _gps_eta_e self' = _gps_eta_e self
  /\ _gps_eta_h self' = _gps_eta_h self
  /\ _gps_eta_Vg self' = _gps_eta_Vg self
  /\ _gps_eta_course self' = _gps_eta_course self
  /\ _sensors self' = _sensors self
  /\ _wind self' = _wind self
  /\ _forces self' = _forces self
  /\ _ts_simulation self' = _ts_simulation self.
Proof. exact (update_keeps delta wind self). Qed.

(** ** The force model *)

(** The six entries, with the lift and drag coefficients and the
    gravity force named. *)
Lemma forces_moments_entries (delta : MsgDelta.t) (self : MavDynamics) :
  let alpha := _alpha self in
  let beta := _beta self in
  let Va := _Va self in
  let p := row10 (_state self) in
  let q := row11 (_state self) in
  let r := row12 (_state self) in
  let CL := lift_coefficient alpha in
  let CD := drag_coefficient alpha in
  let q_bar := 0.5%R * MAV.rho P * npow2 Va in
  let thrust_prop :=
    fst (_motor_thrust_torque self Va (MsgDelta.throttle delta)) in
  fst (_forces_moments delta self)
  = [ fst (fst (gravity_body self))
      + q_bar * MAV.S_wing P
        * (- CD * np_cos alpha + CL * np_sin alpha
           + (- MAV.C_D_q P * np_cos alpha + MAV.C_L_q P * np_sin alpha)
             * (MAV.c P / (2%R * Va)) * q)
      + q_bar * MAV.S_wing P
        * ((- MAV.C_D_delta_e P * np_cos alpha
            + MAV.C_L_delta_e P * np_sin alpha)
           * MsgDelta.elevator delta)
      + thrust_prop;
      snd (fst (gravity_body self))
      + q_bar * MAV.S_wing P
        * (MAV.C_Y_0 P + MAV.C_Y_beta P * beta
           + (MAV.C_Y_p P * p * MAV.b P) / (2%R * Va)
           + (MAV.C_Y_r P * MAV.b P * r) / (2%R * Va))
      + q_bar * MAV.S_wing P
        * (MAV.C_Y_delta_a P * MsgDelta.aileron delta
           + MAV.C_Y_delta_r P * MsgDelta.rudder delta);
      snd (gravity_body self)
      + q_bar * MAV.S_wing P
        * (- CD * np_sin alpha - CL * np_cos alpha
           + (- MAV.C_D_q P * np_sin alpha - MAV.C_L_q P * np_cos alpha)
             * ((q * MAV.c P) / (2%R * Va))
           + (- MAV.C_D_delta_e P * np_sin alpha
              - MAV.C_L_delta_e P * np_cos alpha)
             * MsgDelta.elevator delta);
      q_bar * MAV.S_wing P * MAV.b P
      * (MAV.C_ell_0 P + MAV.C_ell_beta P * beta
         + MAV.C_ell_p P * ((p * MAV.b P) / (2%R * Va))
         + ((MAV.C_ell_r P * r * MAV.b P) / (2%R * Va)))
      + q_bar * MAV.S_wing P * MAV.b P
        * ((MAV.C_ell_delta_a P * MsgDelta.aileron delta)
           + MAV.C_ell_delta_r P * MsgDelta.rudder delta)
      + fin 0;
      q_bar * MAV.S_wing P * MAV.c P
      * (MAV.C_m_0 P + MAV.C_m_alpha P * alpha
         + MAV.C_m_q P * ((q * MAV.c P) / (2%R * Va)))
      + q_bar * MAV.S_wing P * MAV.c P
        * (MAV.C_m_delta_e P * MsgDelta.elevator delta);
      q_bar * MAV.S_wing P * MAV.b P
      * ((MAV.C_n_0 P + MAV.C_n_beta P * beta)
         + MAV.C_n_p P * ((p * MAV.b P) / (2%R * Va))
         + MAV.C_n_r P * ((r * MAV.b P) / (2%R * Va)))
      + q_bar * MAV.S_wing P * MAV.b P
        * (MAV.C_n_delta_a P * MsgDelta.aileron delta
           + MAV.C_n_delta_r P * MsgDelta.rudder delta) ].
Proof.
  unfold _forces_moments, gravity_body.
  destruct (quaternion_to_euler _) as [[phi theta] psi].
  destruct (matvec _ _) as [[g0 g1] g2].
  reflexivity.
Qed.

(** What the force model writes: the three body rates of the true state
    and the cached forces. *)
Lemma forces_moments_self (delta : MsgDelta.t) (self : MavDynamics) :
  snd (_forces_moments delta self)
  = set_current_forces_moments (NdColumn (fst (_forces_moments delta self)))
      (set_true_state
         (MsgState.set_r (row12 (_state self))
            (MsgState.set_q (row11 (_state self))
               (MsgState.set_p (row10 (_state self)) (true_state self))))
         self).
Proof.
  unfold _forces_moments.
  destruct (quaternion_to_euler _) as [[phi theta] psi].
  destruct (matvec _ _) as [[g0 g1] g2].
  reflexivity.
Qed.

(** X4.  The controls are decoupled in the force model.  The throttle
    enters the axial force only; aileron and rudder enter the side force
    and the roll and yaw moments only; the elevator enters the axial and
    normal forces and the pitch moment only. *)
Theorem forces_control_decoupling
  (self : MavDynamics) (e a r t e' a' r' t' : num) :
  let F :=
    fun (i : nat) (de da dr dt : num) =>
      force_entry i
        (fst (_forces_moments (MsgDelta.mk de da dr dt) self)) in
  (F 1%nat e a r t = F 1%nat e a r t' /\ F 2%nat e a r t = F 2%nat e a r t'
   /\ F 3%nat e a r t = F 3%nat e a r t' /\ F 4%nat e a r t = F 4%nat e a r t'
   /\ F 5%nat e a r t = F 5%nat e a r t')
  /\ (F 0%nat e a r t = F 0%nat e a' r' t /\ F 2%nat e a r t = F 2%nat e a' r' t
      /\ F 4%nat e a r t = F 4%nat e a' r' t)
  /\ (F 1%nat e a r t = F 1%nat e' a r t /\ F 3%nat e a r t = F 3%nat e' a r t
      /\ F 5%nat e a r t = F 5%nat e' a r t).
Proof.
  cbv zeta beta. rewrite !forces_moments_entries. repeat split.
Qed.

(** X5.  For a finite angle of attack the blending weight of the lift
    model is positive and at most 1, and at or beyond the stall angle
    (|alpha| >= alpha0, with M > 0) it is at least 1/2; the lift
    coefficient is the combination, with that weight, of the linear value
    and the flat plate value; and these are the coefficients the normal
    force of the force model is built from. *)
Theorem lift_blending_weight
  (delta : MsgDelta.t) (self : MavDynamics) (a : R) :
  exists s : R,
    blending_sigmoid (fin a) = fin s
    /\ (0 < s <= 1)%R
    /\ ((0 < MAV.M P)%R -> (MAV.alpha0 P <= Rabs a)%R -> (1 / 2 <= s)%R)
    /\ lift_coefficient (fin a)
       = fin ((1 - s) * (MAV.C_L_0 P + MAV.C_L_alpha P * a)
              + s * (2 * sign a * (sin a * sin a) * cos a))
    /\ force_entry 2%nat (fst (_forces_moments delta self))
       = snd (gravity_body self)
         + 0.5%R * MAV.rho P * npow2 (_Va self) * MAV.S_wing P
           * (- drag_coefficient (_alpha self) * np_sin (_alpha self)
              - lift_coefficient (_alpha self) * np_cos (_alpha self)
              + (- MAV.C_D_q P * np_sin (_alpha self)
                 - MAV.C_L_q P * np_cos (_alpha self))
                * ((row11 (_state self) * MAV.c P) / (2%R * _Va self))
              + (- MAV.C_D_delta_e P * np_sin (_alpha self)
                 - MAV.C_L_delta_e P * np_cos (_alpha self))
                * MsgDelta.elevator delta).
Proof.
  set (mm := exp (- MAV.M P * (a - MAV.alpha0 P))).
  set (mp := exp (MAV.M P * (a + MAV.alpha0 P))).
  assert (Hmm : (0 < mm)%R) by apply exp_pos.
  assert (Hmp : (0 < mp)%R) by apply exp_pos.
  assert (Hden : ((1 + mm) * (1 + mp) <> 0)%R) by nra.
  assert (Hdpos : (0 < (1 + mm) * (1 + mp))%R) by nra.
  assert (Hblend :
    blending_sigmoid (fin a) = fin ((1 + mm + mp) / ((1 + mm) * (1 + mp)))).
  { unfold blending_sigmoid. cbn -[Rmult Rplus Rminus Ropp Rdiv].
    fold mm mp.
    destruct (Req_dec_T ((1 + mm) * (1 + mp)) 0) as [Hz | _];
      [ contradiction | reflexivity ]. }
  exists ((1 + mm + mp) / ((1 + mm) * (1 + mp)))%R.
  split; [ exact Hblend | ].
  split.
  { split.
    - apply Rdiv_lt_0_compat; nra.
    - apply Rmult_le_reg_r with ((1 + mm) * (1 + mp))%R; [ exact Hdpos | ].
      unfold Rdiv. rewrite Rmult_assoc, Rinv_l by exact Hden. nra. }
  split.
  { intros HM Hstall.
    assert (Hone : (mm <= 1 \/ mp <= 1)%R).
    { unfold Rabs in Hstall. destruct (Rcase_abs a) as [Hneg | Hpos].
      - right. unfold mp. rewrite <- exp_0.
        destruct (Req_dec_T (MAV.M P * (a + MAV.alpha0 P)) 0) as [-> | Hne];
          [ lra | ].
        left. apply exp_increasing. nra.
      - left. unfold mm. rewrite <- exp_0.
        destruct (Req_dec_T (- MAV.M P * (a - MAV.alpha0 P)) 0) as [-> | Hne];
          [ lra | ].
        left. apply exp_increasing. nra. }
    apply Rmult_le_reg_r with ((1 + mm) * (1 + mp))%R; [ exact Hdpos | ].
    unfold Rdiv at 2. rewrite Rmult_assoc, Rinv_l by exact Hden.
    destruct Hone; nra. }
  split.
  { unfold lift_coefficient. rewrite Hblend.
    cbn -[Rmult Rplus Rminus Ropp Rdiv]. reflexivity. }
  rewrite forces_moments_entries. reflexivity.
Qed.

(** X6.  With positive air density and propeller area, a nonnegative
    airspeed and a nonnegative propeller exit speed [k_motor delta_t],
    the thrust is positive exactly when the exit speed exceeds the
    airspeed, and zero exactly when the two are equal. *)
Theorem thrust_sign (self : MavDynamics) (Va delta_t : R) :
  (0 < MAV.rho P)%R -> (0 < MAV.S_prop P)%R ->
  (0 <= Va)%R -> (0 <= MAV.k_motor P * delta_t)%R ->
  exists T : R,
    fst (_motor_thrust_torque self (fin Va) (fin delta_t)) = fin T
    /\ ((0 < T)%R <-> (Va < MAV.k_motor P * delta_t)%R)
    /\ (T = 0%R <-> Va = (MAV.k_motor P * delta_t)%R).
Proof.
  intros Hrho HS HVa Hk.
  set (u := (MAV.k_motor P * delta_t)%R) in *.
  assert (HrS : (0 < 0.5 * MAV.rho P * MAV.S_prop P)%R) by nra.
  exists (0.5 * MAV.rho P * MAV.S_prop P * (u * u - Va * Va))%R.
  split; [ reflexivity | ].
  set (c := (0.5 * MAV.rho P * MAV.S_prop P)%R) in *.
  assert (Hfac : (u * u - Va * Va = (u - Va) * (u + Va))%R) by ring.
  rewrite Hfac. split; split; intros H.
  - destruct (Rlt_dec Va u) as [Hlt | Hge]; [ exact Hlt | exfalso ].
    assert (((u - Va) * (u + Va) <= 0)%R) by nra.
    assert ((c * ((u - Va) * (u + Va)) <= 0)%R) by nra. lra.
  - apply Rmult_lt_0_compat; [ exact HrS | ].
    apply Rmult_lt_0_compat; lra.
  - apply Rmult_integral in H. destruct H as [H | H]; [ lra | ].
    apply Rmult_integral in H. destruct H as [H | H]; lra.
  - rewrite H. ring.
Qed.

(** ** Ranges of the angles *)

Lemma atan2_range (y x : R) : (- PI < atan2 y x <= PI)%R.
Proof.
  assert (HPI := PI_RGT_0). unfold atan2.
  destruct (Rlt_dec 0 x) as [Hx | Hx].
  - generalize (atan_bound (y / x)). lra.
  - destruct (Rlt_dec x 0) as [Hx' | Hx'].
    + destruct (Rlt_dec y 0) as [Hy | Hy].
      * assert (H0 : (0 < y / x)%R).
        { replace (y / x)%R with ((- y) * / (- x))%R by (field; lra).
          apply Rmult_lt_0_compat; [ lra | ].
          apply Rinv_0_lt_compat. lra. }
        generalize (atan_increasing _ _ H0) (atan_bound (y / x)).
        rewrite atan_0. lra.
      * assert (H0 : (y / x <= 0)%R).
        { replace (y / x)%R with (- (y * / (- x)))%R by (field; lra).
          assert (0 <= y * / (- x))%R; [ | lra ].
          apply Rmult_le_pos; [ lra | ].
          left. apply Rinv_0_lt_compat. lra. }
        assert (atan (y / x) <= 0)%R.
        { destruct H0 as [H0 | H0].
          - generalize (atan_increasing _ _ H0). rewrite atan_0. lra.
          - rewrite H0, atan_0. lra. }
        generalize (atan_bound (y / x)). lra.
    + destruct (Rlt_dec 0 y); [ lra | ].
      destruct (Rlt_dec y 0); lra.
Qed.

(** The airspeed the resolution caches is not negative. *)
Lemma resolved_airspeed_nonneg (wind : ndarray6) (self : MavDynamics)
  (a : R) :
  _Va (_update_velocity_data wind self) = fin a -> (0 <= a)%R.
Proof.
  unfold _update_velocity_data.
  destruct (vsub _ _) as [[[ur | ] [vr | ]] [wr | ]];
    cbn -[Rmult Rplus]; try discriminate.
  destruct (Rlt_dec _ 0); [ discriminate | ].
  intros H. injection H as <-. apply sqrt_pos.
Qed.

(** X7.  Whenever the resolution caches a finite angle of attack and a
    finite sideslip, the airspeed it caches is finite and positive, the
    angle of attack lies in (-pi, pi] and the sideslip in
    [-pi/2, pi/2]. *)
Theorem air_data_ranges
  (wind : ndarray6) (self : MavDynamics) (al b : R) :
  _alpha (_update_velocity_data wind self) = fin al ->
  _beta (_update_velocity_data wind self) = fin b ->
  exists a : R,
    _Va (_update_velocity_data wind self) = fin a
    /\ (0 < a)%R
    /\ (- PI < al <= PI)%R
    /\ (- (PI / 2) <= b <= PI / 2)%R.
Proof.
  unfold _update_velocity_data.
  destruct (vsub _ _) as [[[ur | ] [vr | ]] [wr | ]];
    cbn -[Rmult Rplus]; try discriminate.
  set (n := (ur * ur + vr * vr + wr * wr)%R).
  destruct (Rlt_dec n 0) as [Hneg | Hn]; cbn -[Rmult Rplus];
    [ discriminate | ].
  destruct (Req_dec_T (sqrt n) 0) as [Hz | Hnz]; [ discriminate | ].
  intros Hal Hb. injection Hal as <-.
  exists (sqrt n). split; [ reflexivity | ].
  assert (Hpos : (0 < sqrt n)%R) by (generalize (sqrt_pos n); lra).
  split; [ exact Hpos | ]. split; [ apply atan2_range | ].
  unfold np_arcsin in Hb.
  destruct (Rlt_dec (vr / sqrt n) (-1)); [ discriminate | ].
  destruct (Rlt_dec 1 (vr / sqrt n)); [ discriminate | ].
  injection Hb as <-. apply asin_bound.
Qed.

(** ** The flight path angle *)

(** X8.  In the projection, a finite ground speed [Vg] is not negative.
    At [Vg = 0] the flight path angle, a quotient by [Vg], is not
    finite: nothing guards it.  At [Vg > 0] it is finite and lies in
    [-pi/2, pi/2], and the course lies in (-pi, pi]. *)
Theorem flight_path_angle (self : MavDynamics) (v : R) :
  let ts := true_state (_update_true_state self) in
  MsgState.Vg ts = fin v ->
  (0 <= v)%R
  /\ (v = 0%R -> MsgState.gamma ts = None)
  /\ ((0 < v)%R ->
      exists g c : R,
        MsgState.gamma ts = fin g /\ (- (PI / 2) <= g <= PI / 2)%R
        /\ MsgState.chi ts = fin c /\ (- PI < c <= PI)%R).
Proof.
  unfold _update_true_state.
  destruct (quaternion_to_euler _) as [[phi theta] psi].
  destruct (matvec _ _) as [[[p0 | ] [p1 | ]] [p2 | ]];
    cbn -[Rmult Rplus]; try discriminate.
  set (n := (p0 * p0 + p1 * p1 + p2 * p2)%R).
  destruct (Rlt_dec n 0) as [Hneg | Hn]; cbn -[Rmult Rplus];
    [ discriminate | ].
  intros Hv. injection Hv as <-.
  split; [ apply sqrt_pos | ].
  destruct (Req_dec_T (sqrt n) 0) as [Hz | Hnz].
  - split; [ reflexivity | intros Hpos; exfalso; lra ].
  - split; [ intros Hzero; exfalso; lra | intros Hpos ].
    assert (Hq : (-1 <= - p2 / sqrt n <= 1)%R).
    { apply ratio_to_norm; [ unfold n; nra | exact Hpos ]. }
    unfold np_arcsin.
    destruct (Rlt_dec (- p2 / sqrt n) (-1)); [ exfalso; lra | ].
    destruct (Rlt_dec 1 (- p2 / sqrt n)); [ exfalso; lra | ].
    do 2 eexists. split; [ reflexivity | ].
    split; [ apply asin_bound | ].
    split; [ reflexivity | apply atan2_range ].
Qed.

(** ** What every call of [sensors] preserves

    A relation between the object before and after that is a preorder
    and admits each attribute write [sensors] performs is kept by the
    whole call, returning or raising. *)

Section Preserve.

Variable Rel : MavDynamics -> MavDynamics -> Prop.
Hypothesis Rel_refl : forall a, Rel a a.
Hypothesis Rel_trans : forall a b c, Rel a b -> Rel b c -> Rel a c.
Hypothesis Rel_sensors : forall self s, Rel self (set__sensors s self).
Hypothesis Rel_eta_n : forall self v, Rel self (set__gps_eta_n v self).
Hypothesis Rel_eta_e : forall self v, Rel self (set__gps_eta_e v self).
Hypothesis Rel_eta_h : forall self v, Rel self (set__gps_eta_h v self).
Hypothesis Rel_eta_Vg : forall self v, Rel self (set__gps_eta_Vg v self).
Hypothesis Rel_eta_course :
  forall self v, Rel self (set__gps_eta_course v self).
Hypothesis Rel_timer :
  forall self,
    Rel self (set__t_gps (_t_gps self + _ts_simulation self) self).

Lemma keeps_bind {A B : Type} (m : M A) (k : A -> M B) :
  preserves Rel m -> (forall a : A, preserves Rel (k a)) ->
  preserves Rel (bind m k).
Proof.
  intros Hm Hk w. unfold bind. specialize (Hm w).
  destruct (m w) as [[x | a] w1]; cbn [snd] in *.
  - exact Hm.
  - eapply Rel_trans; [ exact Hm | apply Hk ].
Qed.

Lemma keeps_read {A : Type} (f : MavDynamics -> A) : preserves Rel (read f).
Proof. intros w. apply Rel_refl. Qed.

Lemma keeps_of_result {A : Type} (r : exn + A) :
  preserves Rel (of_result r).
Proof. intros w. apply Rel_refl. Qed.

Lemma keeps_index_forces (i : nat) : preserves Rel (index_forces i).
Proof. intros w. apply Rel_refl. Qed.

Lemma keeps_random_normal (loc scale : R) :
  preserves Rel (np_random_normal loc scale).
Proof.
  intros w. unfold np_random_normal.
  destruct (Rlt_dec scale 0); apply Rel_refl.
Qed.

Lemma keeps_set_sensor (f : MsgSensors.t -> MsgSensors.t) :
  preserves Rel (set_sensor f).
Proof. intros w. apply Rel_sensors. Qed.

Lemma keeps_advance_t_gps : preserves Rel advance_t_gps.
Proof. intros w. apply Rel_timer. Qed.

Lemma keeps_update_self (f : MavDynamics -> MavDynamics) :
  (forall self, Rel self (f self)) -> preserves Rel (update_self f).
Proof. intros Hf w. apply Hf. Qed.

Ltac keeps_steps :=
  repeat first
    [ apply keeps_bind; [ | intros ]
    | apply keeps_read
    | apply keeps_of_result
    | apply keeps_index_forces
    | apply keeps_random_normal
    | apply keeps_set_sensor
    | apply keeps_advance_t_gps
    | apply keeps_update_self; intros ].

Lemma keeps_gyros : preserves Rel sensors_gyros.
Proof. unfold sensors_gyros. keeps_steps. Qed.

Lemma keeps_accels : preserves Rel sensors_accels.
Proof. unfold sensors_accels. keeps_steps. Qed.

Lemma keeps_mags : preserves Rel sensors_mags.
Proof.
  unfold sensors_mags. apply keeps_bind; [ apply keeps_read | ].
  intros [[mb0 mb1] mb2]. keeps_steps.
Qed.

Lemma keeps_pressures : preserves Rel sensors_pressures.
Proof. unfold sensors_pressures. keeps_steps. Qed.

Lemma keeps_gps : preserves Rel sensors_gps.
Proof.
  unfold sensors_gps. apply keeps_bind; [ apply keeps_read | ].
  intros t. destruct (t >=? SENSOR.ts_gps SP).
  - unfold gps_sample. keeps_steps.
    + apply Rel_eta_n.
    + apply Rel_eta_e.
    + apply Rel_eta_h.
    + apply Rel_eta_Vg.
    + apply Rel_eta_course.
  - apply keeps_advance_t_gps.
Qed.

Lemma sensors_preserves : preserves Rel sensors.
Proof.
  unfold sensors.
  apply keeps_bind; [ apply keeps_gyros | intros _ ].
  apply keeps_bind; [ apply keeps_accels | intros _ ].
  apply keeps_bind; [ apply keeps_mags | intros _ ].
  apply keeps_bind; [ apply keeps_pressures | intros _ ].
  apply keeps_bind; [ apply keeps_gps | intros _ ].
  apply keeps_read.
Qed.

End Preserve.

Lemma sensors_frame_any (w : world) :
  sensors_frame (obj w) (obj (snd (sensors w))).
Proof.
  revert w. apply sensors_preserves.
  - apply sensors_frame_refl.
  - apply sensors_frame_trans.
  - intros; repeat split.
  - intros; repeat split.
  - intros; repeat split.
  - intros; repeat split.
  - intros; repeat split.
  - intros; repeat split.
  - intros; repeat split.
Qed.

Lemma sensors_keeps_timer_due (w : world) :
  timer_due (obj w) -> timer_due (obj (snd (sensors w))).
Proof.
  revert w.
  apply (sensors_preserves (fun a b => timer_due a -> timer_due b)).
  - auto.
  - auto.
  - intros self s H; exact H.
  - intros self v H; exact H.
  - intros self v H; exact H.
  - intros self v H; exact H.
  - intros self v H; exact H.
  - intros self v H; exact H.
  - intros self (t & d & Ht & Hd & H1 & H2 & H3).
    exists (t + d)%R, d. cbn. rewrite Ht, Hd.
    repeat split; try reflexivity; lra.
Qed.

(** ** What the other methods leave alone *)

Lemma initialize_velocity_unfold (Va alpha beta : num) (self : MavDynamics) :
  initialize_velocity Va alpha beta self
  = _update_true_state
      (snd
         (_forces_moments MsgDelta_new
            (_update_velocity_data zeros6
               (set__state
                  (set_row5 (Va * np_sin alpha * np_cos beta)
                     (set_row4 (Va * np_sin beta)
                        (set_row3 (Va * np_cos alpha * np_cos beta)
                           (_state self))))
                  (set__beta beta (set__alpha alpha (set__Va Va self))))))).
Proof. reflexivity. Qed.

Lemma initialize_velocity_keeps (Va alpha beta : num) (self : MavDynamics) :
  let self' := initialize_velocity Va alpha beta self in
  _t_gps self' = _t_gps self
  /\ _ts_simulation self' = _ts_simulation self
  /\ _wind self' = _wind self
  /\ _sensors self' = _sensors self
  /\ _gps_eta_Vg self' = _gps_eta_Vg self
  /\ projection_consistent self'
  /\ (forall a : R, _Va self' = fin a -> (0 <= a)%R).
Proof.
  cbv zeta. rewrite initialize_velocity_unfold.
  set (s0 := set__state _ _).
  destruct (update_true_state_frame
              (snd (_forces_moments MsgDelta_new
                      (_update_velocity_data zeros6 s0))))
    as (_ & T0 & _ & _ & T1 & T2 & _).
  destruct (update_true_state_keeps
              (snd (_forces_moments MsgDelta_new
                      (_update_velocity_data zeros6 s0))))
    as (K1 & _ & K3 & _ & _ & _ & K7 & _).
  destruct (forces_moments_frame MsgDelta_new
              (_update_velocity_data zeros6 s0))
    as (_ & F0 & _ & _ & F1 & F2).
  destruct (forces_moments_keeps MsgDelta_new
              (_update_velocity_data zeros6 s0))
    as (M1 & _ & M3 & _ & _ & _ & M7 & _).
  destruct (update_velocity_data_frame zeros6 s0) as (_ & U1 & U2 & _).
  destruct (update_velocity_data_keeps zeros6 s0)
    as (L1 & _ & L3 & _ & _ & _ & L7 & _).
  rewrite T1, T2, K1, K3, K7, F1, F2, M1, M3, M7, U1, U2, L1, L3, L7.
  do 5 (split; [ reflexivity | ]). split.
  - apply update_true_state_consistent.
  - intros a. rewrite T0, F0. apply resolved_airspeed_nonneg.
Qed.

Lemma forces_keeps_consistent (delta : MsgDelta.t) (self : MavDynamics) :
  projection_consistent self ->
  projection_consistent (snd (_forces_moments delta self)).
Proof.
  rewrite forces_moments_self. unfold projection_consistent. cbn.
  intros (C1 & C2 & C3 & C4 & C5 & C6 & C7 & C8 & C9 & C10 & C11 & C12).
  repeat split; assumption.
Qed.

Lemma trim_unfold (x : num * num * num) (self : MavDynamics) :
  exists (delta : MsgDelta.t) (mid : MavDynamics),
    calculate_trim_output x self
    = (npow2 (force_entry 0 (fst (_forces_moments delta mid)))
       + npow2 (force_entry 2 (fst (_forces_moments delta mid)))
       + npow2 (force_entry 4 (fst (_forces_moments delta mid))),
       snd (_forces_moments delta mid))
    /\ delta
       = set_throttle (snd x) (set_elevator (snd (fst x)) MsgDelta_new)
    /\ mid
       = initialize_velocity (_Va self) (fst (fst x)) (_beta self)
           (set__state
              (set_rows_6_10
                 (euler_to_quaternion
                    (fst (fst (quaternion_to_euler (rows_6_10 (_state self)))))
                    (fst (fst x))
                    (snd (quaternion_to_euler (rows_6_10 (_state self)))))
                 (_state self))
              self).
Proof.
  destruct x as [[alpha elevator] throttle].
  unfold calculate_trim_output.
  destruct (quaternion_to_euler _) as [[phi theta] psi].
  cbn [fst snd].
  exists (set_throttle throttle (set_elevator elevator MsgDelta_new)),
    (initialize_velocity (_Va self) alpha (_beta self)
       (set__state
          (set_rows_6_10 (euler_to_quaternion phi alpha psi) (_state self))
          self)).
  split; [ | split; reflexivity ].
  cbv zeta.
  change (_Va (set__state
                 (set_rows_6_10 (euler_to_quaternion phi alpha psi)
                    (_state self)) self)) with (_Va self).
  change (_beta (set__state
                   (set_rows_6_10 (euler_to_quaternion phi alpha psi)
                      (_state self)) self)) with (_beta self).
  destruct (_forces_moments _ _) as [forces self1]. reflexivity.
Qed.

(** The invariants of the objects a program can hold. *)
Lemma reachable_invariants (Ts : num) (self : MavDynamics) :
  reachable Ts self ->
  _ts_simulation self = Ts
  /\ _wind self = zeros3
  /\ projection_consistent self
  /\ (forall a : R, _Va self = fin a -> (0 <= a)%R).
Proof.
  induction 1 as [ | delta wind self Hr IH | k self Hr IH
                 | Va alpha beta self Hr IH | x self Hr IH ].
  - unfold __init__. cbv zeta.
    set (base := set__forces zeros3 (set__wind zeros3 (super_init Ts))).
    destruct (initialize_velocity_keeps (MAV.u0 P) 0%R 0%R base)
      as (_ & I2 & I3 & _ & _ & I6 & I7).
    split; [ exact I2 | ]. split; [ exact I3 | ].
    split; [ exact I6 | exact I7 ].
  - destruct IH as (H1 & H2 & H3 & H4).
    destruct (update_keeps delta wind self)
      as (_ & _ & _ & _ & _ & _ & _ & K8 & _ & K10).
    rewrite K8, K10. split; [ exact H1 | ]. split; [ exact H2 | ].
    rewrite update_unfold. split.
    + apply update_true_state_consistent.
    + intros a. rewrite (proj1 (proj2 (update_true_state_frame _))).
      apply resolved_airspeed_nonneg.
  - destruct IH as (H1 & H2 & H3 & H4).
    destruct (sensors_frame_any {| obj := self; rng_pos := k |})
      as (F1 & F2 & F3 & F4 & F5 & F6 & F7 & F8 & F9).
    cbn [obj] in *.
    unfold projection_consistent in *. cbv zeta in *.
    rewrite F1, F2, F3, F4, F6, F7, F8.
    split; [ exact H1 | ]. split; [ exact H2 | ].
    split; [ exact H3 | exact H4 ].
  - destruct IH as (H1 & H2 & H3 & H4).
    destruct (initialize_velocity_keeps Va alpha beta self)
      as (_ & I2 & I3 & _ & _ & I6 & I7).
    rewrite I2, I3.
    split; [ exact H1 | ]. split; [ exact H2 | ].
    split; [ exact I6 | exact I7 ].
  - destruct IH as (H1 & H2 & H3 & H4).
    destruct (trim_unfold x self) as (delta & mid & -> & _ & Hmid).
    cbn [snd].
    destruct (forces_moments_frame delta mid) as (_ & F0 & _ & _ & _ & F2).
    destruct (forces_moments_keeps delta mid) as (M1 & _).
    rewrite F2, M1, F0.
    destruct (initialize_velocity_keeps (_Va self) (fst (fst x)) (_beta self)
                (set__state
                   (set_rows_6_10
                      (euler_to_quaternion
                         (fst (fst (quaternion_to_euler
                                      (rows_6_10 (_state self)))))
                         (fst (fst x))
                         (snd (quaternion_to_euler
                                 (rows_6_10 (_state self)))))
                      (_state self))
                   self))
      as (_ & I2 & I3 & _ & _ & I6 & I7).
    rewrite <- Hmid in I2, I3, I6, I7. rewrite I2, I3.
    split; [ exact H1 | ]. split; [ exact H2 | ].
    split; [ now apply forces_keeps_consistent | exact I7 ].
Qed.

Lemma reachable_timer (d : R) (self : MavDynamics) :
  (SENSOR.ts_gps SP <= 999)%R -> (0 <= d)%R ->
  reachable (fin d) self -> timer_due self.
Proof.
  intros Hts Hd.
  induction 1 as [ | delta wind self Hr IH | k self Hr IH
                 | Va alpha beta self Hr IH | x self Hr IH ].
  - exists 999%R, d.
    split; [ reflexivity | ].
    split; [ | lra ].
    pose proof (reachable_invariants (fin d) _ (reach_init (fin d))) as Hinv.
    exact (proj1 Hinv).
  - destruct IH as (t & d' & Ht & Hd' & H1 & H2 & H3).
    destruct (update_keeps delta wind self)
      as (K1 & _ & _ & _ & _ & _ & _ & _ & _ & K10).
    exists t, d'. rewrite K1, K10. repeat split; assumption.
  - exact (sensors_keeps_timer_due {| obj := self; rng_pos := k |} IH).
  - destruct IH as (t & d' & Ht & Hd' & H1 & H2 & H3).
    destruct (initialize_velocity_keeps Va alpha beta self)
      as (I1 & I2 & _).
    exists t, d'. rewrite I1, I2. repeat split; assumption.
  - destruct IH as (t & d' & Ht & Hd' & H1 & H2 & H3).
    destruct (trim_unfold x self) as (delta & mid & -> & _ & Hmid).
    cbn [snd].
    destruct (forces_moments_frame delta mid) as (_ & _ & _ & _ & F1 & F2).
    exists t, d'. rewrite F1, F2, Hmid.
    match goal with
    | |- context [initialize_velocity ?a ?b ?c ?s] =>
        destruct (initialize_velocity_keeps a b c s) as (I1 & I2 & _)
    end.
    rewrite I1, I2. repeat split; assumption.
Qed.

(** ** Invariants of the objects a program can hold *)

(** X9.  Whatever winds were passed to [update], the object's cached wind
    stays the zero vector the constructor stored, and the true state
    reports zero north and east wind. *)
Theorem reachable_reports_zero_wind (Ts : num) (self : MavDynamics) :
  reachable Ts self ->
  _wind self = zeros3
  /\ MsgState.wn (true_state self) = fin 0
  /\ MsgState.we (true_state self) = fin 0.
Proof.
  intros Hr.
  destruct (reachable_invariants Ts self Hr) as (_ & Hw & Hc & _).
  destruct Hc as (_ & _ & _ & _ & _ & _ & _ & _ & _ & _ & Hwn & Hwe).
  rewrite Hw in Hwn, Hwe. split; [ exact Hw | ].
  split; [ exact Hwn | exact Hwe ].
Qed.

(** X10.  On every object a program can hold, the true-state message
    agrees with the state array and the cached air data (position,
    altitude, Euler angles, body rates, airspeed, angle of attack,
    sideslip), the time step is the constructor's, and a finite cached
    airspeed is not negative. *)
Theorem reachable_projection_consistent (Ts : num) (self : MavDynamics) :
  reachable Ts self ->
  projection_consistent self
  /\ _ts_simulation self = Ts
  /\ (forall a : R, _Va self = fin a -> (0 <= a)%R).
Proof.
  intros Hr.
  destruct (reachable_invariants Ts self Hr) as (Hts & _ & Hc & Hva).
  split; [ exact Hc | ]. split; [ exact Hts | exact Hva ].
Qed.

(** X11.  With a sample interval of at most 999 s and a nonnegative time
    step, the GPS timer of every object a program can hold has reached
    the sample interval: the test of the GPS block is true on every
    call, and every returning call takes a GPS sample, from sixteen
    draws. *)
Theorem reachable_gps_always_due (d : R) (self : MavDynamics) :
  (SENSOR.ts_gps SP <= 999)%R -> (0 <= d)%R ->
  reachable (fin d) self ->
  (_t_gps self >=? SENSOR.ts_gps SP) = true
  /\ forall (k : nat) (msg : MsgSensors.t) (w' : world),
       sensors {| obj := self; rng_pos := k |} = (inr msg, w') ->
       rng_pos w' = (16 + k)%nat
       /\ _gps_eta_Vg (obj w')
          = Some (normal_at 0 (SENSOR.gps_Vg_sigma SP) (14 + k))
       /\ (_t_gps (obj w') >=? SENSOR.ts_gps SP) = true.
Proof.
  intros Hts Hd Hr.
  destruct (reachable_timer d self Hts Hd Hr)
    as (t & d' & Ht & Hd' & H1 & H2 & H3).
  assert (Hdue : (_t_gps self >=? SENSOR.ts_gps SP) = true).
  { rewrite Ht. apply nge_fin. exact H1. }
  split; [ exact Hdue | ].
  intros k msg w' Hrun.
  destruct (sensors_due_result _ _ _ Hrun Hdue)
    as (_ & _ & HVg & _ & Hk & _).
  destruct (gps_stays_due _ _ _ t d' Hrun Ht Hd' H1 H3) as (_ & _ & Hdue').
  split; [ exact Hk | ]. split; [ exact HVg | exact Hdue' ].
Qed.

(** X12.  On an object a program can hold, a sampling call of [sensors]
    computes the GPS ground speed and course with both wind terms equal
    to zero, whatever winds were passed to [update]: they are the norm
    and the direction of (Va cos psi + 0, Va sin psi + 0), plus noise,
    where Va is the airspeed the object has cached. *)
Theorem gps_wind_terms_are_zero
  (Ts : num) (self : MavDynamics) (k : nat) (msg : MsgSensors.t)
  (w' : world) :
  reachable Ts self ->
  sensors {| obj := self; rng_pos := k |} = (inr msg, w') ->
  (_t_gps self >=? SENSOR.ts_gps SP) = true ->
  let psi := MsgState.psi (true_state self) in
  let north_speed := _Va self * np_cos psi + fin 0 in
  let east_speed := _Va self * np_sin psi + fin 0 in
  MsgSensors.gps_Vg msg
  = np_sqrt (npow2 north_speed + npow2 east_speed)
    + normal_at 0 (SENSOR.gps_Vg_sigma SP) (14 + k)
  /\ MsgSensors.gps_course msg
     = np_arctan2 east_speed north_speed
       + normal_at 0 (SENSOR.gps_course_sigma SP) (15 + k).
Proof.
  intros Hr Hrun Hdue. cbv zeta.
  destruct (reachable_invariants Ts self Hr) as (_ & Hw & Hc & _).
  destruct Hc as (_ & _ & _ & HVa & _ & _ & _ & _ & _ & _ & Hwn & Hwe).
  rewrite Hw in Hwn, Hwe.
  destruct (sensors_due_result _ _ _ Hrun Hdue) as (HVg & Hcourse & _).
  cbn [obj rng_pos] in HVg, Hcourse.
  rewrite HVg, Hcourse, Hwn, Hwe, HVa.
  split; reflexivity.
Qed.
(** ** The trim cost *)

(** X13.  The trim cost evaluation rebuilds the body velocity from the
    airspeed and sideslip that were cached before the call and the angle
    of attack it was given, (Va cos alpha cos beta, Va sin beta,
    Va sin alpha cos beta); the air data it leaves cached are the
    zero-wind resolution of that velocity, a recomputation and not the
    old values; the attitude quaternion is the one [euler_to_quaternion]
    returns for the old roll and yaw with the angle of attack as pitch;
    position and body rates are left alone. *)
Theorem trim_rebuilds_velocity
  (self : MavDynamics) (alpha elevator throttle : num) :
  let self' := snd (calculate_trim_output (alpha, elevator, throttle) self) in
  let euler := quaternion_to_euler (rows_6_10 (_state self)) in
  let velocity :=
    (_Va self * np_cos alpha * np_cos (_beta self),
     _Va self * np_sin (_beta self),
     _Va self * np_sin alpha * np_cos (_beta self)) in
  rows_3_6 (_state self') = velocity
  /\ (_Va self', _alpha self', _beta self')
     = resolve_velocity_spec velocity zeros3
  /\ rows_6_10 (_state self')
     = euler_to_quaternion (fst (fst euler)) alpha (snd euler)
  /\ (row0 (_state self'), row1 (_state self'), row2 (_state self'))
     = (row0 (_state self), row1 (_state self), row2 (_state self))
  /\ (row10 (_state self'), row11 (_state self'), row12 (_state self'))
     = (row10 (_state self), row11 (_state self), row12 (_state self)).
Proof.
  cbv zeta.
  destruct (trim_unfold (alpha, elevator, throttle) self)
    as (delta & mid & -> & _ & Hmid).
  cbn [fst snd] in *.
  destruct (forces_moments_frame delta mid) as (F0 & F1 & F2 & F3 & _).
  rewrite F0, F1, F2, F3, Hmid.
  rewrite initialize_velocity_unfold.
  set (base := set__state (set_row5 _ _) _).
  destruct (update_true_state_frame
              (snd (_forces_moments MsgDelta_new
                      (_update_velocity_data zeros6 base))))
    as (T0 & T1 & T2 & T3 & _).
  destruct (forces_moments_frame MsgDelta_new
              (_update_velocity_data zeros6 base))
    as (G0 & G1 & G2 & G3 & _).
  destruct (update_velocity_data_frame zeros6 base) as (U0 & _).
  rewrite T0, T1, T2, T3, G0, G1, G2, G3, U0.
  split; [ reflexivity | ].
  split.
  { unfold _update_velocity_data, resolve_velocity_spec.
    change (rows_3_6 (_state base)) with
      (_Va self * np_cos alpha * np_cos (_beta self),
       _Va self * np_sin (_beta self),
       _Va self * np_sin alpha * np_cos (_beta self)).
    change (wind_0_3 zeros6) with zeros3.
    destruct (vsub _ _) as [[ur vr] wr]. reflexivity. }
  unfold base. cbn [_state set__state set__Va set__alpha set__beta].
  destruct (euler_to_quaternion _ _ _) as [[[e0 e1] e2] e3].
  split; [ reflexivity | ]. split; reflexivity.
Qed.

Lemma forces_moments_six (delta : MsgDelta.t) (self : MavDynamics) :
  exists fx fy fz l m n : num,
    fst (_forces_moments delta self) = [fx; fy; fz; l; m; n].
Proof.
  destruct (forces_moments_column delta self)
    as (fx & fy & fz & l & m & n & H & _).
  now exists fx, fy, fz, l, m, n.
Qed.

(** X14.  The trim cost is the sum of the squares of the axial force,
    the normal force and the pitch moment that the evaluation leaves in
    the cached forces; a finite cost is not negative, and it is zero
    exactly when the three are zero. *)
Theorem trim_cost_sum_of_squares
  (x : num * num * num) (self : MavDynamics) :
  exists fx fy fz l m n : num,
    current_forces_moments (snd (calculate_trim_output x self))
    = NdColumn [fx; fy; fz; l; m; n]
    /\ fst (calculate_trim_output x self) = fx * fx + fz * fz + m * m
    /\ forall v : R,
         fst (calculate_trim_output x self) = fin v ->
         (0 <= v)%R
         /\ (v = 0%R <-> fx = fin 0 /\ fz = fin 0 /\ m = fin 0).
Proof.
  destruct (trim_unfold x self) as (delta & mid & -> & _ & _).
  cbn [fst snd].
  destruct (forces_moments_column delta mid)
    as (fx & fy & fz & l & m & n & Hfst & Hcol).
  exists fx, fy, fz, l, m, n. rewrite Hfst, Hcol.
  split; [ reflexivity | ]. split; [ reflexivity | ].
  intros v. unfold force_entry, npow2. cbn [nth].
  destruct fx as [x0 | ], fz as [x2 | ], m as [x4 | ];
    cbn -[Rmult Rplus]; try discriminate.
  intros Hv. injection Hv as <-. split; [ nra | ].
  split.
  - intros H0.
    assert (x0 = 0%R) by nra. assert (x2 = 0%R) by nra.
    assert (x4 = 0%R) by nra. subst. repeat split.
  - intros (E0 & E2 & E4). injection E0 as ->. injection E2 as ->.
    injection E4 as ->. ring.
Qed.

Lemma ndiv_None_r (x : num) : x / None = None.
Proof. now destruct x. Qed.

(** With no finite airspeed none of the six entries is finite. *)
Lemma forces_at_nan_airspeed (delta : MsgDelta.t) (self : MavDynamics) :
  _Va self = None ->
  fst (_forces_moments delta self) = [None; None; None; None; None; None].
Proof.
  intros HVa. unfold _forces_moments.
  destruct (quaternion_to_euler _) as [[phi theta] psi].
  destruct (matvec _ _) as [[g0 g1] g2].
  cbv beta zeta.
  cbn [fst snd _Va set_true_state set_current_forces_moments
       _motor_thrust_torque].
  rewrite HVa. unfold npow2.
  autorewrite with num_none. rewrite ?ndiv_None_r.
  autorewrite with num_none. reflexivity.
Qed.

(** X15.  When the cached airspeed is zero the trim cost is not finite,
    whatever the arguments. *)
Theorem trim_cost_at_zero_airspeed
  (x : num * num * num) (self : MavDynamics) :
  _Va self = fin 0 ->
  fst (calculate_trim_output x self) = None.
Proof.
  intros HVa.
  destruct (trim_unfold x self) as (delta & mid & -> & _ & Hmid).
  cbn [fst].
  assert (Hcases : _Va mid = fin 0 \/ _Va mid = None).
  { rewrite Hmid, HVa, initialize_velocity_unfold.
    set (base := set__state (set_row5 _ _) _).
    rewrite (proj1 (proj2 (update_true_state_frame _))).
    rewrite (proj1 (proj2 (forces_moments_frame _ _))).
    unfold _update_velocity_data.
    destruct (fst (fst x)) as [al | ], (_beta self) as [be | ];
      cbn -[Rmult Rplus Rminus]; auto.
    match goal with
    | |- context [Rlt_dec ?n 0] =>
        destruct (Rlt_dec n 0) as [Hneg | _]; [ now right | left ];
        replace n with 0%R by ring
    end.
    now rewrite sqrt_0. }
  destruct Hcases as [H0 | H0].
  - rewrite (forces_at_zero_airspeed delta mid H0). reflexivity.
  - rewrite (forces_at_nan_airspeed delta mid H0). reflexivity.
Qed.

(** ** Failing calls of [sensors] *)

Lemma init_sensors (Ts : num) : _sensors (__init__ Ts) = MsgSensors_new.
Proof. reflexivity. Qed.

Lemma sensors_on_constructed_run (Ts : num) (k : nat) :
  sensors {| obj := __init__ Ts; rng_pos := k |}
  = (inl TypeError, gyros_done {| obj := __init__ Ts; rng_pos := k |}).
Proof.
  unfold sensors.
  rewrite (bind_inr _ _ _ _ _ (sensors_gyros_run _)).
  apply bind_inl.
  apply accels_TypeError with (z := 0%Z) (l := [0; 0; 0; 0; 0]%Z).
  rewrite forces_after_gyros. apply init_forces_list.
Qed.

(** X16.  The call of [sensors] that raises [TypeError] on the
    constructed object is not undone: it has consumed three draws and
    has overwritten the three gyro fields of the sensor message, which is
    otherwise the fresh message of the constructor. *)
Theorem sensors_failure_keeps_gyro_writes (Ts : num) (k : nat) :
  let self := __init__ Ts in
  let ts := true_state self in
  let noise := np_radians 0.5 in
  let result := sensors {| obj := self; rng_pos := k |} in
  fst result = inl TypeError
  /\ rng_pos (snd result) = (3 + k)%nat
  /\ _sensors (obj (snd result))
     = MsgSensors.set_gyro_z (MsgState.r ts + normal_at 0 noise (2 + k))
         (MsgSensors.set_gyro_y (MsgState.q ts + normal_at 0 noise (1 + k))
            (MsgSensors.set_gyro_x (MsgState.p ts + normal_at 0 noise k)
               MsgSensors_new)).
Proof.
  cbv zeta. rewrite sensors_on_constructed_run.
  generalize (init_sensors Ts). generalize (__init__ Ts). intros self Hs.
  unfold gyros_done. cbv zeta.
  cbn [fst snd obj rng_pos _sensors set__sensors].
  rewrite Hs. split; [ reflexivity | ]. split; reflexivity.
Qed.

Lemma index2_raises (o : pyobj) (i : nat) (x : exn) :
  index2 o i = inl x -> x = TypeError \/ x = IndexError.
Proof.
  unfold index2. destruct o as [l | l]; destruct (nth_error l i);
    intros H; try discriminate H; injection H as <-; auto.
Qed.

(** [sensors] raises [ZeroDivisionError] only from the barometric
    power. *)
Lemma sensors_ZeroDivision_inv (w w' : world) :
  sensors w = (inl ZeroDivisionError, w') ->
  py_pow (baro_base (obj w)) baro_exponent = inl ZeroDivisionError.
Proof.
  unfold sensors. rewrite (bind_inr _ _ _ _ _ (sensors_gyros_run w)).
  destruct (sensors_accels_cases (gyros_done w))
    as [(f0 & f1 & f2 & E0 & E1 & E2 & _ & Hrun)
       | (x & w1 & Hrun & [(Hx & _) | (i & Hi & Ei)])].
  2: { rewrite (bind_inl _ _ _ _ _ Hrun). congruence. }
  2: { rewrite (bind_inl _ _ _ _ _ Hrun). intros H. injection H as -> _.
       apply index2_raises in Ei. destruct Ei; discriminate. }
  rewrite (bind_inr _ _ _ _ _ Hrun).
  destruct (sensors_mags_cases (accels_done f0 f1 f2 (gyros_done w)))
    as [(_ & Hmag) | (_ & w3 & Hmag)];
    [ rewrite (bind_inr _ _ _ _ _ Hmag)
    | rewrite (bind_inl _ _ _ _ _ Hmag); discriminate ].
  destruct (sensors_pressures_cases
              (mags_done (accels_done f0 f1 f2 (gyros_done w))))
    as [(pw & Epw & _ & _ & Hpr) | (x & w4 & Hpr & [Hx | (Hx & _)])].
  2: { rewrite (bind_inl _ _ _ _ _ Hpr). intros H. injection H as -> _.
       rewrite baro_base_after_mags in Hx. exact Hx. }
  2: { rewrite (bind_inl _ _ _ _ _ Hpr). congruence. }
  rewrite (bind_inr _ _ _ _ _ Hpr).
  generalize
    (pressures_done pw (mags_done (accels_done f0 f1 f2 (gyros_done w)))).
  intros w4.
  destruct (_t_gps (obj w4) >=? SENSOR.ts_gps SP) eqn:Edue.
  - destruct (gps_sample_cases w4) as [(_ & Hgps) | (_ & w5 & Hgps)];
      rewrite <- (sensors_gps_due _ Edue) in Hgps;
      [ rewrite (bind_inr _ _ _ _ _ Hgps)
      | rewrite (bind_inl _ _ _ _ _ Hgps) ]; discriminate.
  - rewrite (bind_inr _ _ _ _ _ (sensors_gps_waiting _ Edue)). discriminate.
Qed.

Lemma pressures_raises (w : world) (x : exn) :
  py_pow (baro_base (obj w)) baro_exponent = inl x ->
  sensors_pressures w = (inl x, w).
Proof.
  unfold sensors_pressures, baro_base, baro_exponent.
  unfold_monad. simp_obj. intros ->. reflexivity.
Qed.

(** With a forces column and admissible accelerometer and magnetometer
    deviations, a barometric power that raises makes [sensors] raise. *)
Lemma sensors_raises_at_pressures
  (w : world) (f0 f1 f2 : num) (rest : list num) (x : exn) :
  current_forces_moments (obj w) = NdColumn (f0 :: f1 :: f2 :: rest) ->
  (0 <= SENSOR.accel_sigma SP)%R -> (0 <= SENSOR.mag_sigma SP)%R ->
  py_pow (baro_base (obj w)) baro_exponent = inl x ->
  sensors w
  = (inl x, mags_done (accels_done f0 f1 f2 (gyros_done w))).
Proof.
  intros Hcol Ha Hm Hpow.
  unfold sensors. rewrite (bind_inr _ _ _ _ _ (sensors_gyros_run w)).
  destruct (sensors_accels_cases (gyros_done w))
    as [(g0 & g1 & g2 & G0 & G1 & G2 & _ & Hrun)
       | (y & w1 & Hrun & [(_ & Hneg) | (i & Hi & Ei)])].
  2: exfalso; lra.
  2: { exfalso. rewrite forces_after_gyros, Hcol in Ei.
       destruct i as [ | [ | [ | i ] ] ]; [ discriminate Ei .. | ].
       do 3 apply PeanoNat.lt_S_n in Hi. inversion Hi. }
  rewrite forces_after_gyros, Hcol in G0, G1, G2.
  cbn in G0, G1, G2. injection G0 as <-. injection G1 as <-.
  injection G2 as <-.
  rewrite (bind_inr _ _ _ _ _ Hrun).
  destruct (sensors_mags_cases (accels_done f0 f1 f2 (gyros_done w)))
    as [(_ & Hmag) | (Hneg & _)];
    [ | exfalso; lra ].
  rewrite (bind_inr _ _ _ _ _ Hmag).
  apply bind_inl. apply pressures_raises.
  rewrite baro_base_after_mags. exact Hpow.
Qed.

(** ** The barometric formula *)

(** The base of the barometric power vanishes at one altitude only. *)
Lemma baro_base_value (self : MavDynamics) (h : R) :
  MsgState.altitude (true_state self) = fin h ->
  baro_base self = fin (1 - -0.0065 * h / 288.15).
Proof.
  intros Hh. unfold baro_base. rewrite Hh.
  cbn -[Rmult Rminus Rdiv].
  destruct (Req_dec_T 288.15 0) as [Hz | _]; [ exfalso; lra | reflexivity ].
Qed.

Lemma baro_exponent_value :
  baro_exponent
  = fin (MAV.gravity P * 0.0289644 / (8.31432 * -0.0065)).
Proof.
  unfold baro_exponent. cbn -[Rmult Rminus Rdiv].
  destruct (Req_dec_T (8.31432 * -0.0065) 0) as [Hz | _];
    [ exfalso; lra | reflexivity ].
Qed.

Lemma baro_exponent_negative :
  (0 < MAV.gravity P)%R ->
  (MAV.gravity P * 0.0289644 / (8.31432 * -0.0065) < 0)%R.
Proof.
  intros Hg.
  assert (Hd : (/ (8.31432 * -0.0065) < 0)%R)
    by (apply Rinv_lt_0_compat; lra).
  assert (Hn : (0 < MAV.gravity P * 0.0289644)%R) by lra.
  unfold Rdiv. nra.
Qed.

Lemma baro_power_value (self : MavDynamics) (h : R) :
  MsgState.altitude (true_state self) = fin h ->
  (-44330 < h)%R ->
  py_pow (baro_base self) baro_exponent
  = inr (fin (Rpower (1 - -0.0065 * h / 288.15)
                (MAV.gravity P * 0.0289644 / (8.31432 * -0.0065)))).
Proof.
  intros Hh Hlow.
  rewrite (baro_base_value self h Hh), baro_exponent_value.
  unfold py_pow, fin.
  destruct (Req_dec_T (1 - -0.0065 * h / 288.15) 0) as [Hz | _];
    [ exfalso; lra | ].
  destruct (Rlt_dec (1 - -0.0065 * h / 288.15) 0) as [Hz | _];
    [ exfalso; lra | reflexivity ].
Qed.

Lemma baro_power_raises (self : MavDynamics) (h : R) :
  MsgState.altitude (true_state self) = fin h ->
  (0 < MAV.gravity P)%R ->
  py_pow (baro_base self) baro_exponent = inl ZeroDivisionError
  <-> h = (- (288.15 / 0.0065))%R.
Proof.
  intros Hh Hg. generalize (baro_exponent_negative Hg); intros He.
  rewrite (baro_base_value self h Hh), baro_exponent_value.
  unfold py_pow, fin.
  destruct (Req_dec_T (1 - -0.0065 * h / 288.15) 0) as [Hz | Hnz].
  - destruct (Rlt_dec _ 0) as [_ | Hn]; [ | exfalso; lra ].
    split; [ intros _; lra | reflexivity ].
  - split.
    + destruct (Rlt_dec _ 0); discriminate.
    + intros ->. exfalso. apply Hnz. lra.
Qed.

(** X17.  With a positive gravity constant, a forces column and
    admissible accelerometer and magnetometer deviations, [sensors]
    raises [ZeroDivisionError] exactly when the altitude is
    -288.15/0.0065 m, where the base of the barometric power is zero; the
    nine draws and the gyro, accelerometer and magnetometer writes made
    before the power stay. *)
Theorem sensors_zero_division_altitude
  (w : world) (f0 f1 f2 : num) (rest : list num) (h : R) :
  current_forces_moments (obj w) = NdColumn (f0 :: f1 :: f2 :: rest) ->
  (0 <= SENSOR.accel_sigma SP)%R -> (0 <= SENSOR.mag_sigma SP)%R ->
  (0 < MAV.gravity P)%R ->
  MsgState.altitude (true_state (obj w)) = fin h ->
  ((exists w' : world, sensors w = (inl ZeroDivisionError, w'))
   <-> h = (- (288.15 / 0.0065))%R)
  /\ (h = (- (288.15 / 0.0065))%R ->
      sensors w
      = (inl ZeroDivisionError,
         mags_done (accels_done f0 f1 f2 (gyros_done w)))
      /\ rng_pos (mags_done (accels_done f0 f1 f2 (gyros_done w)))
         = (9 + rng_pos w)%nat).
Proof.
  intros Hcol Ha Hm Hg Hh.
  assert (Hrun : h = (- (288.15 / 0.0065))%R ->
                 sensors w
                 = (inl ZeroDivisionError,
                    mags_done (accels_done f0 f1 f2 (gyros_done w)))).
  { intros E. apply (sensors_raises_at_pressures w f0 f1 f2 rest); auto.
    apply (baro_power_raises (obj w) h Hh Hg). exact E. }
  split; [ split | ].
  - intros [w' Hw']. apply (baro_power_raises (obj w) h Hh Hg).
    exact (sensors_ZeroDivision_inv w w' Hw').
  - intros E. eexists. exact (Hrun E).
  - intros E. split; [ exact (Hrun E) | reflexivity ].
Qed.

(** X18.  Of two returning calls of [sensors] at the same position of the
    noise stream, with a positive gravity constant, the one at the higher
    altitude (both above -44330 m) reads the strictly lower absolute
    pressure. *)
Theorem barometer_falls_with_altitude
  (w1 w2 w1' w2' : world) (msg1 msg2 : MsgSensors.t) (h1 h2 : R) :
  sensors w1 = (inr msg1, w1') -> sensors w2 = (inr msg2, w2') ->
  rng_pos w1 = rng_pos w2 ->
  MsgState.altitude (true_state (obj w1)) = fin h1 ->
  MsgState.altitude (true_state (obj w2)) = fin h2 ->
  (0 < MAV.gravity P)%R -> (-44330 < h1)%R -> (h1 < h2)%R ->
  exists p1 p2 : R,
    MsgSensors.abs_pressure msg1 = fin p1
    /\ MsgSensors.abs_pressure msg2 = fin p2
    /\ (p2 < p1)%R.
Proof.
  intros R1 R2 Hk H1 H2 Hg Hlow Hlt.
  destruct (sensors_fresh_fields w1 w1' msg1 R1)
    as (_ & _ & _ & _ & (pw1 & E1 & F1) & _).
  destruct (sensors_fresh_fields w2 w2' msg2 R2)
    as (_ & _ & _ & _ & (pw2 & E2 & F2) & _).
  rewrite (baro_power_value (obj w1) h1 H1 Hlow) in E1.
  rewrite (baro_power_value (obj w2) h2 H2) in E2 by lra.
  injection E1 as <-. injection E2 as <-.
  rewrite F1, F2, Hk. unfold normal_at.
  do 2 eexists. split; [ reflexivity | ]. split; [ reflexivity | ].
  generalize (baro_exponent_negative Hg).
  set (e := (MAV.gravity P * 0.0289644 / (8.31432 * -0.0065))%R).
  intros He.
  assert (Hb1 : (0 < 1 - -0.0065 * h1 / 288.15)%R) by lra.
  assert (Hb : (1 - -0.0065 * h1 / 288.15 < 1 - -0.0065 * h2 / 288.15)%R)
    by lra.
  assert (Hp : (Rpower (1 - -0.0065 * h2 / 288.15) e
                < Rpower (1 - -0.0065 * h1 / 288.15) e)%R).
  { unfold Rpower. apply exp_increasing.
    generalize (ln_increasing _ _ Hb1 Hb). intros Hln. nra. }
  lra.
Qed.

(** ** The constructor *)

Lemma init_velocity_part (Ts : num) :
  let mid :=
    initialize_velocity (MAV.u0 P) 0%R 0%R
      (set__forces zeros3 (set__wind zeros3 (super_init Ts))) in
  _state (__init__ Ts) = _state mid
  /\ _Va (__init__ Ts) = _Va mid
  /\ _alpha (__init__ Ts) = _alpha mid
  /\ _beta (__init__ Ts) = _beta mid
  /\ true_state (__init__ Ts) = true_state mid.
Proof.
  cbv zeta. split; [ reflexivity | ]. split; [ reflexivity | ].
  split; [ reflexivity | ]. split; reflexivity.
Qed.

(** X19.  With a positive [u0], the constructed vehicle moves along its
    body x axis at [u0]: the velocity rows of the state are (u0, 0, 0),
    the cached airspeed is [u0], the cached angle of attack and sideslip
    are zero, the true state reports the same three values, and position,
    attitude and body rates are those of the initial state. *)
Theorem constructor_straight_flight (Ts : num) :
  (0 < MAV.u0 P)%R ->
  let self := __init__ Ts in
  rows_3_6 (_state self) = (fin (MAV.u0 P), fin 0, fin 0)
  /\ _Va self = fin (MAV.u0 P)
  /\ _alpha self = fin 0 /\ _beta self = fin 0
  /\ MsgState.Va (true_state self) = fin (MAV.u0 P)
  /\ MsgState.alpha (true_state self) = fin 0
  /\ MsgState.beta (true_state self) = fin 0
  /\ (row0 (_state self), row1 (_state self), row2 (_state self))
     = (row0 state0, row1 state0, row2 state0)
  /\ rows_6_10 (_state self) = rows_6_10 state0
  /\ (row10 (_state self), row11 (_state self), row12 (_state self))
     = (row10 state0, row11 state0, row12 state0).
Proof.
  intros Hu. cbv zeta.
  destruct (init_velocity_part Ts) as (-> & -> & -> & -> & ->).
  destruct (initialize_velocity_keeps (MAV.u0 P) 0%R 0%R
              (set__forces zeros3 (set__wind zeros3 (super_init Ts))))
    as (_ & _ & _ & _ & _ & Hpc & _).
  destruct Hpc as (_ & _ & _ & -> & -> & -> & _).
  rewrite initialize_velocity_unfold.
  set (base := set__state (set_row5 _ _) _).
  assert (Hrows :
    rows_3_6 (_state base)
    = (fin (MAV.u0 P * cos 0 * cos 0), fin (MAV.u0 P * sin 0),
       fin (MAV.u0 P * sin 0 * cos 0)))
    by reflexivity.
  generalize PI_RGT_0; intros Hpi.
  destruct (resolution_recovers (MAV.u0 P) 0 0 base Hu) as (Hs & H1 & H2 & H3);
    [ lra | lra | exact Hrows | ].
  destruct (update_true_state_frame
              (snd (_forces_moments MsgDelta_new
                      (_update_velocity_data zeros6 base))))
    as (T0 & T1 & T2 & T3 & _).
  destruct (forces_moments_frame MsgDelta_new
              (_update_velocity_data zeros6 base))
    as (G0 & G1 & G2 & G3 & _).
  rewrite T0, T1, T2, T3, G0, G1, G2, G3, Hs, H1, H2, H3.
  split.
  { rewrite Hrows, cos_0, sin_0. repeat f_equal; ring. }
  do 6 (split; [ reflexivity | ]).
  unfold base. cbn [_state set__state set__Va set__alpha set__beta].
  split; [ reflexivity | ]. split; reflexivity.
Qed.

(** ** [update] followed by [sensors] *)

(** [update] caches the forces it integrated, computed before the step. *)
Lemma update_forces_cached delta wind self :
  current_forces_moments (update delta wind self)
  = NdColumn (fst (_forces_moments delta self))
  /\ _state (update delta wind self)
     = _rk4_step (_state self) (_ts_simulation self)
         (fst (_forces_moments delta self)).
Proof.
  rewrite update_unfold.
  destruct (update_true_state_frame
              (_update_velocity_data wind
                 (set__state
                    (_rk4_step (_state self) (_ts_simulation self)
                       (fst (_forces_moments delta self)))
                    (snd (_forces_moments delta self)))))
    as (-> & _ & _ & _ & _ & _ & ->).
  destruct (update_velocity_data_frame wind
              (set__state
                 (_rk4_step (_state self) (_ts_simulation self)
                    (fst (_forces_moments delta self)))
                 (snd (_forces_moments delta self))))
    as (-> & _ & _ & ->).
  cbn [_state current_forces_moments set__state].
  destruct (forces_moments_column delta self)
    as (fx & fy & fz & l & m & n & -> & ->).
  split; reflexivity.
Qed.

(** X20.  On a returning call of [sensors] after [update], the
    accelerometer mixes two instants: the specific force is that of the
    forces [update] computed from the state before its integration step,
    while roll and pitch of the gravity term are those of the state after
    the step. *)
Theorem accelerometer_after_update
  (delta : MsgDelta.t) (wind : ndarray6) (self : MavDynamics) (k : nat)
  (msg : MsgSensors.t) (w' : world) :
  sensors {| obj := update delta wind self; rng_pos := k |} = (inr msg, w') ->
  let f := fst (_forces_moments delta self) in
  let euler :=
    quaternion_to_euler
      (rows_6_10 (_rk4_step (_state self) (_ts_simulation self) f)) in
  let phi := fst (fst euler) in
  let theta := snd (fst euler) in
  let sigma := SENSOR.accel_sigma SP in
  MsgSensors.accel_x msg
  = force_entry 0%nat f / MAV.mass P + MAV.gravity P * np_sin theta
    + normal_at 0 sigma (3 + k)
  /\ MsgSensors.accel_y msg
     = force_entry 1%nat f / MAV.mass P
       - MAV.gravity P * np_cos theta * np_sin phi
       + normal_at 0 sigma (4 + k)
  /\ MsgSensors.accel_z msg
     = force_entry 2%nat f / MAV.mass P
       - MAV.gravity P * np_cos theta * np_cos phi
       + normal_at 0 sigma (5 + k).
Proof.
  intros Hrun. cbv zeta.
  destruct (update_forces_cached delta wind self) as (Hcol & Hst).
  pose proof (update_true_state_consistent
                (_update_velocity_data wind
                   (set__state
                      (_rk4_step (_state self) (_ts_simulation self)
                         (fst (_forces_moments delta self)))
                      (snd (_forces_moments delta self))))) as Hpc.
  rewrite <- update_unfold in Hpc.
  destruct Hpc as (_ & _ & _ & _ & _ & _ & He & _).
  rewrite Hst in He.
  apply sensors_inv in Hrun.
  destruct Hrun as (f0 & f1 & f2 & pw & E0 & E1 & E2 & _ & -> & ->).
  cbn [obj] in E0, E1, E2. rewrite Hcol in E0, E1, E2.
  destruct (forces_moments_six delta self)
    as (fx & fy & fz & l & m & n & Hf).
  rewrite Hf in E0, E1, E2, He |- *.
  cbn in E0, E1, E2. injection E0 as <-. injection E1 as <-.
  injection E2 as <-.
  rewrite <- He. unfold force_entry. cbn [nth fst snd].
  unfold sensors_done.
  destruct (_t_gps _ >=? SENSOR.ts_gps SP);
    (split; [ reflexivity | ]; split; reflexivity).
Qed.

End Dynamics.

(** * The methods on the sample configuration *)

Local Open Scope num_scope.

Lemma sample_sigmas :
  sigmas_nonneg Sample.sensor_parameters
  /\ gps_sigmas_nonneg Sample.sensor_parameters.
Proof.
  unfold sigmas_nonneg, gps_sigmas_nonneg. cbn -[Rmult Rdiv].
  repeat split; lra.
Qed.

Lemma sample_due :
  (_t_gps Sample.flying >=? SENSOR.ts_gps Sample.sensor_parameters) = true.
Proof. apply nge_fin. cbn. lra. Qed.

(** The first call on the sample object returns. *)
Lemma sample_first_call :
  exists pw : num,
    sensors Sample.aerosonde Sample.sensor_parameters
      Sample.euler_to_rotation Sample.draws
      {| obj := Sample.flying; rng_pos := 0 |}
    = (inr
         (_sensors
            (obj
               (sensors_done Sample.aerosonde Sample.sensor_parameters
                  Sample.euler_to_rotation Sample.draws (fin 0) (fin 0)
                  (fin (-107.91)) pw
                  {| obj := Sample.flying; rng_pos := 0 |}))),
       sensors_done Sample.aerosonde Sample.sensor_parameters
         Sample.euler_to_rotation Sample.draws (fin 0) (fin 0)
         (fin (-107.91)) pw {| obj := Sample.flying; rng_pos := 0 |}).
Proof.
  destruct sample_sigmas as [Hs Hg].
  apply sensors_returns with (rest := [fin 0; fin 0; fin 0]) (h := 100%R);
    try assumption; try reflexivity.
  lra.
Qed.

(** The ground speed the GPS block computes in the sample flight. *)
Lemma sample_ground_speed :
  exists v : R,
    np_sqrt
      (npow2
         (MsgState.Va Sample.level_flight
          * np_cos (MsgState.psi Sample.level_flight)
          + MsgState.wn Sample.level_flight)
       + npow2
           (MsgState.Va Sample.level_flight
            * np_sin (MsgState.psi Sample.level_flight)
            + MsgState.we Sample.level_flight))%num
    = fin v.
Proof.
  cbn -[Rmult Rplus].
  match goal with
  | |- context [Rlt_dec ?x 0] =>
      destruct (Rlt_dec x 0) as [Hneg | _]; [ exfalso; nra | ]
  end.
  eexists. reflexivity.
Qed.

(** The sample vehicle from construction: [sensors] raises on the object
    the constructor returns and returns once [update] has run. *)
Example sample_constructed_raises :
  fst
    (sensors Sample.aerosonde Sample.sensor_parameters
       Sample.euler_to_rotation Sample.draws
       {| obj :=
            __init__ Sample.aerosonde Sample.quaternion_to_euler
              Sample.quaternion_to_rotation Sample.euler_to_rotation
              Sample.state0 Sample.MsgState_new Sample.MsgSensors_new
              Sample.MsgDelta_new (fin 0.01);
          rng_pos := 0 |})
  = inl TypeError.
Proof.
  apply sensors_on_constructed.
Qed.

Example sample_updated_returns :
  exists (msg : MsgSensors.t) (w' : world),
    sensors Sample.aerosonde Sample.sensor_parameters
      Sample.euler_to_rotation Sample.draws
      {| obj :=
           update Sample.aerosonde Sample.quaternion_to_euler
             Sample.quaternion_to_rotation Sample.euler_to_rotation
             Sample.hold_state Sample.MsgDelta_new zeros6
             (__init__ Sample.aerosonde Sample.quaternion_to_euler
                Sample.quaternion_to_rotation Sample.euler_to_rotation
                Sample.state0 Sample.MsgState_new Sample.MsgSensors_new
                Sample.MsgDelta_new (fin 0.01));
         rng_pos := 0 |}
    = (inr msg, w').
Proof.
  destruct sample_sigmas as [Hs Hg].
  refine (sensors_after_update_returns Sample.aerosonde
            Sample.sensor_parameters Sample.quaternion_to_euler
            Sample.quaternion_to_rotation Sample.euler_to_rotation
            Sample.hold_state Sample.draws Sample.MsgDelta_new zeros6 _ 0
            (-100)%R Hs Hg _ _); [ | lra ].
  unfold Sample.hold_state. apply init_down_position.
Qed.

(** C1 does not hold of the code.  The sample object has flown (its
    forces are a column), its GPS timer holds the constructor's 999, and
    the sample interval is 1 s.  Two consecutive calls of [sensors], one time step
    of 0.01 s apart, both return, and the GPS ground speed of the second
    differs from that of the first: the GPS fields are redrawn on a call
    that is not a sample interval after the previous one. *)
Theorem gps_redrawn_one_tick_apart :
  exists (m1 m2 : MsgSensors.t) (w1 w2 : world),
    sensors Sample.aerosonde Sample.sensor_parameters
      Sample.euler_to_rotation Sample.draws
      {| obj := Sample.flying; rng_pos := 0 |}
    = (inr m1, w1)
    /\ sensors Sample.aerosonde Sample.sensor_parameters
         Sample.euler_to_rotation Sample.draws w1
       = (inr m2, w2)
    /\ _t_gps (obj w1) = fin (999 + 0.01)
    /\ _t_gps (obj w2) = fin (999 + 0.01 + 0.01)
    /\ (0.01 < SENSOR.ts_gps Sample.sensor_parameters)%R
    /\ MsgSensors.gps_Vg m1 <> MsgSensors.gps_Vg m2.
Proof.
  destruct sample_sigmas as [Hs Hg].
  destruct sample_first_call as [pw1 H1].
  set (w0 := {| obj := Sample.flying; rng_pos := 0 |}) in *.
  set (w1 := sensors_done _ _ _ _ _ _ _ _ w0) in *.
  destruct (sensors_done_frame Sample.aerosonde Sample.sensor_parameters
              Sample.euler_to_rotation Sample.draws (fin 0) (fin 0)
              (fin (-107.91)) pw1 w0)
    as (_ & _ & Hts & _ & _ & _ & _ & _ & Hcol).
  fold w1 in Hts, Hcol.
  destruct (sensors_returns Sample.aerosonde Sample.sensor_parameters
              Sample.euler_to_rotation Sample.draws w1 (fin 0) (fin 0)
              (fin (-107.91)) [fin 0; fin 0; fin 0] 100%R Hs Hg)
    as [pw2 H2].
  { rewrite Hcol. reflexivity. }
  { rewrite Hts. reflexivity. }
  { lra. }
  destruct (gps_stays_due _ _ _ _ _ _ _ 999%R 0.01%R H1 eq_refl eq_refl)
    as (Ht1 & Hd1 & Hdue1); [ cbn; lra | lra | ].
  destruct (gps_stays_due _ _ _ _ _ _ _ _ _ H2 Ht1 Hd1)
    as (Ht2 & _ & _); [ cbn; lra | lra | ].
  destruct (sensors_due_result _ _ _ _ _ _ _ H1 sample_due)
    as (HVg1 & _ & _ & _ & Hk1 & _).
  destruct (sensors_due_result _ _ _ _ _ _ _ H2 Hdue1)
    as (HVg2 & _).
  rewrite Hts, Hk1 in HVg2. cbn [obj rng_pos true_state Sample.flying w0]
    in HVg1, HVg2.
  destruct sample_ground_speed as [v Hv]. rewrite Hv in HVg1, HVg2.
  do 4 eexists.
  split; [ exact H1 | ]. split; [ exact H2 | ].
  split; [ exact Ht1 | ]. split; [ exact Ht2 | ].
  split; [ cbn; lra | ].
  rewrite HVg1, HVg2. unfold normal_at, Sample.draws.
  cbn -[Rmult Rplus INR Nat.add].
  intros Heq. injection Heq as Heq. lra.
Qed.

(** C2 does not hold of the code.  On the sample object the timer has
    reached the sample interval (999 >= 1, with a 0.01 s time step); the call
    returns, it takes a GPS sample from fresh draws, and it leaves the
    timer at 999.01, which is not less than the sample interval: the
    timer is advanced, never reset. *)
Theorem gps_timer_not_reset :
  exists (m : MsgSensors.t) (w1 : world) (v : R),
    (_t_gps Sample.flying >=? SENSOR.ts_gps Sample.sensor_parameters) = true
    /\ (SENSOR.ts_gps Sample.sensor_parameters > 0.01)%R
    /\ sensors Sample.aerosonde Sample.sensor_parameters
         Sample.euler_to_rotation Sample.draws
         {| obj := Sample.flying; rng_pos := 0 |}
       = (inr m, w1)
    /\ MsgSensors.gps_Vg m
       = fin (v + (0 + SENSOR.gps_Vg_sigma Sample.sensor_parameters
                       * Sample.draws 14))
    /\ _t_gps (obj w1) = fin (999 + 0.01)
    /\ ~ (999 + 0.01 < SENSOR.ts_gps Sample.sensor_parameters)%R.
Proof.
  destruct sample_first_call as [pw1 H1].
  destruct (gps_stays_due _ _ _ _ _ _ _ 999%R 0.01%R H1 eq_refl eq_refl)
    as (Ht1 & _ & _); [ cbn; lra | lra | ].
  destruct (sensors_due_result _ _ _ _ _ _ _ H1 sample_due)
    as (HVg1 & _).
  cbn [obj rng_pos true_state Sample.flying] in HVg1.
  destruct sample_ground_speed as [v Hv]. rewrite Hv in HVg1.
  do 2 eexists. exists v.
  split; [ exact sample_due | ]. split; [ cbn; lra | ].
  split; [ exact H1 | ]. split; [ exact HVg1 | ].
  split; [ exact Ht1 | ]. cbn. lra.
Qed.

(** C10 as stated fails: on the sample object the call creates the
    attribute [_gps_eta_Vg], which is outside the sensor message, the
    three position biases and the timer. *)
Lemma sensors_writes_gps_noise_attributes :
  ~ sensors_frame_strict Sample.flying
      (obj
         (snd
            (sensors Sample.aerosonde Sample.sensor_parameters
               Sample.euler_to_rotation Sample.draws
               {| obj := Sample.flying; rng_pos := 0 |}))).
Proof.
  destruct sample_first_call as [pw1 H1].
  destruct (sensors_due_result _ _ _ _ _ _ _ H1 sample_due)
    as (_ & _ & HVg & _).
  rewrite H1. cbn [snd]. intros (_ & Hstrict & _).
  rewrite HVg in Hstrict. discriminate Hstrict.
Qed.

(** ** Instances of the theorems that have hypotheses *)

(** C3 on the sample object, flying at 25 m/s along its x axis, in a
    steady head wind of 10 m/s: the airspeed is 15 m/s. *)
Lemma update_velocity_data_contract_witness :
  let self' :=
    _update_velocity_data
      (mkWind (fin 10) (fin 0) (fin 0) (fin 3) (fin 4) (fin 5))
      Sample.flying in
  rows_3_6 (_state Sample.flying) = (fin 25, fin 0, fin 0)
  /\ _Va self' = fin 15
  /\ _alpha self' = fin (atan2 (0 - 0) (25 - 10))
  /\ _beta self' = fin (asin ((0 - 0) / 15)).
Proof.
  assert (Hn : sqrt ((25 - 10) * (25 - 10) + (0 - 0) * (0 - 0)
                     + (0 - 0) * (0 - 0)) = 15%R).
  { replace ((25 - 10) * (25 - 10) + (0 - 0) * (0 - 0)
             + (0 - 0) * (0 - 0))%R with (15 * 15)%R by ring.
    apply sqrt_square. lra. }
  destruct (update_velocity_data_contract Sample.flying 25 0 0 10 0 0
              (fin 3) (fin 4) (fin 5) eq_refl)
    as (HVa & Ha & Hb & _).
  cbv zeta in *. rewrite Hn in HVa, Hb.
  split; [ reflexivity | ]. split; [ exact HVa | ].
  split; [ exact Ha | ]. apply Hb. lra.
Defined.

(** C4 at airspeed 25 and zero angles. *)
Lemma initialize_velocity_roundtrip_witness :
  let self' :=
    initialize_velocity Sample.aerosonde Sample.quaternion_to_euler
      Sample.quaternion_to_rotation Sample.euler_to_rotation
      Sample.MsgDelta_new (fin 25) (fin 0) (fin 0) Sample.flying in
  (0 < 25)%R /\ (- PI < 0 <= PI)%R /\ (- (PI / 2) < 0 < PI / 2)%R
  /\ rows_3_6 (_state self') = (fin 25, fin 0, fin 0)
  /\ _Va self' = fin 25 /\ _alpha self' = fin 0 /\ _beta self' = fin 0
  /\ _Va (initialize_velocity Sample.aerosonde Sample.quaternion_to_euler
            Sample.quaternion_to_rotation Sample.euler_to_rotation
            Sample.MsgDelta_new (fin (- 25)) (fin 0) (fin 0) Sample.flying)
     = fin 25.
Proof.
  assert (H1 : (0 < 25)%R) by lra.
  assert (H2 : (- PI < 0 <= PI)%R) by (generalize PI_RGT_0; lra).
  assert (H3 : (- (PI / 2) < 0 < PI / 2)%R) by (generalize PI_RGT_0; lra).
  destruct (initialize_velocity_roundtrip Sample.aerosonde
              Sample.quaternion_to_euler Sample.quaternion_to_rotation
              Sample.euler_to_rotation Sample.MsgDelta_new 25 0 0
              Sample.flying H1 H2 H3)
    as (_ & _ & HVa & Ha & Hb & Hneg & Hrows).
  do 3 (split; [ assumption | ]).
  split; [ exact Hrows | ]. split; [ exact HVa | ].
  split; [ exact Ha | ]. split; [ exact Hb | exact Hneg ].
Defined.

(** C6 on the Aerosonde at 25 m/s. *)
Lemma zero_throttle_thrust_witness :
  (0 < MAV.rho Sample.aerosonde)%R /\ (0 < MAV.S_prop Sample.aerosonde)%R
  /\ (0 <= 25)%R
  /\ exists T : R,
       fst (_motor_thrust_torque Sample.aerosonde Sample.flying
              (fin 25) (fin 0))
       = fin T
       /\ (T < 0)%R.
Proof.
  assert (H1 : (0 < MAV.rho Sample.aerosonde)%R) by (cbn; lra).
  assert (H2 : (0 < MAV.S_prop Sample.aerosonde)%R) by (cbn; lra).
  assert (H3 : (0 <= 25)%R) by lra.
  destruct (zero_throttle_thrust Sample.aerosonde Sample.flying 25 H1 H2 H3)
    as (T & HT & _ & Hneg & _).
  repeat split; try assumption.
  exists T. split; [ exact HT | apply Hneg; lra ].
Defined.

Lemma sample_inputs_finite :
  forces_inputs_finite Sample.aerosonde Sample.quaternion_to_euler
    Sample.euler_to_rotation Sample.MsgDelta_new Sample.flying.
Proof.
  unfold forces_inputs_finite, gravity_body.
  cbn -[Rmult Rplus Rminus Ropp].
  repeat match goal with
    | |- context [Rlt_dec ?x ?y] =>
        destruct (Rlt_dec x y) as [Hlt | _]; [ exfalso; lra | ]
    end.
  cbn -[Rmult Rplus Rminus Ropp].
  repeat split; eexists; reflexivity.
Qed.

(** C7 on the sample object, whose cached airspeed is 25. *)
Lemma airspeed_divisions_witness :
  forces_inputs_finite Sample.aerosonde Sample.quaternion_to_euler
    Sample.euler_to_rotation Sample.MsgDelta_new Sample.flying
  /\ (MAV.e Sample.aerosonde * MAV.AR Sample.aerosonde <> 0)%R
  /\ _Va Sample.flying = fin 25
  /\ Forall is_fin
       (fst (_forces_moments Sample.aerosonde Sample.quaternion_to_euler
               Sample.euler_to_rotation Sample.MsgDelta_new Sample.flying))
  /\ is_fin (_beta (_update_velocity_data zeros6 Sample.flying)).
Proof.
  assert (H1 := sample_inputs_finite).
  assert (H2 : (MAV.e Sample.aerosonde * MAV.AR Sample.aerosonde <> 0)%R)
    by (cbn; lra).
  assert (H3 : _Va Sample.flying = fin 25) by reflexivity.
  destruct (airspeed_divisions Sample.aerosonde Sample.quaternion_to_euler
              Sample.euler_to_rotation Sample.MsgDelta_new zeros6
              Sample.flying 25 H1 H2 H3)
    as (Hpos & _ & Hres).
  split; [ exact H1 | ]. split; [ exact H2 | ]. split; [ exact H3 | ].
  split.
  - apply Hpos. lra.
  - destruct (resolution_recovers 25 0 0 Sample.flying) as (_ & HVa & _).
    + lra.
    + generalize PI_RGT_0. lra.
    + generalize PI_RGT_0. lra.
    + rewrite cos_0, sin_0.
      replace (25 * 1 * 1)%R with 25%R by ring.
      replace (25 * 0)%R with 0%R by ring.
      replace (0 * 1)%R with 0%R by ring. reflexivity.
    + apply (Hres 25 HVa). lra.
Defined.

Lemma sample_field_unit (th ps : R) :
  ((cos th * cos ps) * (cos th * cos ps)
   + (sin 0 * sin th * cos ps - cos 0 * sin ps)
     * (sin 0 * sin th * cos ps - cos 0 * sin ps)
   + (cos 0 * sin th * cos ps + sin 0 * sin ps)
     * (cos 0 * sin th * cos ps + sin 0 * sin ps) = 1)%R.
Proof.
  rewrite sin_0, cos_0.
  generalize (sin2_cos2_mult th) (sin2_cos2_mult ps). intros Hth Hps.
  transitivity
    (cos ps * cos ps * (sin th * sin th + cos th * cos th)
     + sin ps * sin ps)%R; [ ring | ].
  rewrite Hth. lra.
Qed.

(** C8 on the first call on the sample object, with the 3-2-1 rotation. *)
Lemma magnetometer_noise_is_multiplicative_witness :
  exists (m : MsgSensors.t) (w1 : world),
    sensors Sample.aerosonde Sample.sensor_parameters
      Sample.euler_to_rotation Sample.draws
      {| obj := Sample.flying; rng_pos := 0 |}
    = (inr m, w1)
    /\ MsgSensors.mag_x m
       = fst
           (fst
              (matvec
                 (transpose
                    (Sample.euler_to_rotation (fin 0) (fin 0) (fin 0)))
                 (mag_inertial Sample.euler_to_rotation)))
         * normal_at Sample.draws 0
             (SENSOR.mag_sigma Sample.sensor_parameters) 6
    /\ mag_inertial Sample.euler_to_rotation
       = (fin (cos (- np_deg2rad 66) * cos (np_deg2rad 2.13)),
          fin (sin 0 * sin (- np_deg2rad 66) * cos (np_deg2rad 2.13)
               - cos 0 * sin (np_deg2rad 2.13)),
          fin (cos 0 * sin (- np_deg2rad 66) * cos (np_deg2rad 2.13)
               + sin 0 * sin (np_deg2rad 2.13)))
    /\ norm3 (mag_inertial Sample.euler_to_rotation) = fin 1.
Proof.
  destruct sample_first_call as [pw1 H1].
  destruct (magnetometer_noise_is_multiplicative Sample.aerosonde
              Sample.sensor_parameters Sample.euler_to_rotation Sample.draws
              _ _ _
              (cos (- np_deg2rad 66) * cos (np_deg2rad 2.13))%R
              (sin 0 * sin (- np_deg2rad 66) * cos (np_deg2rad 2.13)
               - cos 0 * sin (np_deg2rad 2.13))%R
              (cos 0 * sin (- np_deg2rad 66) * cos (np_deg2rad 2.13)
               + sin 0 * sin (np_deg2rad 2.13))%R
              (cos (- np_deg2rad 66) * sin (np_deg2rad 2.13))%R
              (sin 0 * sin (- np_deg2rad 66) * sin (np_deg2rad 2.13)
               + cos 0 * cos (np_deg2rad 2.13))%R
              (cos 0 * sin (- np_deg2rad 66) * sin (np_deg2rad 2.13)
               - sin 0 * cos (np_deg2rad 2.13))%R
              (- sin (- np_deg2rad 66))%R
              (sin 0 * cos (- np_deg2rad 66))%R
              (cos 0 * cos (- np_deg2rad 66))%R
              H1 eq_refl (sample_field_unit _ _))
    as (Hx & _ & _ & Hmi & Hunit).
  do 2 eexists. split; [ exact H1 | ]. split; [ exact Hx | ].
  split; [ exact Hmi | exact Hunit ].
Defined.
(** ** Instances on the sample configuration *)

(** The sample vehicle as constructed, with a time step of 0.01 s, and
    after one [update] in still air. *)
Local Abbreviation sample_constructed :=
  (__init__ Sample.aerosonde Sample.quaternion_to_euler
     Sample.quaternion_to_rotation Sample.euler_to_rotation Sample.state0
     Sample.MsgState_new Sample.MsgSensors_new Sample.MsgDelta_new
     (fin 0.01)).

Local Abbreviation sample_updated :=
  (update Sample.aerosonde Sample.quaternion_to_euler
     Sample.quaternion_to_rotation Sample.euler_to_rotation
     Sample.hold_state Sample.MsgDelta_new zeros6 sample_constructed).

Local Abbreviation sample_reachable :=
  (reachable Sample.aerosonde Sample.sensor_parameters
     Sample.quaternion_to_euler Sample.quaternion_to_rotation
     Sample.euler_to_rotation Sample.state0 Sample.hold_state
     Sample.MsgState_new Sample.MsgSensors_new Sample.MsgDelta_new
     Sample.draws Sample.euler_to_quaternion).

Lemma sample_updated_reachable : sample_reachable (fin 0.01) sample_updated.
Proof. apply reach_update, reach_init. Qed.

(** X6 on the Aerosonde at 25 m/s and full throttle. *)
Lemma thrust_sign_witness :
  (0 < MAV.rho Sample.aerosonde)%R /\ (0 < MAV.S_prop Sample.aerosonde)%R
  /\ (0 <= 25)%R /\ (0 <= MAV.k_motor Sample.aerosonde * 1)%R
  /\ exists T : R,
       fst (_motor_thrust_torque Sample.aerosonde Sample.flying
              (fin 25) (fin 1))
       = fin T
       /\ (0 < T)%R.
Proof.
  assert (H1 : (0 < MAV.rho Sample.aerosonde)%R) by (cbn; lra).
  assert (H2 : (0 < MAV.S_prop Sample.aerosonde)%R) by (cbn; lra).
  assert (H3 : (0 <= 25)%R) by lra.
  assert (H4 : (0 <= MAV.k_motor Sample.aerosonde * 1)%R) by (cbn; lra).
  destruct (thrust_sign Sample.aerosonde Sample.flying 25 1 H1 H2 H3 H4)
    as (T & HT & Hpos & _).
  do 4 (split; [ assumption | ]).
  exists T. split; [ exact HT | apply Hpos; cbn; lra ].
Defined.

Lemma sample_resolution :
  _Va (_update_velocity_data zeros6 Sample.flying) = fin 25
  /\ _alpha (_update_velocity_data zeros6 Sample.flying) = fin 0
  /\ _beta (_update_velocity_data zeros6 Sample.flying) = fin 0.
Proof.
  destruct (resolution_recovers 25 0 0 Sample.flying) as (_ & H).
  - lra.
  - generalize PI_RGT_0. lra.
  - generalize PI_RGT_0. lra.
  - rewrite cos_0, sin_0.
    replace (25 * 1 * 1)%R with 25%R by ring.
    replace (25 * 0)%R with 0%R by ring.
    replace (0 * 1)%R with 0%R by ring. reflexivity.
  - exact H.
Qed.

(** X7 on the sample object in still air. *)
Lemma air_data_ranges_witness :
  _alpha (_update_velocity_data zeros6 Sample.flying) = fin 0
  /\ _beta (_update_velocity_data zeros6 Sample.flying) = fin 0
  /\ exists a : R,
       _Va (_update_velocity_data zeros6 Sample.flying) = fin a
       /\ (0 < a)%R.
Proof.
  destruct sample_resolution as (_ & Ha & Hb).
  destruct (air_data_ranges zeros6 Sample.flying 0 0 Ha Hb)
    as (a & HVa & Hpos & _).
  split; [ exact Ha | ]. split; [ exact Hb | ].
  exists a. split; assumption.
Defined.

(** The projection of the sample object reports a ground speed of
    25 m/s. *)
Lemma sample_projected_ground_speed :
  MsgState.Vg
    (true_state
       (_update_true_state Sample.quaternion_to_euler
          Sample.quaternion_to_rotation Sample.flying))
  = fin 25.
Proof.
  cbn -[Rmult Rplus Rminus].
  match goal with
  | |- context [Rlt_dec ?x 0] =>
      destruct (Rlt_dec x 0) as [Hneg | _]; [ exfalso; nra | ]
  end.
  unfold fin. f_equal.
  match goal with
  | |- sqrt ?x = _ => replace x with (25 * 25)%R by ring
  end.
  apply sqrt_square. lra.
Qed.

(** X8 on the sample object, whose ground speed is 25 m/s. *)
Lemma flight_path_angle_witness :
  let ts :=
    true_state
      (_update_true_state Sample.quaternion_to_euler
         Sample.quaternion_to_rotation Sample.flying) in
  MsgState.Vg ts = fin 25
  /\ exists g c : R,
       MsgState.gamma ts = fin g /\ (- (PI / 2) <= g <= PI / 2)%R
       /\ MsgState.chi ts = fin c /\ (- PI < c <= PI)%R.
Proof.
  cbv zeta.
  destruct (flight_path_angle Sample.quaternion_to_euler
              Sample.quaternion_to_rotation Sample.flying 25
              sample_projected_ground_speed)
    as (_ & _ & Hpos).
  split; [ exact sample_projected_ground_speed | ].
  apply Hpos. lra.
Defined.

(** X9 on the sample vehicle after an [update] with a wind of 5 m/s
    north and 3 m/s east. *)
Lemma reachable_reports_zero_wind_witness :
  let self :=
    update Sample.aerosonde Sample.quaternion_to_euler
      Sample.quaternion_to_rotation Sample.euler_to_rotation
      Sample.hold_state Sample.MsgDelta_new
      (mkWind (fin 5) (fin 3) (fin 0) (fin 0) (fin 0) (fin 0))
      sample_constructed in
  sample_reachable (fin 0.01) self
  /\ _wind self = zeros3
  /\ MsgState.wn (true_state self) = fin 0
  /\ MsgState.we (true_state self) = fin 0.
Proof.
  cbv zeta.
  assert (H : sample_reachable (fin 0.01)
                (update Sample.aerosonde Sample.quaternion_to_euler
                   Sample.quaternion_to_rotation Sample.euler_to_rotation
                   Sample.hold_state Sample.MsgDelta_new
                   (mkWind (fin 5) (fin 3) (fin 0) (fin 0) (fin 0) (fin 0))
                   sample_constructed))
    by apply reach_update, reach_init.
  split; [ exact H | ].
  exact (reachable_reports_zero_wind _ _ _ _ _ _ _ _ _ _ _ _ _ _ H).
Defined.

(** X10 on the sample vehicle after one [update]. *)
Lemma reachable_projection_consistent_witness :
  sample_reachable (fin 0.01) sample_updated
  /\ projection_consistent Sample.quaternion_to_euler sample_updated
  /\ _ts_simulation sample_updated = fin 0.01.
Proof.
  destruct (reachable_projection_consistent _ _ _ _ _ _ _ _ _ _ _ _ _ _
              sample_updated_reachable)
    as (Hpc & Hts & _).
  split; [ exact sample_updated_reachable | ]. split; assumption.
Defined.

(** X11 on the sample vehicle after one [update]. *)
Lemma reachable_gps_always_due_witness :
  (SENSOR.ts_gps Sample.sensor_parameters <= 999)%R /\ (0 <= 0.01)%R
  /\ sample_reachable (fin 0.01) sample_updated
  /\ (_t_gps sample_updated >=? SENSOR.ts_gps Sample.sensor_parameters)
     = true.
Proof.
  assert (H1 : (SENSOR.ts_gps Sample.sensor_parameters <= 999)%R)
    by (cbn; lra).
  assert (H2 : (0 <= 0.01)%R) by lra.
  destruct (reachable_gps_always_due _ _ _ _ _ _ _ _ _ _ _ _ _ _ H1 H2
              sample_updated_reachable)
    as (Hdue & _).
  do 2 (split; [ assumption | ]).
  split; [ exact sample_updated_reachable | exact Hdue ].
Defined.

Lemma sample_updated_due :
  (_t_gps sample_updated >=? SENSOR.ts_gps Sample.sensor_parameters) = true.
Proof.
  rewrite (proj1 (update_keeps _ _ _ _ _ _ _ _)).
  apply nge_fin. cbn. lra.
Qed.

(** X12 on the first call after one [update] of the sample vehicle. *)
Lemma gps_wind_terms_are_zero_witness :
  exists (msg : MsgSensors.t) (w' : world),
    sensors Sample.aerosonde Sample.sensor_parameters
      Sample.euler_to_rotation Sample.draws
      {| obj := sample_updated; rng_pos := 0 |}
    = (inr msg, w')
    /\ MsgSensors.gps_Vg msg
       = np_sqrt
           (npow2
              (_Va sample_updated
               * np_cos (MsgState.psi (true_state sample_updated))
               + fin 0)
            + npow2
                (_Va sample_updated
                 * np_sin (MsgState.psi (true_state sample_updated))
                 + fin 0))
         + normal_at Sample.draws 0
             (SENSOR.gps_Vg_sigma Sample.sensor_parameters) 14.
Proof.
  destruct sample_updated_returns as (msg & w' & Hrun).
  exists msg, w'. split; [ exact Hrun | ].
  destruct (gps_wind_terms_are_zero _ _ _ _ _ _ _ _ _ _ _ _ _ _ _ _ _
              sample_updated_reachable Hrun sample_updated_due)
    as (HVg & _).
  exact HVg.
Defined.

(** X15 on the sample object with its cached airspeed set to zero. *)
Lemma trim_cost_at_zero_airspeed_witness :
  _Va (set__Va (fin 0) Sample.flying) = fin 0
  /\ fst (calculate_trim_output Sample.aerosonde Sample.quaternion_to_euler
            Sample.quaternion_to_rotation Sample.euler_to_rotation
            Sample.MsgDelta_new Sample.euler_to_quaternion
            (fin 0, fin 0, fin 0.5) (set__Va (fin 0) Sample.flying))
     = None.
Proof.
  split; [ reflexivity | ].
  exact (trim_cost_at_zero_airspeed Sample.aerosonde
           Sample.quaternion_to_euler Sample.quaternion_to_rotation
           Sample.euler_to_rotation Sample.MsgDelta_new
           Sample.euler_to_quaternion (fin 0, fin 0, fin 0.5)
           (set__Va (fin 0) Sample.flying) eq_refl).
Defined.

(** The sample object with another altitude in its true state. *)
Local Abbreviation sample_at h :=
  (set_true_state (MsgState.set_altitude (fin h) Sample.level_flight)
     Sample.flying).

(** X17 on the sample object moved to the altitude at which the base of
    the barometric power is zero. *)
Lemma sensors_zero_division_altitude_witness :
  (0 <= SENSOR.accel_sigma Sample.sensor_parameters)%R
  /\ (0 <= SENSOR.mag_sigma Sample.sensor_parameters)%R
  /\ (0 < MAV.gravity Sample.aerosonde)%R
  /\ fst
       (sensors Sample.aerosonde Sample.sensor_parameters
          Sample.euler_to_rotation Sample.draws
          {| obj := sample_at (- (288.15 / 0.0065))%R; rng_pos := 0 |})
     = inl ZeroDivisionError.
Proof.
  assert (H1 : (0 <= SENSOR.accel_sigma Sample.sensor_parameters)%R)
    by (cbn; lra).
  assert (H2 : (0 <= SENSOR.mag_sigma Sample.sensor_parameters)%R)
    by (cbn; lra).
  assert (H3 : (0 < MAV.gravity Sample.aerosonde)%R) by (cbn; lra).
  destruct (sensors_zero_division_altitude Sample.aerosonde
              Sample.sensor_parameters Sample.euler_to_rotation Sample.draws
              {| obj := sample_at (- (288.15 / 0.0065))%R; rng_pos := 0 |}
              (fin 0) (fin 0) (fin (-107.91)) [fin 0; fin 0; fin 0]
              (- (288.15 / 0.0065))%R eq_refl H1 H2 H3 eq_refl)
    as (_ & Hrun).
  do 3 (split; [ assumption | ]).
  destruct (Hrun eq_refl) as (-> & _). reflexivity.
Defined.

(** X18 on the sample object at 100 m and at 200 m. *)
Lemma barometer_falls_with_altitude_witness :
  exists (msg1 msg2 : MsgSensors.t) (p1 p2 : R),
    fst
      (sensors Sample.aerosonde Sample.sensor_parameters
         Sample.euler_to_rotation Sample.draws
         {| obj := Sample.flying; rng_pos := 0 |})
    = inr msg1
    /\ fst
         (sensors Sample.aerosonde Sample.sensor_parameters
            Sample.euler_to_rotation Sample.draws
            {| obj := sample_at 200%R; rng_pos := 0 |})
       = inr msg2
    /\ MsgSensors.abs_pressure msg1 = fin p1
    /\ MsgSensors.abs_pressure msg2 = fin p2
    /\ (p2 < p1)%R.
Proof.
  destruct sample_sigmas as [Hs Hg].
  destruct sample_first_call as [pw1 R1].
  destruct (sensors_returns Sample.aerosonde Sample.sensor_parameters
              Sample.euler_to_rotation Sample.draws
              {| obj := sample_at 200%R; rng_pos := 0 |}
              (fin 0) (fin 0) (fin (-107.91)) [fin 0; fin 0; fin 0] 200
              Hs Hg eq_refl eq_refl)
    as [pw2 R2]; [ lra | ].
  assert (H3 : (0 < MAV.gravity Sample.aerosonde)%R) by (cbn; lra).
  assert (H4 : (-44330 < 100)%R) by lra.
  assert (H5 : (100 < 200)%R) by lra.
  destruct (barometer_falls_with_altitude Sample.aerosonde
              Sample.sensor_parameters Sample.euler_to_rotation Sample.draws
              _ _ _ _ _ _ 100 200 R1 R2 eq_refl eq_refl eq_refl H3 H4 H5)
    as (p1 & p2 & E1 & E2 & Hlt).
  do 4 eexists.
  rewrite R1, R2. cbn [fst].
  split; [ reflexivity | ]. split; [ reflexivity | ].
  split; [ exact E1 | ]. split; [ exact E2 | exact Hlt ].
Defined.

(** X19 on the Aerosonde, whose [u0] is 25 m/s. *)
Lemma constructor_straight_flight_witness :
  (0 < MAV.u0 Sample.aerosonde)%R
  /\ rows_3_6 (_state sample_constructed) = (fin 25, fin 0, fin 0)
  /\ _Va sample_constructed = fin 25
  /\ _alpha sample_constructed = fin 0
  /\ _beta sample_constructed = fin 0.
Proof.
  assert (H1 : (0 < MAV.u0 Sample.aerosonde)%R) by (cbn; lra).
  destruct (constructor_straight_flight Sample.aerosonde
              Sample.quaternion_to_euler Sample.quaternion_to_rotation
              Sample.euler_to_rotation Sample.state0 Sample.MsgState_new
              Sample.MsgSensors_new Sample.MsgDelta_new (fin 0.01) H1)
    as (Hrows & HVa & Ha & Hb & _).
  split; [ exact H1 | ]. split; [ exact Hrows | ].
  split; [ exact HVa | ]. split; [ exact Ha | exact Hb ].
Defined.

(** X20 on the first call after one [update] of the sample vehicle. *)
Lemma accelerometer_after_update_witness :
  let f :=
    fst (_forces_moments Sample.aerosonde Sample.quaternion_to_euler
           Sample.euler_to_rotation Sample.MsgDelta_new sample_constructed) in
  let euler :=
    Sample.quaternion_to_euler
      (rows_6_10
         (Sample.hold_state (_state sample_constructed)
            (_ts_simulation sample_constructed) f)) in
  exists (msg : MsgSensors.t) (w' : world),
    sensors Sample.aerosonde Sample.sensor_parameters
      Sample.euler_to_rotation Sample.draws
      {| obj := sample_updated; rng_pos := 0 |}
    = (inr msg, w')
    /\ MsgSensors.accel_x msg
       = force_entry 0%nat f / MAV.mass Sample.aerosonde
         + MAV.gravity Sample.aerosonde * np_sin (snd (fst euler))
         + normal_at Sample.draws 0
             (SENSOR.accel_sigma Sample.sensor_parameters) 3.
Proof.
  cbv zeta.
  destruct sample_updated_returns as (msg & w' & Hrun).
  exists msg, w'. split; [ exact Hrun | ].
  destruct (accelerometer_after_update _ _ _ _ _ _ _ _ _ _ _ _ _ Hrun)
    as (Hx & _).
  exact Hx.
Defined.

(** ** The velocity round trip in binary64 *)

Module Binary64Run.

Import PrimFloat.
Local Open Scope float_scope.

(** At airspeed 25 and both angles 0 the round trip is exact in
    binary64 too: the velocity is (25, 0, 0) and the airspeed 25. *)
Lemma initialize_velocity_exact_at_zero_angles :
  Binary64.initialize_velocity Binary64.libm_cos Binary64.libm_sin 25 0 0
  = ((25, 0, 0), 25).
Proof. vm_compute. reflexivity. Qed.

(** C4 as the specification states it, with the airspeed recomputed
    exactly, does not hold of the code.  At airspeed 25, angle of attack
    0 and sideslip 0.2, inside the stated ranges, the stored velocity is
    (24.50166444603104, 4.9667332698765305, 0) and the airspeed the
    resolution caches is 24.999999999999996, one unit in the last place
    below the 25 that was passed in. *)
Lemma initialize_velocity_rounds :
  let result :=
    Binary64.initialize_velocity Binary64.libm_cos Binary64.libm_sin
      25 0 Binary64.one_fifth in
  fst result = (0x1.8806d14c544efp+4, 0x1.3ddef53884ca3p+2, 0)
  /\ snd result = 0x1.8ffffffffffffp+4
  /\ (snd result =? 25) = false
  /\ snd result <> 25.
Proof.
  cbv zeta.
  split; [ vm_compute; reflexivity | ].
  split; [ vm_compute; reflexivity | ].
  split; [ vm_compute; reflexivity | ].
  intros H.
  apply (f_equal (fun v => v =? 25)) in H.
  vm_compute in H. discriminate H.
Qed.

End Binary64Run.
